(** * Point-cloud colorization: a shallow embedding of the colorizer

    The development follows the two colorizers of the repository:
    - [Archive]: the class [PointCloudColorizer] of
      [archive/process_point_cloud_original_20250605.py];
    - [Script]: the functions of [scripts/process_point_cloud.py].
    - [Acquisition]: the downloads and the loader of the archived class;
    - [Naip]: the class [NAIPFetcher] of [services/data/get_orthophoto.py];
    - [ScriptMain]: the script's [main] and its pixel conversion.

    Conventions.  World coordinates are binary64 numbers in the program; every
    finite binary64 value is a rational and the program only compares, adds,
    subtracts and scales them, so coordinates are modelled by [Q] (NaN and
    infinities are outside the model).  Raster samples keep their NumPy
    representation: integers as [Z] with the wrap-around of the casts written
    out, floating-point samples as IEEE-754 values ([spec_float]).  Python
    exceptions are values of [Exc]; a function that can raise returns a
    [Result].  The libraries the program calls (pyproj, rasterio, the image
    service, the helper module [utils]) are fields of the class
    [Externals]. *)

From Stdlib Require Import ZArith QArith Qabs Qround List String Bool Lia Lqa.
From Stdlib Require Import DecimalString Permutation.
From Stdlib Require Import SpecFloat.
Import ListNotations.

Open Scope Z_scope.

(** ** Exceptions and results *)

Inductive Exc : Type :=
| OrthoNoCrs                      (* ValueError: orthophoto has no CRS information *)
| CannotDetermineCrs              (* ValueError: cannot determine point cloud CRS *)
| ZeroSizeReduction               (* ValueError: numpy min/max of an empty array *)
| ProjError                       (* any exception raised inside pyproj *)
| TransformFailed (cause : Exc)   (* RuntimeError: coordinate transformation failed: cause *)
| NotInvertible                   (* rasterio/affine: transform is not invertible *)
| ZeroDivision                    (* ZeroDivisionError *)
| NoPointsAutoCorrectionFailed    (* ValueError: no points within orthophoto bounds ... *)
| UnsupportedBands (count : Z)    (* ValueError: unsupported number of bands *)
| UnsupportedPointFormat          (* laspy: point format does not support a dimension *)
| IndexError                      (* boolean index / tuple index out of range *)
| ShapeMismatch                   (* numpy: could not broadcast input array *)
| CustomTransformError            (* exception raised by a caller-supplied callable *)
| RecursionError.                 (* maximum recursion depth exceeded *)

Inductive Result (A : Type) : Type :=
| Ok (a : A)
| Raise (e : Exc).

Arguments Ok {A} a.
Arguments Raise {A} e.

Definition bind {A B : Type} (c : Result A) (k : A -> Result B) : Result B :=
  match c with
  | Ok a => k a
  | Raise e => Raise e
  end.

Declare Scope result_scope.
Delimit Scope result_scope with result.
Notation "x <- c ;; k" := (bind c (fun x => k))
  (at level 61, c at next level, right associativity) : result_scope.
Notation "' pat <- c ;; k" := (bind c (fun x => match x with pat => k end))
  (at level 61, pat pattern, c at next level, right associativity) : result_scope.
Open Scope result_scope.

Definition is_ok {A : Type} (r : Result A) : bool :=
  match r with Ok _ => true | Raise _ => false end.

(** ** NumPy arrays as lists *)

Module Numpy.

Definition qle (a b : Q) : bool := Qle_bool a b.
Definition qlt (a b : Q) : bool := negb (Qle_bool b a).
Definition qeq (a b : Q) : bool := Qeq_bool a b.

(** [np.min] and [np.max] raise on an empty array. *)
Definition np_min (a : list Q) : Result Q :=
  match a with
  | [] => Raise ZeroSizeReduction
  | x :: rest => Ok (fold_left (fun m v => if qlt v m then v else m) rest x)
  end.

Definition np_max (a : list Q) : Result Q :=
  match a with
  | [] => Raise ZeroSizeReduction
  | x :: rest => Ok (fold_left (fun m v => if qlt m v then v else m) rest x)
  end.

(** [np.sum(mask)] on a boolean array. *)
Definition count_true (mask : list bool) : nat :=
  List.length (filter (fun b => b) mask).

(** The recursion behind [a[mask]] once the shapes are known to agree. *)
Fixpoint select {A : Type} (a : list A) (mask : list bool) : list A :=
  match a, mask with
  | x :: a', true :: m' => x :: select a' m'
  | _ :: a', false :: m' => select a' m'
  | _, _ => []
  end.

(** [a[mask]]: boolean-mask indexing; the mask must be as long as [a]. *)
Definition mask_select {A : Type} (a : list A) (mask : list bool) : Result (list A) :=
  if Nat.eqb (List.length a) (List.length mask) then Ok (select a mask)
  else Raise IndexError.

(** The recursion behind [a[mask, c] = vals]. *)
Fixpoint scatter {A B : Type} (set : A -> B -> A)
         (a : list A) (mask : list bool) (vals : list B) : list A :=
  match a, mask with
  | x :: a', true :: m' =>
      match vals with
      | v :: vs => set x v :: scatter set a' m' vs
      | [] => a
      end
  | x :: a', false :: m' => x :: scatter set a' m' vals
  | _, _ => a
  end.

(** [a[mask, c] = vals]: as many values as the mask has true entries. *)
Definition mask_assign {A B : Type} (set : A -> B -> A)
           (a : list A) (mask : list bool) (vals : list B) : Result (list A) :=
  if negb (Nat.eqb (List.length a) (List.length mask)) then Raise IndexError
  else if negb (Nat.eqb (List.length vals) (count_true mask)) then Raise ShapeMismatch
  else Ok (scatter set a mask vals).

(** [a[i:j]] for [0 <= i], [0 <= j]. *)
Definition slice {A : Type} (a : list A) (i j : nat) : list A :=
  firstn (j - i) (skipn i a).

(** [a[i:j] = vals] with [vals] of the length of the slice. *)
Definition slice_assign {A : Type} (a : list A) (i j : nat) (vals : list A)
  : Result (list A) :=
  if Nat.eqb (List.length vals) (List.length (slice a i j))
  then Ok (firstn i a ++ vals ++ skipn (i + List.length vals) a)
  else Raise ShapeMismatch.

(** [range(start, stop, step)] for a positive step. *)
Fixpoint range_from (fuel start stop step : nat) : list nat :=
  match fuel with
  | O => []
  | S fuel' =>
      if Nat.ltb start stop
      then start :: range_from fuel' (start + step) stop step
      else []
  end.

Definition range (start stop step : nat) : list nat :=
  range_from (stop - start) start stop step.

End Numpy.

(** ** IEEE-754 samples *)

Module Ieee.

(** A binary format: precision and maximal exponent. *)
Record format : Type := { prec : Z; emax : Z }.

Definition binary32 : format := {| prec := 24; emax := 128 |}.
Definition binary64 : format := {| prec := 53; emax := 1024 |}.

(** The value nearest to the integer [z]. *)
Definition of_Z (fmt : format) (z : Z) : spec_float :=
  binary_normalize (prec fmt) (emax fmt) z 0 false.

(** Rounding a value of any format into [fmt] ([astype(np.float32)]). *)
Definition round_to (fmt : format) (f : spec_float) : spec_float :=
  match f with
  | S754_finite s m e =>
      binary_normalize (prec fmt) (emax fmt) (if s then Z.neg m else Z.pos m) e s
  | _ => f
  end.

Definition mul (fmt : format) : spec_float -> spec_float -> spec_float :=
  SFmul (prec fmt) (emax fmt).
Definition div (fmt : format) : spec_float -> spec_float -> spec_float :=
  SFdiv (prec fmt) (emax fmt).

Definition ltb : spec_float -> spec_float -> bool := SFltb.
Definition leb : spec_float -> spec_float -> bool := SFleb.
Definition eqb : spec_float -> spec_float -> bool := SFeqb.

Definition is_nan (f : spec_float) : bool :=
  match f with S754_nan => true | _ => false end.

(** Truncation toward zero; NaN and the infinities give 0, as the
    conversion instruction's "integer indefinite" does in its low bits. *)
Definition trunc (f : spec_float) : Z :=
  match f with
  | S754_finite s m e =>
      let mag := if 0 <=? e then Z.shiftl (Z.pos m) e else Z.shiftr (Z.pos m) (- e) in
      if s then - mag else mag
  | _ => 0
  end.

(** [np.clip(x, lo, hi)]: NaN stays NaN. *)
Definition clip (x lo hi : spec_float) : spec_float :=
  if is_nan x then x
  else if ltb x lo then lo
  else if ltb hi x then hi
  else x.

(** [np.min] / [np.max] of a non-empty array: a NaN propagates. *)
Definition min2 (a b : spec_float) : spec_float :=
  if is_nan a then a else if is_nan b then b else if ltb b a then b else a.
Definition max2 (a b : spec_float) : spec_float :=
  if is_nan a then a else if is_nan b then b else if ltb a b then b else a.

Definition np_min (a : list spec_float) (default : spec_float) : spec_float :=
  match a with
  | [] => default
  | x :: rest => fold_left min2 rest x
  end.
Definition np_max (a : list spec_float) (default : spec_float) : spec_float :=
  match a with
  | [] => default
  | x :: rest => fold_left max2 rest x
  end.

(** Python's builtin [min(a, b)] and [max(a, b)]: the first argument wins
    unless the comparison with the second is true. *)
Definition py_min (a b : spec_float) : spec_float := if ltb b a then b else a.
Definition py_max (a b : spec_float) : spec_float := if ltb a b then b else a.

End Ieee.

(** A raster sample as NumPy holds it: an integer of an integer dtype or a
    floating-point value. *)
Inductive npval : Type :=
| NInt (z : Z)
| NFloat (f : spec_float).

Definition uint16_wrap (z : Z) : Z := z mod 65536.

(** [v.astype(np.uint16)]: integers wrap modulo 2^16; a floating-point value is
    truncated toward zero and the integer reduced modulo 2^16. *)
Definition astype_uint16 (v : npval) : Z :=
  match v with
  | NInt z => uint16_wrap z
  | NFloat f => uint16_wrap (Ieee.trunc f)
  end.

(** [v.astype(np.float32)]. *)
Definition astype_float32 (v : npval) : spec_float :=
  match v with
  | NInt z => Ieee.of_Z Ieee.binary32 z
  | NFloat f => Ieee.round_to Ieee.binary32 f
  end.

(** [np.int32] conversion of a pixel index. *)
Definition int32_wrap (z : Z) : Z := (z + 2147483648) mod 4294967296 - 2147483648.

(** ["needle" in haystack] on Python strings. *)
Definition str_contains (needle haystack : string) : bool :=
  match String.index 0 needle haystack with
  | Some _ => true
  | None => false
  end.

(** [haystack.startswith(p)]. *)
Definition str_startswith (p haystack : string) : bool := String.prefix p haystack.

(** ** Point clouds (laspy [LasData]) *)

Module Las.

(** A variable-length record of the header; the CRS lives in one. *)
Inductive Vlr : Type :=
| CrsVlr (wkt : string)
| OtherVlr (record_id : Z).

(** A point format: its identifier and the names of its dimensions. *)
Record PointFormat : Type := {
  pf_id : Z;
  pf_dims : list string
}.

Record LasHeader : Type := {
  version : Z * Z;
  point_format : PointFormat;
  x_scale : Q; y_scale : Q; z_scale : Q;
  x_offset : Q; y_offset : Q; z_offset : Q;
  vlrs : list Vlr
}.

(** One point record: scaled coordinates and the integer dimensions, read
    by name (a dimension the record does not store reads as 0). *)
Record Point : Type := {
  pt_x : Q;
  pt_y : Q;
  pt_z : Q;
  pt_dim : string -> Z
}.

Record LasData : Type := {
  header : LasHeader;
  points : list Point
}.

(** [las_data.x], [las_data.y], [las_data.z] and [getattr(las_data, name)]. *)
Definition xs (las : LasData) : list Q := map pt_x (points las).
Definition ys (las : LasData) : list Q := map pt_y (points las).
Definition zs (las : LasData) : list Q := map pt_z (points las).
Definition column (name : string) (las : LasData) : list Z :=
  map (fun p => pt_dim p name) (points las).

Definition mem_string (s : string) (l : list string) : bool :=
  existsb (String.eqb s) l.

(** [hasattr(las_data, name)] for a dimension name. *)
Definition hasattr (las : LasData) (name : string) : bool :=
  mem_string name (pf_dims (point_format (header las))).

(** [header.crs]: the CRS parsed from the first CRS record, if any. *)
Fixpoint parse_crs (l : list Vlr) : option string :=
  match l with
  | [] => None
  | CrsVlr wkt :: _ => Some wkt
  | OtherVlr _ :: rest => parse_crs rest
  end.

(** [laspy.PointFormat(2)]: the dimensions of LAS point format 2. *)
Definition PointFormat2 : PointFormat :=
  {| pf_id := 2;
     pf_dims := [ "X"; "Y"; "Z"; "intensity"; "return_number";
                  "number_of_returns"; "scan_direction_flag";
                  "edge_of_flight_line"; "classification"; "synthetic";
                  "key_point"; "withheld"; "scan_angle_rank"; "user_data";
                  "point_source_id"; "red"; "green"; "blue" ]%string |}.

End Las.

(** ** Rasters (rasterio [DatasetReader]) *)

Module Raster.

(** The six coefficients of an affine transform, [transform[0..5]]. *)
Record Affine : Type := {
  a : Q; b : Q; c : Q;
  d : Q; e : Q; f : Q
}.

Record Bounds : Type := {
  left : Q; bottom : Q; right : Q; top : Q
}.

Record Dataset : Type := {
  crs : option string;
  bounds : Bounds;
  width : Z;
  height : Z;
  transform : Affine;
  count : Z;
  dtypes : list string;
  (** [read(band)[row, col]], bands numbered from 1. *)
  read : Z -> Z -> Z -> npval
}.

End Raster.

(** A 16-bit colour triple, one row of the [(N, 3)] colour array. *)
Definition Color : Type := (Z * Z * Z)%type.

Definition set_red (c : Color) (v : Z) : Color := let '(_, g, b) := c in (v, g, b).
Definition set_green (c : Color) (v : Z) : Color := let '(r, _, b) := c in (r, v, b).
Definition set_blue (c : Color) (v : Z) : Color := let '(r, g, _) := c in (r, g, v).
Definition red_of (c : Color) : Z := let '(r, _, _) := c in r.
Definition green_of (c : Color) : Z := let '(_, g, _) := c in g.
Definition blue_of (c : Color) : Z := let '(_, _, b) := c in b.

(** [np.zeros((n, 3), dtype=np.uint16)]. *)
Definition zeros_colors (n : nat) : list Color := repeat (0, 0, 0) n.

(** ** The libraries the colorizers call *)

(** A pyproj transformer acts on each coordinate pair on its own; [None] is
    an exception raised for that pair. *)
Definition Transformer : Type := Q -> Q -> option (Q * Q).

Class Externals : Type := {
  (** [utils.CRSUtils.detect_point_cloud_crs]. *)
  detect_point_cloud_crs : Las.LasData -> option string;
  (** [CRS.from_string] on both names followed by [Transformer.from_crs];
      [None] when one of them raises. *)
  transformer_from_crs : string -> string -> option Transformer;
  (** [rasterio.transform.rowcol] for one coordinate pair, giving
      [(row, col)]; [None] when the transform cannot be inverted. *)
  rowcol : Raster.Affine -> option (Q -> Q -> Z * Z);
  (** [rasterio.transform.from_bounds]. *)
  from_bounds : Q -> Q -> Q -> Q -> Z -> Z -> Raster.Affine
}.

(** [transformer.transform(xs, ys)] on two arrays. *)
Fixpoint transformer_transform (t : Transformer) (xs ys : list Q)
  : Result (list Q * list Q) :=
  match xs, ys with
  | [], [] => Ok ([], [])
  | x :: xs', y :: ys' =>
      match t x y with
      | None => Raise ProjError
      | Some (x', y') =>
          '(rx, ry) <- transformer_transform t xs' ys' ;;
          Ok (x' :: rx, y' :: ry)
      end
  | _, _ => Raise ProjError
  end.

(** ** The archived colorizer: class [PointCloudColorizer] *)

Module Archive.

Import Numpy.

(** The fields of [self] that the methods below read. *)
Record PointCloudColorizer : Type := {
  create_diagnostics : bool
}.

(** *** [transform_point_cloud_to_ortho_crs] *)

(** The fallback of lines 233-269: the CRS guessed from the coordinate
    ranges when neither the caller nor the detection gives one. *)
Definition guess_crs_from_ranges (x_min x_max y_min y_max : Q) : Result string :=
  if qlt x_min (-1000000) && qlt (Qabs x_min) 20037508
     && qlt 1000000 y_min && qlt y_max 20037508
  then Ok "EPSG:3857"%string
  else if qle (-180) x_min && qle x_min 180 && qle (-90) y_min && qle y_min 90
  then Ok "EPSG:4326"%string
  else if qlt 100000 x_min && qlt x_min 900000
          && qlt 1000000 y_min && qlt y_min 10000000
  then Ok "EPSG:26913"%string
  else Raise CannotDetermineCrs.

Definition batch_size : N := 500000.

(** The body of the loop [for i in range(0, total_points, batch_size)],
    run over the start indices that are left. *)
Fixpoint transform_batches (t : Transformer) (x_coords y_coords : list Q)
         (total_points size : nat) (starts : list nat)
         (transformed_x transformed_y : list Q) : Result (list Q * list Q) :=
  match starts with
  | [] => Ok (transformed_x, transformed_y)
  | i :: rest =>
      let end_idx := Nat.min (i + size) total_points in
      let batch_x := slice x_coords i end_idx in
      let batch_y := slice y_coords i end_idx in
      '(trans_x, trans_y) <- transformer_transform t batch_x batch_y ;;
      transformed_x' <- slice_assign transformed_x i end_idx trans_x ;;
      transformed_y' <- slice_assign transformed_y i end_idx trans_y ;;
      transform_batches t x_coords y_coords total_points size rest
                        transformed_x' transformed_y'
  end.

(** The [try] block of lines 273-305 for a batch size [size]. *)
Definition transform_in_batches `{Externals} (size : nat)
           (x_coords y_coords : list Q) (source_crs ortho_crs : string)
  : Result (list Q * list Q) :=
  match transformer_from_crs source_crs ortho_crs with
  | None => Raise ProjError
  | Some t =>
      let total_points := List.length x_coords in
      transform_batches t x_coords y_coords total_points size
                        (range 0 total_points size)
                        (repeat 0%Q (List.length x_coords))
                        (repeat 0%Q (List.length y_coords))
  end.

(** Source CRS of lines 229-269: the caller's, else the detected one, else
    the guess from the ranges. *)
Definition resolve_source_crs `{Externals} (las : Las.LasData)
           (source_crs : option string) : Result string :=
  let source_crs :=
    match source_crs with
    | None => detect_point_cloud_crs las
    | Some s => Some s
    end in
  match source_crs with
  | Some s => Ok s
  | None =>
      x_min <- np_min (Las.xs las) ;;
      x_max <- np_max (Las.xs las) ;;
      y_min <- np_min (Las.ys las) ;;
      y_max <- np_max (Las.ys las) ;;
      guess_crs_from_ranges x_min x_max y_min y_max
  end.

Definition transform_point_cloud_to_ortho_crs `{Externals}
           (las : Las.LasData) (ortho_crs : string) (source_crs : option string)
  : Result (list Q * list Q) :=
  source_crs <- resolve_source_crs las source_crs ;;
  match transform_in_batches (N.to_nat batch_size)
                             (Las.xs las) (Las.ys las) source_crs ortho_crs with
  | Ok r => Ok r
  | Raise e => Raise (TransformFailed e)
  end.

(** *** [colorize_point_cloud] *)

(** What an invocation finds around it: the replies the image service and
    [rasterio.open] will give to the next requests for a corrected
    orthophoto ([None]: the request or the opening raises), the number of
    draws taken from NumPy's global random generator, and counters of the
    recursive calls made and of the diagnostic plots written. *)
Record World : Type := {
  w_downloads : list (option Raster.Dataset);
  w_rng : N;
  w_retries : nat;
  w_plots : nat
}.

(** [create_alignment_diagnostic]: draws a sample and writes a plot. *)
Definition create_alignment_diagnostic (w : World) : World :=
  {| w_downloads := w_downloads w;
     w_rng := N.succ (w_rng w);
     w_retries := w_retries w;
     w_plots := S (w_plots w) |}.

(** Python's [x / y] on floats. *)
Definition py_div (x y : Q) : Result Q :=
  if qeq y 0 then Raise ZeroDivision else Ok (x / y)%Q.

(** Bounds of the transformed cloud, lines 459-460. *)
Definition cloud_bounds (tx ty : list Q) : Result Raster.Bounds :=
  pc_x_min <- np_min tx ;;
  pc_x_max <- np_max tx ;;
  pc_y_min <- np_min ty ;;
  pc_y_max <- np_max ty ;;
  Ok {| Raster.left := pc_x_min; Raster.bottom := pc_y_min;
        Raster.right := pc_x_max; Raster.top := pc_y_max |}.

(** Lines 478-485. *)
Definition bounds_overlap (pc ortho : Raster.Bounds) : bool * bool :=
  (negb (qlt (Raster.right pc) (Raster.left ortho)
         || qlt (Raster.right ortho) (Raster.left pc)),
   negb (qlt (Raster.top pc) (Raster.bottom ortho)
         || qlt (Raster.top ortho) (Raster.bottom pc))).

(** Lines 619-675: the pixel-size check, the choice of the transform and
    the pixel indices as [np.int32] arrays [(pixel_cols, pixel_rows)]. *)
Definition pixel_coordinates `{Externals} (ortho : Raster.Dataset)
           (tx ty : list Q) : Result (list Z * list Z) :=
  let bnd := Raster.bounds ortho in
  let tr := Raster.transform ortho in
  expected_pixel_width <-
    py_div (Raster.right bnd - Raster.left bnd) (inject_Z (Raster.width ortho)) ;;
  expected_pixel_height <-
    py_div (Raster.top bnd - Raster.bottom bnd) (inject_Z (Raster.height ortho)) ;;
  let x_issue := qlt (expected_pixel_width * (1 # 10))
                     (Qabs (Raster.a tr - expected_pixel_width)) in
  let y_issue := qlt (expected_pixel_height * (1 # 10))
                     (Qabs (Qabs (Raster.e tr) - expected_pixel_height)) in
  let used :=
    if x_issue || y_issue
    then from_bounds (Raster.left bnd) (Raster.bottom bnd)
                     (Raster.right bnd) (Raster.top bnd)
                     (Raster.width ortho) (Raster.height ortho)
    else tr in
  match rowcol used with
  | None => Raise NotInvertible
  | Some rc =>
      let rows_cols := map (fun p => rc (fst p) (snd p)) (combine tx ty) in
      Ok (map (fun p => int32_wrap (snd p)) rows_cols,
          map (fun p => int32_wrap (fst p)) rows_cols)
  end.

(** Lines 693-698. *)
Definition valid_pixel (ortho : Raster.Dataset) (col row : Z) : bool :=
  (0 <=? col) && (col <? Raster.width ortho)
  && (0 <=? row) && (row <? Raster.height ortho).

Definition make_valid_mask (ortho : Raster.Dataset)
           (pixel_cols pixel_rows : list Z) : list bool :=
  map (fun p => valid_pixel ortho (fst p) (snd p)) (combine pixel_cols pixel_rows).

(** The floating-point format of an array of the given dtype. *)
Definition float_format (dtype_str : string) : Ieee.format :=
  if str_contains "float32" dtype_str then Ieee.binary32 else Ieee.binary64.

(** [values * k] for a Python integer [k].  On an integer array the
    product is taken in a type wide enough for [k] (NumPy's value-based
    promotion) and reduced by the cast that follows; on a floating-point
    array it is rounded in the array's format. *)
Definition np_mul_int (dtype_str : string) (v : npval) (k : Z) : npval :=
  match v with
  | NInt z => NInt (z * k)
  | NFloat x =>
      NFloat (Ieee.mul (float_format dtype_str) x (Ieee.of_Z (float_format dtype_str) k))
  end.

(** Lines 816-847: one channel value from one raster sample. *)
Definition scale_sample (dtype_str : string) (v : npval) : Z :=
  if str_contains "uint8" dtype_str then
    let scale_factor := 257 in
    astype_uint16 (np_mul_int dtype_str v scale_factor)
  else if str_contains "uint16" dtype_str then astype_uint16 v
  else if str_contains "float" dtype_str then
    astype_uint16 (np_mul_int dtype_str v 65535)
  else astype_uint16 v.

(** [band[valid_rows, valid_cols]]. *)
Definition index_band (ortho : Raster.Dataset) (band : Z)
           (valid_rows valid_cols : list Z) : list npval :=
  map (fun p => Raster.read ortho band (fst p) (snd p)) (combine valid_rows valid_cols).

(** Lines 767-814: the raw samples of the three channels. *)
Definition read_channels (ortho : Raster.Dataset) (valid_rows valid_cols : list Z)
  : Result (list npval * list npval * list npval) :=
  if 3 <=? Raster.count ortho then
    Ok (index_band ortho 1 valid_rows valid_cols,
        index_band ortho 2 valid_rows valid_cols,
        index_band ortho 3 valid_rows valid_cols)
  else if Raster.count ortho =? 1 then
    let gray_values := index_band ortho 1 valid_rows valid_cols in
    Ok (gray_values, gray_values, gray_values)
  else Raise (UnsupportedBands (Raster.count ortho)).

(** Lines 758-879: colour extraction once the mask is known. *)
Definition sample_colors (ortho : Raster.Dataset) (pixel_cols pixel_rows : list Z)
           (valid_mask : list bool) (total_points : nat) : Result (list Color) :=
  let colors := zeros_colors total_points in
  valid_cols <- mask_select pixel_cols valid_mask ;;
  valid_rows <- mask_select pixel_rows valid_mask ;;
  '(red_values, green_values, blue_values) <-
    read_channels ortho valid_rows valid_cols ;;
  (* the debug lines take np.min of the samples *)
  _ <- match red_values with [] => Raise ZeroSizeReduction | _ => Ok tt end ;;
  dtype_str <- match Raster.dtypes ortho with
               | [] => Raise IndexError
               | d :: _ => Ok d
               end ;;
  colors <- mask_assign set_red colors valid_mask
                        (map (scale_sample dtype_str) red_values) ;;
  colors <- mask_assign set_green colors valid_mask
                        (map (scale_sample dtype_str) green_values) ;;
  colors <- mask_assign set_blue colors valid_mask
                        (map (scale_sample dtype_str) blue_values) ;;
  Ok colors.

(** What lines 444-711 compute before the coverage test, apart from the
    diagnostic plot. *)
Record Located : Type := {
  loc_bounds : Raster.Bounds;
  loc_overlap : bool * bool;
  pixel_cols : list Z;
  pixel_rows : list Z;
  valid_mask : list bool;
  num_valid : nat;
  total_points : nat
}.

(** Lines 444-485. *)
Definition align `{Externals} (las : Las.LasData) (ortho : Raster.Dataset)
           (source_crs : option string)
  : Result (list Q * list Q * Raster.Bounds * (bool * bool)) :=
  match Raster.crs ortho with
  | None => Raise OrthoNoCrs
  | Some ortho_crs =>
      '(transformed_x, transformed_y) <-
        transform_point_cloud_to_ortho_crs las ortho_crs source_crs ;;
      pc <- cloud_bounds transformed_x transformed_y ;;
      Ok (transformed_x, transformed_y, pc, bounds_overlap pc (Raster.bounds ortho))
  end.

(** Lines 606-711. *)
Definition locate `{Externals} (las : Las.LasData) (ortho : Raster.Dataset)
           (transformed_x transformed_y : list Q) (pc : Raster.Bounds)
           (overlap : bool * bool) : Result Located :=
  '(cols, rows) <- pixel_coordinates ortho transformed_x transformed_y ;;
  let mask := make_valid_mask ortho cols rows in
  Ok {| loc_bounds := pc; loc_overlap := overlap;
        pixel_cols := cols; pixel_rows := rows; valid_mask := mask;
        num_valid := count_true mask;
        total_points := List.length (Las.points las) |}.

(** Line 712: [num_valid == 0 or current_coverage < coverage_threshold]. *)
Definition low_coverage (l : Located) : bool :=
  let coverage_threshold := (1 # 10)%Q in
  let current_coverage :=
    (inject_Z (Z.of_nat (num_valid l)) / inject_Z (Z.of_nat (total_points l)))%Q in
  Nat.eqb (num_valid l) 0 || qlt current_coverage coverage_threshold.

(** The next reply to a request for a corrected orthophoto. *)
Definition download_corrected_orthophoto (w : World)
  : World * option Raster.Dataset :=
  match w_downloads w with
  | [] => (w, None)
  | reply :: rest =>
      ({| w_downloads := rest; w_rng := w_rng w;
          w_retries := w_retries w; w_plots := w_plots w |}, reply)
  end.

Definition count_retry (w : World) : World :=
  {| w_downloads := w_downloads w; w_rng := w_rng w;
     w_retries := S (w_retries w); w_plots := w_plots w |}.

(** [colorize_point_cloud].  [depth] is the number of nested calls the
    interpreter still allows; the call that exceeds it raises
    [RecursionError], which the handler of line 747 catches like any other
    exception. *)
Fixpoint colorize_point_cloud `{Externals} (self : PointCloudColorizer)
         (depth : nat) (w : World) (las : Las.LasData)
         (ortho : Raster.Dataset) (source_crs : option string)
  : World * Result (list Color * list bool) :=
  match depth with
  | O => (w, Raise RecursionError)
  | S depth' =>
      match align las ortho source_crs with
      | Raise e => (w, Raise e)
      | Ok (transformed_x, transformed_y, pc, overlap) =>
          let w :=
            if create_diagnostics self || negb (fst overlap && snd overlap)
            then create_alignment_diagnostic w else w in
          match locate las ortho transformed_x transformed_y pc overlap with
          | Raise e => (w, Raise e)
          | Ok l =>
              let extract :=
                match sample_colors ortho (pixel_cols l) (pixel_rows l)
                                    (valid_mask l) (total_points l) with
                | Ok colors => Ok (colors, valid_mask l)
                | Raise e => Raise e
                end in
              let handler (w : World) :=
                if Nat.eqb (num_valid l) 0
                then (w, Raise NoPointsAutoCorrectionFailed)
                else (w, extract) in
              if low_coverage l then
                match download_corrected_orthophoto w with
                | (w, None) => handler w
                | (w, Some corrected_dataset) =>
                    match colorize_point_cloud self depth' (count_retry w) las
                                               corrected_dataset source_crs with
                    | (w, Ok result) => (w, Ok result)
                    | (w, Raise _) => handler w
                    end
                end
              else (w, extract)
          end
      end
  end.

(** *** [save_colorized_point_cloud] *)

Definition rgb_supported_formats : list Z := [2; 3; 5; 7; 8; 10].

Definition attributes_to_copy : list string :=
  [ "intensity"; "return_number"; "number_of_returns"; "classification";
    "scan_angle_rank"; "user_data"; "point_source_id" ]%string.

(** Lines 913-942: the header of the output file.  laspy checks that the
    point format is allowed for the version when the header is built; that
    check is outside the model, which gives the header of a file that is
    written. *)
Definition output_header (original_header : Las.LasHeader) : Las.LasHeader :=
  let new_point_format :=
    if negb (existsb (Z.eqb (Las.pf_id (Las.point_format original_header)))
                     rgb_supported_formats)
    then Las.PointFormat2
    else Las.point_format original_header in
  {| Las.version := Las.version original_header;
     Las.point_format := new_point_format;
     Las.x_scale := Las.x_scale original_header;
     Las.y_scale := Las.y_scale original_header;
     Las.z_scale := Las.z_scale original_header;
     Las.x_offset := Las.x_offset original_header;
     Las.y_offset := Las.y_offset original_header;
     Las.z_offset := Las.z_offset original_header;
     Las.vlrs := Las.vlrs original_header |}.

(** One record of the output: the coordinates, the listed attributes the
    input has, and the colour; every other dimension of the freshly
    created record stays 0.  laspy refuses a value too wide for the field it
    is copied to; that check is outside the model as well. *)
Definition output_point (las : Las.LasData) (p : Las.Point) (c : Color) : Las.Point :=
  {| Las.pt_x := Las.pt_x p;
     Las.pt_y := Las.pt_y p;
     Las.pt_z := Las.pt_z p;
     Las.pt_dim := fun name =>
       if String.eqb name "red" then red_of c
       else if String.eqb name "green" then green_of c
       else if String.eqb name "blue" then blue_of c
       else if Las.mem_string name attributes_to_copy && Las.hasattr las name
            then Las.pt_dim p name
       else 0 |}.

(** Lines 944-977; the value is the point cloud written to [output_path]. *)
Definition save_colorized_point_cloud (las : Las.LasData) (colors : list Color)
           (valid_mask : list bool) : Result Las.LasData :=
  let header := output_header (Las.header las) in
  (* las_data.x[valid_mask], ...[valid_mask] for every copied array *)
  kept <- mask_select (Las.points las) valid_mask ;;
  valid_colors <- mask_select colors valid_mask ;;
  Ok {| Las.header := header;
        Las.points := map (fun pc => output_point las (fst pc) (snd pc))
                          (combine kept valid_colors) |}.

(** *** [create_summary_report] *)

Record ProcessingStats : Type := {
  original_total_points : nat;
  trimmed_points : nat;
  trimming_rate : Q;
  colorized_points : nat;
  colorization_rate : Q
}.

Record ColorStats : Type := {
  mean_red : Q; mean_green : Q; mean_blue : Q;
  max_red : Z; max_green : Z; max_blue : Z
}.

(** [np.any(valid_colors > 0, axis=1)] for one row. *)
Definition any_positive (c : Color) : bool :=
  (0 <? red_of c) || (0 <? green_of c) || (0 <? blue_of c).

Definition mean_of (l : list Z) : Q :=
  match l with
  | [] => 0%Q
  | _ => (inject_Z (fold_left Z.add l 0%Z) / inject_Z (Z.of_nat (List.length l)))%Q
  end.

Definition max_of (l : list Z) : Z :=
  match l with
  | [] => 0
  | x :: rest => fold_left Z.max rest x
  end.

(** Lines 1498-1539: the two dictionaries of the report. *)
Definition create_summary_report (colors : list Color) (valid_mask : list bool)
  : Result (ProcessingStats * ColorStats) :=
  let total_original_points := List.length colors in
  let trimmed := count_true valid_mask in
  valid_colors <- mask_select colors valid_mask ;;
  let colorized := List.length (filter any_positive valid_colors) in
  Ok ({| original_total_points := total_original_points;
         trimmed_points := trimmed;
         (* a NumPy quotient: no exception for an empty colour array *)
         trimming_rate :=
           (inject_Z (Z.of_nat trimmed) / inject_Z (Z.of_nat total_original_points))%Q;
         colorized_points := colorized;
         colorization_rate :=
           if Nat.ltb 0 (List.length valid_colors)
           then (inject_Z (Z.of_nat colorized)
                 / inject_Z (Z.of_nat (List.length valid_colors)))%Q
           else 0%Q |},
      {| mean_red := mean_of (map red_of valid_colors);
         mean_green := mean_of (map green_of valid_colors);
         mean_blue := mean_of (map blue_of valid_colors);
         max_red := max_of (map red_of valid_colors);
         max_green := max_of (map green_of valid_colors);
         max_blue := max_of (map blue_of valid_colors) |}).

(** *** [process_files], from the loaded inputs on *)

Definition process_files `{Externals} (self : PointCloudColorizer)
           (depth : nat) (w : World) (las : Las.LasData) (ortho : Raster.Dataset)
           (create_summary : bool)
  : World * Result (Las.LasData * option (ProcessingStats * ColorStats)) :=
  match colorize_point_cloud self depth w las ortho None with
  | (w, Raise e) => (w, Raise e)
  | (w, Ok (colors, valid_mask)) =>
      (w,
       out <- save_colorized_point_cloud las colors valid_mask ;;
       if create_summary then
         report <- create_summary_report colors valid_mask ;;
         Ok (out, Some report)
       else Ok (out, None))
  end.

End Archive.

(** ** The current script: [scripts/process_point_cloud.py] *)

Module Script.

Import Numpy.

(** What the functions print, where a property below speaks about it. *)
Inductive Message : Type :=
| NoValidPoints                  (* No valid points to colorize. *)
| UnsupportedBandsMsg (bands : Z) (* Unsupported number of bands ... *)
| FloatRangeWarning              (* WARNING: Float data may be outside ... *)
| HeuristicScaling.              (* Source dtype ... Applying heuristic scaling *)

(** [identify_point_cloud_crs]. *)
Definition identify_point_cloud_crs (las : Las.LasData) : string :=
  match Las.parse_crs (Las.vlrs (Las.header las)) with
  | Some crs => crs
  | None => "EPSG:2232"%string
  end.

(** A caller-supplied [custom_transform_func]. *)
Definition CustomTransform : Type := list Q -> list Q -> Result (list Q * list Q).

(** [np.column_stack((xs, ys))]. *)
Definition column_stack (xs ys : list Q) : Result (list (Q * Q)) :=
  if Nat.eqb (List.length xs) (List.length ys) then Ok (combine xs ys)
  else Raise ShapeMismatch.

(** Python's [x / y] on floats. *)
Definition py_div (x y : Q) : Result Q :=
  if qeq y 0 then Raise ZeroDivision else Ok (x / y)%Q.

(** Lines 107-128: the bounds-to-bounds scaling. *)
Definition bounds_to_bounds_scaling (x_coords y_coords : list Q)
  : Result (list (Q * Q)) :=
  min_x <- np_min x_coords ;;
  max_x <- np_max x_coords ;;
  min_y <- np_min y_coords ;;
  max_y <- np_max y_coords ;;
  let target_min_x := (4762169806 # 10000)%Q in
  let target_max_x := (4778330806 # 10000)%Q in
  let target_min_y := (44248648564 # 10000)%Q in
  let target_max_y := (44264811064 # 10000)%Q in
  x_scale <- (if negb (qeq (max_x - min_x) 0)
              then py_div (target_max_x - target_min_x) (max_x - min_x)
              else Ok 1%Q) ;;
  y_scale <- (if negb (qeq (max_y - min_y) 0)
              then py_div (target_max_y - target_min_y) (max_y - min_y)
              else Ok 1%Q) ;;
  let transformed_x := map (fun x => target_min_x + (x - min_x) * x_scale)%Q x_coords in
  let transformed_y := map (fun y => target_min_y + (y - min_y) * y_scale)%Q y_coords in
  column_stack transformed_x transformed_y.

(** [transform_coordinates]. *)
Definition transform_coordinates `{Externals} (las : Las.LasData)
           (target_crs_str : string) (custom_transform_func : option CustomTransform)
  : Result (list (Q * Q)) :=
  let x_coords := Las.xs las in
  let y_coords := Las.ys las in
  let source_crs_str := identify_point_cloud_crs las in
  let attempt : Result (list (Q * Q)) :=
    if negb (String.eqb source_crs_str EmptyString) then
      match transformer_from_crs source_crs_str target_crs_str with
      | None => Raise ProjError
      | Some t =>
          '(transformed_x, transformed_y) <- transformer_transform t x_coords y_coords ;;
          column_stack transformed_x transformed_y
      end
    else Raise ProjError in
  match attempt with
  | Ok coords => Ok coords
  | Raise _ =>
      match custom_transform_func with
      | Some func =>
          '(transformed_x, transformed_y) <- func x_coords y_coords ;;
          column_stack transformed_x transformed_y
      | None => bounds_to_bounds_scaling x_coords y_coords
      end
  end.

(** [define_custom_transform].  The quotients and products are exact here;
    the program rounds each of them to binary64, which moves a result by less
    than 1e-8. *)
Definition define_custom_transform : CustomTransform := fun x y =>
  let source_min_x := (306526293 # 100)%Q in
  let source_max_x := (306572885 # 100)%Q in
  let source_min_y := (178050857 # 100)%Q in
  let source_max_y := (178080863 # 100)%Q in
  let target_min_x := (4762169806 # 10000)%Q in
  let target_max_x := (4778330806 # 10000)%Q in
  let target_min_y := (44248648564 # 10000)%Q in
  let target_max_y := (44264811064 # 10000)%Q in
  x_scale <- py_div (target_max_x - target_min_x) (source_max_x - source_min_x) ;;
  y_scale <- py_div (target_max_y - target_min_y) (source_max_y - source_min_y) ;;
  let x_offset := (target_min_x - source_min_x * x_scale)%Q in
  let y_offset := (target_min_y - source_min_y * y_scale)%Q in
  Ok (map (fun v => v * x_scale + x_offset)%Q x,
      map (fun v => v * y_scale + y_offset)%Q y).

Definition f32 (z : Z) : spec_float := Ieee.of_Z Ieee.binary32 z.
Definition fmul : spec_float -> spec_float -> spec_float := Ieee.mul Ieee.binary32.
Definition fdiv : spec_float -> spec_float -> spec_float := Ieee.div Ieee.binary32.

(** [band[valid_y_indices, valid_x_indices].astype(np.float32)]. *)
Definition index_band_float (raster : Raster.Dataset) (band : Z)
           (valid_y_indices valid_x_indices : list Z) : list spec_float :=
  map (fun p => astype_float32 (Raster.read raster band (fst p) (snd p)))
      (combine valid_y_indices valid_x_indices).

(** [x / 255.0 * 65535.0] in binary32. *)
Definition scale_uint8 (x : spec_float) : spec_float :=
  fmul (fdiv x (f32 255)) (f32 65535).

(** [x * 65535.0] in binary32. *)
Definition scale_float (x : spec_float) : spec_float := fmul x (f32 65535).

(** [np.clip(x, 0, 65535).astype(np.uint16)]. *)
Definition clip_to_uint16 (x : spec_float) : Z :=
  astype_uint16 (NFloat (Ieee.clip x (f32 0) (f32 65535))).

(** Lines 278-296: whether the range warning is printed. *)
Definition float_range_warning (r_float g_float b_float : list spec_float) : bool :=
  let min_val_check :=
    Ieee.py_min (Ieee.py_min (Ieee.np_min r_float (f32 0)) (Ieee.np_min g_float (f32 0)))
                (Ieee.np_min b_float (f32 0)) in
  let max_val_check :=
    Ieee.py_max (Ieee.py_max (Ieee.np_max r_float (f32 1)) (Ieee.np_max g_float (f32 1)))
                (Ieee.np_max b_float (f32 1)) in
  let is_all_zero :=
    Ieee.eqb max_val_check (f32 0) && Ieee.eqb min_val_check (f32 0) in
  negb is_all_zero
  && negb (Ieee.leb (f32 0) min_val_check && Ieee.leb min_val_check (f32 1)
           && Ieee.leb (f32 0) max_val_check && Ieee.leb max_val_check (f32 1)).

(** Lines 305-318: whether the heuristic rescales like 8-bit data. *)
Definition heuristic_is_8bit (r_float g_float b_float : list spec_float) : bool :=
  let current_max_val := f32 0 in
  let current_max_val :=
    match r_float with
    | [] => current_max_val
    | _ => Ieee.py_max current_max_val (Ieee.np_max r_float (f32 0))
    end in
  let current_max_val :=
    match g_float with
    | [] => current_max_val
    | _ => Ieee.py_max current_max_val (Ieee.np_max g_float (f32 0))
    end in
  let current_max_val :=
    match b_float with
    | [] => current_max_val
    | _ => Ieee.py_max current_max_val (Ieee.np_max b_float (f32 0))
    end in
  Ieee.ltb (f32 0) current_max_val && Ieee.ltb current_max_val (f32 256).

(** Lines 267-318: the scaling applied to every sample and the messages. *)
Definition scaling (source_dtype_str : string) (r_float g_float b_float : list spec_float)
  : (spec_float -> spec_float) * list Message :=
  if String.eqb source_dtype_str "uint8" then (scale_uint8, [])
  else if String.eqb source_dtype_str "uint16" then (fun x => x, [])
  else if str_startswith "float" source_dtype_str then
    (scale_float,
     if float_range_warning r_float g_float b_float then [FloatRangeWarning] else [])
  else
    (if heuristic_is_8bit r_float g_float b_float then scale_uint8 else (fun x => x),
     [HeuristicScaling]).

(** [extract_colors_from_image]: the colour array and what was printed. *)
Definition extract_colors_from_image (raster : Raster.Dataset)
           (pixel_x pixel_y : list Z) (valid_points : list bool)
  : Result (list Color * list Message) :=
  valid_x_indices <- mask_select pixel_x valid_points ;;
  valid_y_indices <- mask_select pixel_y valid_points ;;
  let num_total_points := List.length pixel_x in
  let colors_out := zeros_colors num_total_points in
  if Nat.eqb (count_true valid_points) 0 then Ok (colors_out, [NoValidPoints])
  else
    let bands := Raster.count raster in
    source_dtype_str <- match Raster.dtypes raster with
                        | [] => Raise IndexError
                        | d :: _ => Ok d
                        end ;;
    let channels :=
      if 3 <=? bands then
        Some (index_band_float raster 1 valid_y_indices valid_x_indices,
              index_band_float raster 2 valid_y_indices valid_x_indices,
              index_band_float raster 3 valid_y_indices valid_x_indices)
      else if bands =? 1 then
        let gray_float := index_band_float raster 1 valid_y_indices valid_x_indices in
        Some (gray_float, gray_float, gray_float)
      else None in
    match channels with
    | None => Ok (colors_out, [UnsupportedBandsMsg bands])   (* Return zeros *)
    | Some (r_float, g_float, b_float) =>
        let '(scale, printed) := scaling source_dtype_str r_float g_float b_float in
        colors_out <- mask_assign set_red colors_out valid_points
                                  (map (fun x => clip_to_uint16 (scale x)) r_float) ;;
        colors_out <- mask_assign set_green colors_out valid_points
                                  (map (fun x => clip_to_uint16 (scale x)) g_float) ;;
        colors_out <- mask_assign set_blue colors_out valid_points
                                  (map (fun x => clip_to_uint16 (scale x)) b_float) ;;
        Ok (colors_out, printed)
    end.

(** One record of the output: the input record with its colour replaced. *)
Definition recolored_point (p : Las.Point) (c : Color) : Las.Point :=
  {| Las.pt_x := Las.pt_x p;
     Las.pt_y := Las.pt_y p;
     Las.pt_z := Las.pt_z p;
     Las.pt_dim := fun name =>
       if String.eqb name "red" then red_of c
       else if String.eqb name "green" then green_of c
       else if String.eqb name "blue" then blue_of c
       else Las.pt_dim p name |}.

(** [save_colorized_point_cloud]: all the input records are copied and
    their colours set.  laspy refuses a colour dimension the point format
    does not have; one colour per record is expected. *)
Definition save_colorized_point_cloud (input_las_data : Las.LasData)
           (colors : list Color) : Result Las.LasData :=
  if negb (Las.hasattr input_las_data "red" && Las.hasattr input_las_data "green"
           && Las.hasattr input_las_data "blue")
  then Raise UnsupportedPointFormat
  else if negb (Nat.eqb (List.length colors) (List.length (Las.points input_las_data)))
  then Raise ShapeMismatch
  else Ok {| Las.header := Las.header input_las_data;
             Las.points := map (fun pc => recolored_point (fst pc) (snd pc))
                               (combine (Las.points input_las_data) colors) |}.

End Script.

(** ** Concrete collaborators and inputs

    A north-up instance of the libraries (no rotation terms) and small
    inputs on which the definitions above are run. *)

Module Scenario.

Definition identity_transformer : Transformer := fun x y => Some (x, y).

(** A transformer that fails on points with a negative easting. *)
Definition partial_transformer : Transformer :=
  fun x y => if Numpy.qlt x 0 then None else Some (x, y).

Definition north_up_rowcol (t : Raster.Affine) : option (Q -> Q -> Z * Z) :=
  if Numpy.qeq (Raster.a t) 0 || Numpy.qeq (Raster.e t) 0 then None
  else Some (fun x y =>
               (Qfloor ((y - Raster.f t) / Raster.e t),
                Qfloor ((x - Raster.c t) / Raster.a t))).

Definition north_up_from_bounds (west south east north : Q) (width height : Z)
  : Raster.Affine :=
  {| Raster.a := (east - west) / inject_Z width; Raster.b := 0; Raster.c := west;
     Raster.d := 0; Raster.e := (south - north) / inject_Z height; Raster.f := north |}.

Definition externals : Externals :=
  {| detect_point_cloud_crs := fun las => Las.parse_crs (Las.vlrs (Las.header las));
     transformer_from_crs := fun _ _ => Some identity_transformer;
     rowcol := north_up_rowcol;
     from_bounds := north_up_from_bounds |}.

(** The same libraries with a transformer that can fail. *)
Definition failing_externals : Externals :=
  {| detect_point_cloud_crs := fun las => Las.parse_crs (Las.vlrs (Las.header las));
     transformer_from_crs := fun _ _ => Some partial_transformer;
     rowcol := north_up_rowcol;
     from_bounds := north_up_from_bounds |}.

(** Libraries in which pyproj accepts no pair of CRS names. *)
Definition no_proj_externals : Externals :=
  {| detect_point_cloud_crs := fun las => Las.parse_crs (Las.vlrs (Las.header las));
     transformer_from_crs := fun _ _ => None;
     rowcol := north_up_rowcol;
     from_bounds := north_up_from_bounds |}.

(** Point format 1 of the LAS specification: format 0 plus [gps_time]. *)
Definition PointFormat1 : Las.PointFormat :=
  {| Las.pf_id := 1;
     Las.pf_dims := [ "X"; "Y"; "Z"; "intensity"; "return_number";
                      "number_of_returns"; "scan_direction_flag";
                      "edge_of_flight_line"; "classification"; "synthetic";
                      "key_point"; "withheld"; "scan_angle_rank"; "user_data";
                      "point_source_id"; "gps_time" ]%string |}.

Definition header_of (fmt : Las.PointFormat) (vlrs : list Las.Vlr) : Las.LasHeader :=
  {| Las.version := (1, 2); Las.point_format := fmt;
     Las.x_scale := 1 # 100; Las.y_scale := 1 # 100; Las.z_scale := 1 # 100;
     Las.x_offset := 0; Las.y_offset := 0; Las.z_offset := 0;
     Las.vlrs := vlrs |}.

(** A point with intensity 7, classification 2 and GPS time 5. *)
Definition point_at (x y : Q) : Las.Point :=
  {| Las.pt_x := x; Las.pt_y := y; Las.pt_z := 0;
     Las.pt_dim := fun name =>
       if String.eqb name "intensity" then 7
       else if String.eqb name "classification" then 2
       else if String.eqb name "gps_time" then 5
       else 0 |}.

Definition cloud_of (vlrs : list Las.Vlr) (pts : list (Q * Q)) : Las.LasData :=
  {| Las.header := header_of PointFormat1 vlrs;
     Las.points := map (fun p => point_at (fst p) (snd p)) pts |}.

Definition utm_vlr : Las.Vlr := Las.CrsVlr "EPSG:26913".

(** A [width] x [height] north-up raster with unit pixels and its lower
    left corner at [(west, south)]; every band holds [sample]. *)
Definition raster_at (west south : Q) (width height count : Z)
           (dtype : string) (sample : npval) : Raster.Dataset :=
  {| Raster.crs := Some "EPSG:26913"%string;
     Raster.bounds := {| Raster.left := west; Raster.bottom := south;
                         Raster.right := west + inject_Z width;
                         Raster.top := south + inject_Z height |};
     Raster.width := width;
     Raster.height := height;
     Raster.transform := {| Raster.a := 1; Raster.b := 0; Raster.c := west;
                            Raster.d := 0; Raster.e := -1;
                            Raster.f := south + inject_Z height |};
     Raster.count := count;
     Raster.dtypes := repeat dtype (Z.to_nat count);
     Raster.read := fun _ _ _ => sample |}.

Definition world_of (replies : list (option Raster.Dataset)) : Archive.World :=
  {| Archive.w_downloads := replies; Archive.w_rng := 0;
     Archive.w_retries := 0; Archive.w_plots := 0 |}.

Definition quiet : Archive.PointCloudColorizer := {| Archive.create_diagnostics := false |}.

(** Eleven points, the first one alone inside the 10 x 10 raster at the
    origin: a coverage of 1/11. *)
Definition sparse_cloud : Las.LasData :=
  cloud_of [utm_vlr] ((1 # 2, 1 # 2) :: repeat (100 # 1, 100 # 1) 10).

(** Two points inside the 10 x 10 raster at the origin. *)
Definition inside_cloud : Las.LasData :=
  cloud_of [utm_vlr] [(1 # 2, 1 # 2); (3 # 2, 5 # 2)].

(** Point format 3: format 2 plus [gps_time]. *)
Definition PointFormat3 : Las.PointFormat :=
  {| Las.pf_id := 3;
     Las.pf_dims := [ "X"; "Y"; "Z"; "intensity"; "return_number";
                      "number_of_returns"; "scan_direction_flag";
                      "edge_of_flight_line"; "classification"; "synthetic";
                      "key_point"; "withheld"; "scan_angle_rank"; "user_data";
                      "point_source_id"; "gps_time"; "red"; "green"; "blue" ]%string |}.

(** Two points of format 3, each with GPS time 5. *)
Definition timed_cloud : Las.LasData :=
  {| Las.header := header_of PointFormat3 [utm_vlr];
     Las.points := [point_at (1 # 2) (1 # 2); point_at 100 100] |}.


(** A binary32 raster whose samples are all 2.0. *)
Definition bright_float : Raster.Dataset :=
  raster_at 0 0 10 10 3 "float32" (NFloat (Ieee.of_Z Ieee.binary32 2)).

(** A 16-bit single-band raster whose samples are all 30000. *)
Definition gray16 : Raster.Dataset := raster_at 0 0 10 10 1 "uint16" (NInt 30000).

Definition white8 : Raster.Dataset := raster_at 0 0 10 10 3 "uint8" (NInt 255).

End Scenario.

(** ** The CRS rules as a table

    The specification words the fallback of the CRS resolver as an ordered
    table of rules over the coordinate ranges, the first matching rule
    giving the CRS.  [rules_as_specified] follows its words: the geographic
    rule asks [|x| <= 180] and [|y| <= 90] of the ranges.  [rules_on_minima]
    keeps the order of the specification with the tests of the program. *)

Module Spec.

Record Ranges : Type := {
  x_min : Q; x_max : Q; y_min : Q; y_max : Q
}.

Definition Rule : Type := ((Ranges -> bool) * string)%type.

Definition geographic_ranges (r : Ranges) : bool :=
  Numpy.qle (-180) (x_min r) && Numpy.qle (x_max r) 180
  && Numpy.qle (-90) (y_min r) && Numpy.qle (y_max r) 90.

Definition geographic_minima (r : Ranges) : bool :=
  Numpy.qle (-180) (x_min r) && Numpy.qle (x_min r) 180
  && Numpy.qle (-90) (y_min r) && Numpy.qle (y_min r) 90.

Definition global_projected (r : Ranges) : bool :=
  Numpy.qlt (x_min r) (-1000000) && Numpy.qlt (Qabs (x_min r)) 20037508
  && Numpy.qlt 1000000 (y_min r) && Numpy.qlt (y_max r) 20037508.

Definition regional_grid (r : Ranges) : bool :=
  Numpy.qlt 100000 (x_min r) && Numpy.qlt (x_min r) 900000
  && Numpy.qlt 1000000 (y_min r) && Numpy.qlt (y_min r) 10000000.

Fixpoint first_match (rules : list Rule) (r : Ranges) : Result string :=
  match rules with
  | [] => Raise CannotDetermineCrs
  | (applies, crs) :: rest => if applies r then Ok crs else first_match rest r
  end.

Definition rules_as_specified : list Rule :=
  [ (geographic_ranges, "EPSG:4326"); (global_projected, "EPSG:3857");
    (regional_grid, "EPSG:26913") ]%string.

Definition rules_on_minima : list Rule :=
  [ (geographic_minima, "EPSG:4326"); (global_projected, "EPSG:3857");
    (regional_grid, "EPSG:26913") ]%string.

(** The ranges of a cloud, [np.min] and [np.max] of its coordinates. *)
Definition ranges_of (las : Las.LasData) : Result Ranges :=
  x_min <- Numpy.np_min (Las.xs las) ;;
  x_max <- Numpy.np_max (Las.xs las) ;;
  y_min <- Numpy.np_min (Las.ys las) ;;
  y_max <- Numpy.np_max (Las.ys las) ;;
  Ok {| x_min := x_min; x_max := x_max; y_min := y_min; y_max := y_max |}.

(** The replacement rasters among the replies of the image service. *)
Definition acquired (replies : list (option Raster.Dataset)) : nat :=
  List.length (filter (fun r => match r with Some _ => true | None => false end)
                      replies).

(** Whether an invocation on these inputs enters the correction branch
    of line 712. *)
Definition triggers_correction `{Externals} (las : Las.LasData)
           (ortho : Raster.Dataset) (source_crs : option string) : bool :=
  match Archive.align las ortho source_crs with
  | Ok (transformed_x, transformed_y, pc, overlap) =>
      match Archive.locate las ortho transformed_x transformed_y pc overlap with
      | Ok l => Archive.low_coverage l
      | Raise _ => false
      end
  | Raise _ => false
  end.

(** The band a colour channel is read from: bands 1, 2, 3 of a raster
    with three bands or more, band 1 of a single-band raster. *)
Definition channel_band (raster : Raster.Dataset) (channel : Z) : Z :=
  if 3 <=? Raster.count raster then channel else 1.

(** The samples of a channel at the valid points, as the script holds
    them. *)
Definition channel_floats (raster : Raster.Dataset) (channel : Z)
           (pixel_x pixel_y : list Z) (mask : list bool) : list spec_float :=
  map (fun p => astype_float32
                  (Raster.read raster (channel_band raster channel) (fst p) (snd p)))
      (Numpy.select (combine pixel_y pixel_x) mask).

(** The unsigned integer pixel types. *)
Inductive SampleDepth : Type := Bits8 | Bits16.

Definition dtype_name (depth : SampleDepth) : string :=
  match depth with Bits8 => "uint8" | Bits16 => "uint16" end.

Definition max_sample (depth : SampleDepth) : Z :=
  match depth with Bits8 => 255 | Bits16 => 65535 end.

Definition factor (depth : SampleDepth) : Z :=
  match depth with Bits8 => 257 | Bits16 => 1 end.

(** [P] on the [n] integers from [z] on. *)
Fixpoint holds_from (P : Z -> bool) (n : nat) (z : Z) : bool :=
  match n with
  | O => true
  | S n' => P z && holds_from P n' (z + 1)
  end.

End Spec.

(** ** Python text and numbers used by the acquisition code *)

(** [str.lower] on ASCII text. *)
Definition ascii_lower (c : Ascii.ascii) : Ascii.ascii :=
  let n := Ascii.nat_of_ascii c in
  if Nat.leb 65 n && Nat.leb n 90 then Ascii.ascii_of_nat (n + 32) else c.

Fixpoint str_lower (s : string) : string :=
  match s with
  | EmptyString => EmptyString
  | String c rest => String (ascii_lower c) (str_lower rest)
  end.

(** [str(n)] and [f"{n}"] for a Python integer. *)
Definition str_of_Z (z : Z) : string := NilZero.string_of_int (Z.to_int z).

(** [int(x)] on a float: truncation toward zero. *)
Definition py_int (x : Q) : Z :=
  if Numpy.qlt x 0 then Qceiling x else Qfloor x.

(** [np.cos(np.radians(x))] and [math.cos(math.radians(x))]. *)
Class Trigonometry : Type := {
  cos_of_degrees : Q -> Q
}.

(** [str(x)] for a Python float. *)
Class FloatText : Type := {
  str_of_float : Q -> string
}.

(** ** Replies of the image service *)

Module Http.

(** What [response.json()] gives on a reply. *)
Inductive JsonBody : Type :=
| NotJson                               (* raises JSONDecodeError *)
| JsonObject (message : option string)  (* an object; [error.message] if it has one *)
| JsonMalformed (error_text : string).  (* other JSON: the [.get] chain or [.lower]
                                           raises, [error_text] is [str(e)] *)

(** A reply to [requests.get]. *)
Record Response : Type := {
  (** the text of the RequestException that [requests.get] or
      [raise_for_status] raises, if one does *)
  raises : option string;
  file_size : Z;            (* [len(response.content)] *)
  body : JsonBody;
  content_type : string     (* the content-type header, empty when absent *)
}.

(** [error_data.get("error", {}).get("message", "Unknown service error")]. *)
Definition error_message (message : option string) : string :=
  match message with
  | Some m => m
  | None => "Unknown service error"%string
  end.

(** [f"{width},{height}"] for two integers. *)
Definition size_text (width height : Z) : string :=
  (str_of_Z width ++ "," ++ str_of_Z height)%string.

Definition fallback_sizes : list string := [ "2048,2048"; "1024,1024"; "512,512" ]%string.

(** The loop that removes duplicates while preserving order; [seen] is the
    set of the sizes met so far. *)
Fixpoint unique_from (seen : list string) (sizes_to_try : list string) : list string :=
  match sizes_to_try with
  | [] => []
  | size :: rest =>
      if existsb (String.eqb size) seen then unique_from seen rest
      else size :: unique_from (size :: seen) rest
  end.

(** [unique_sizes] for a first size. *)
Definition unique_sizes_of (first_size : string) : list string :=
  unique_from [] (first_size :: fallback_sizes).

(** The replies the two download loops take for an image and save: a reply
    of at least 1000 bytes, or a smaller one that is neither JSON nor
    declared an image. *)
Definition acceptable (r : Response) : bool :=
  match raises r with
  | Some _ => false
  | None =>
      negb (file_size r <? 1000)
      || (match body r with NotJson => true | _ => false end
          && negb (str_startswith "image/" (content_type r)))
  end.

End Http.

(** ** Acquisition in the archived colorizer *)

Module Acquisition.

Import Numpy.

(** What [download_corrected_orthophoto] asks the service for. *)
Record CorrectedRequest : Type := {
  min_lon : Q; min_lat : Q; max_lon : Q; max_lat : Q;
  target_width : Z;
  target_height : Z;
  image_size : string;
  unique_sizes : list string
}.

(** Lines 1213-1255 of the archive.  [pc_bounds] has west, south, east and
    north in the fields left, bottom, right and top.  The box is computed
    exactly, with 1/10 for the program's [0.1]; the program rounds each
    operation to binary64.  The sizes are integers and do not depend on
    it. *)
Definition corrected_request `{Trigonometry} (pc_bounds : Raster.Bounds)
  : CorrectedRequest :=
  let width_deg := (Raster.right pc_bounds - Raster.left pc_bounds)%Q in
  let height_deg := (Raster.top pc_bounds - Raster.bottom pc_bounds)%Q in
  let buffer_x := (width_deg * (1 # 10))%Q in
  let buffer_y := (height_deg * (1 # 10))%Q in
  let width_m :=
    (width_deg * 111320
     * cos_of_degrees ((Raster.top pc_bounds + Raster.bottom pc_bounds) / 2))%Q in
  let height_m := (height_deg * 111320)%Q in
  let target_width := Z.min (Z.max (py_int (width_m / 2)) 200) 2000 in
  let target_height := Z.min (Z.max (py_int (height_m / 2)) 200) 2000 in
  let image_size := Http.size_text target_width target_height in
  {| min_lon := (Raster.left pc_bounds - buffer_x)%Q;
     min_lat := (Raster.bottom pc_bounds - buffer_y)%Q;
     max_lon := (Raster.right pc_bounds + buffer_x)%Q;
     max_lat := (Raster.top pc_bounds + buffer_y)%Q;
     target_width := target_width;
     target_height := target_height;
     image_size := image_size;
     unique_sizes := Http.unique_sizes_of image_size |}.

(** How one pass of the loop of lines 1259-1355 ends. *)
Inductive Step : Type := Return | Continue | Break.

(** One pass of the loop, for the reply to its request.  Writing the image
    and its metadata is taken to succeed. *)
Definition attempt_step (attempt count : nat) (r : Http.Response) : Step :=
  let not_last := Nat.ltb attempt (count - 1) in
  (* except Exception as e: continue, or break on the last size *)
  let on_exception := if not_last then Continue else Break in
  match Http.raises r with
  | Some _ => on_exception
  | None =>
      let small := Http.file_size r <? 1000 in
      let json_check : option Step :=
        if small then
          match Http.body r with
          | Http.JsonObject message =>
              let error_msg := Http.error_message message in
              if str_contains "size limit" (str_lower error_msg) && not_last
              then Some Continue
              else Some on_exception           (* raise Exception(...) *)
          | Http.JsonMalformed _ => Some on_exception
          | Http.NotJson => None               (* pass *)
          end
        else None in
      match json_check with
      | Some step => step
      | None =>
          if str_startswith "image/" (Http.content_type r) && small
          then (if not_last then Continue else on_exception)
          else Return
      end
  end.

(** The loop over the sizes that are left: the size that was saved, if
    any, and the sizes requested, in order. *)
Fixpoint attempts (service : nat -> string -> Http.Response) (count attempt : nat)
         (sizes : list string) : option string * list string :=
  match sizes with
  | [] => (None, [])
  | size :: rest =>
      match attempt_step attempt count (service attempt size) with
      | Return => (Some size, [size])
      | Continue =>
          let '(saved, requested) := attempts service count (S attempt) rest in
          (saved, size :: requested)
      | Break => (None, [size])
      end
  end.

(** [download_corrected_orthophoto] against a service that answers the
    request number [attempt] for [size] with [service attempt size]:
    [Some size] when the image of that size was saved and its path returned,
    [None] when the final exception is raised; with the sizes requested. *)
Definition download_corrected_orthophoto `{Trigonometry}
           (service : nat -> string -> Http.Response) (pc_bounds : Raster.Bounds)
  : option string * list string :=
  let request := corrected_request pc_bounds in
  attempts service (List.length (unique_sizes request)) 0 (unique_sizes request).

(** *** The retry loop of [_fetch_point_cloud_data] *)

(** What one call of [pc_fetcher.download_point_cloud] does. *)
Inductive Download : Type :=
| Downloaded (path : string)   (* a path at which a file exists *)
| NoFile                       (* no path, or no file at the path *)
| Failed (message : string).   (* raises; [message] is [str(download_error)] *)

(** Lines 1085-1093. *)
Definition is_network_error (message : string) : bool :=
  existsb (fun keyword => str_contains keyword (str_lower message))
          [ "timeout"; "connection"; "max retries"; "httpsconnectionpool" ]%string.

(** How the loop of lines 1056-1110 ends. *)
Inductive LoopEnd : Type :=
| Got (path : string)
| Reraised (message : string)   (* the exception of the last attempt *)
| Exhausted.                    (* RuntimeError: failed ... after 3 attempts *)

Record RetryRun : Type := {
  loop_end : LoopEnd;
  calls : nat;            (* calls of [download_point_cloud] *)
  slept : list Z          (* the arguments of [time.sleep], in order *)
}.

(** The loop [for attempt in range(max_retries)] over the attempts left. *)
Fixpoint retry_loop (download : nat -> Download) (max_retries : nat)
         (attempts_left : list nat) (retry_delay : Z) (calls : nat) (slept : list Z)
  : RetryRun :=
  match attempts_left with
  | [] => {| loop_end := Exhausted; calls := calls; slept := slept |}
  | attempt :: rest =>
      match download attempt with
      | Downloaded path => {| loop_end := Got path; calls := S calls; slept := slept |}
      | NoFile => retry_loop download max_retries rest retry_delay (S calls) slept
      | Failed message =>
          if is_network_error message && Nat.ltb attempt (max_retries - 1)
          then retry_loop download max_retries rest (retry_delay * 2) (S calls)
                          (slept ++ [retry_delay])
          else if Nat.eqb attempt (max_retries - 1)
          then {| loop_end := Reraised message; calls := S calls; slept := slept |}
          else retry_loop download max_retries rest retry_delay (S calls) slept
      end
  end.

(** Lines 1052-1110. *)
Definition download_with_retries (download : nat -> Download) : RetryRun :=
  let max_retries := 3%nat in
  let retry_delay := 5 in
  retry_loop download max_retries (Numpy.range 0 max_retries 1) retry_delay 0 [].

(** The text of the RuntimeError raised after the loop. *)
Definition exhausted_message : string :=
  "Failed to download point cloud after 3 attempts. The USGS server may be experiencing issues. Please try again later.".

(** Lines 1112-1121: the handler around the body re-raises the exception
    as it is or wraps its text in a RuntimeError; the text of what leaves
    the function. *)
Definition reraise (message : string) : string :=
  if existsb (fun msg => str_contains msg message)
             [ "No LiDAR data found"; "No LAZ format"; "after"; "attempts" ]%string
  then message
  else ("Failed to fetch point cloud data: " ++ message)%string.

(** Lines 1052-1121: the path returned, or the text of the exception that
    leaves [_fetch_point_cloud_data]. *)
Definition fetch_outcome (download : nat -> Download) : string + string :=
  match loop_end (download_with_retries download) with
  | Got path => inl path
  | Reraised message => inr (reraise message)
  | Exhausted => inr (reraise exhausted_message)
  end.

(** *** Loading the point cloud *)

(** What is at the path given to [load_point_cloud]. *)
Inductive LasFile : Type :=
| Missing                        (* no file *)
| Unreadable                     (* a file on which [laspy.read] raises *)
| Readable (las : Las.LasData).

Inductive LoadError : Type :=
| FileNotFoundError              (* Point cloud file not found: ... *)
| LoadFailed.                    (* RuntimeError: Failed to load point cloud: ... *)

(** [load_point_cloud]: the bounds are computed for the log, and an
    exception of the body becomes a RuntimeError. *)
Definition load_point_cloud (file : LasFile) : Las.LasData + LoadError :=
  match file with
  | Missing => inr FileNotFoundError
  | Unreadable => inr LoadFailed
  | Readable las_data =>
      let bounds : Result unit :=
        x_min <- np_min (Las.xs las_data) ;;
        x_max <- np_max (Las.xs las_data) ;;
        y_min <- np_min (Las.ys las_data) ;;
        y_max <- np_max (Las.ys las_data) ;;
        z_min <- np_min (Las.zs las_data) ;;
        z_max <- np_max (Las.zs las_data) ;;
        Ok tt in
      match bounds with
      | Ok _ => inl las_data
      | Raise _ => inr LoadFailed
      end
  end.

End Acquisition.

(** ** The image fetcher: class [NAIPFetcher] of [services/data/get_orthophoto.py] *)

Module Naip.

Import Numpy.

(** A Python number as [isinstance(v, (int, float))] accepts it: an [int],
    a [float] or a [bool]. *)
Inductive Num : Type :=
| NumInt (z : Z)
| NumFloat (q : Q)
| NumBool (b : bool).

Definition num_value (n : Num) : Q :=
  match n with
  | NumInt z => inject_Z z
  | NumFloat q => q
  | NumBool b => if b then 1 else 0
  end.

Definition num_lt (a b : Num) : bool := qlt (num_value a) (num_value b).

(** [min(a, b)] and [max(a, b)]: the first argument unless the second is
    strictly smaller (greater). *)
Definition py_min (a b : Num) : Num := if num_lt b a then b else a.
Definition py_max (a b : Num) : Num := if num_lt a b then b else a.

(** [str(n)]. *)
Definition num_text `{FloatText} (n : Num) : string :=
  match n with
  | NumInt z => str_of_Z z
  | NumFloat q => str_of_float q
  | NumBool true => "True"%string
  | NumBool false => "False"%string
  end.

Record NAIPFetcher : Type := {
  max_image_width : Num;
  max_image_height : Num;
  native_pixel_size : Num
}.

(** A value of the service description. *)
Inductive JsonValue : Type :=
| JNumber (n : Num)     (* a number, or true and false *)
| JOther.               (* null, a string, a list or an object *)

(** The reply to the service-info request. *)
Inductive InfoReply : Type :=
| InfoFailed                                     (* the request, [raise_for_status],
                                                    [json()] or [info.get] raises *)
| InfoObject (info : string -> option JsonValue). (* a JSON object *)

(** [info.get(key, default)]. *)
Definition info_get (info : string -> option JsonValue) (key : string) (default : Num)
  : JsonValue :=
  match info key with
  | Some v => v
  | None => JNumber default
  end.

(** [_fetch_service_info]. *)
Definition _fetch_service_info (self : NAIPFetcher) (reply : InfoReply) : NAIPFetcher :=
  match reply with
  | InfoFailed => self
  | InfoObject info =>
      let max_width := info_get info "maxImageWidth" (max_image_width self) in
      let max_height := info_get info "maxImageHeight" (max_image_height self) in
      let pixel_x := info_get info "pixelSizeX" (native_pixel_size self) in
      let pixel_y := info_get info "pixelSizeY" (native_pixel_size self) in
      let self :=
        match max_width with
        | JNumber n =>
            if num_lt (NumInt 0) n
            then {| max_image_width := n;
                    max_image_height := max_image_height self;
                    native_pixel_size := native_pixel_size self |}
            else self
        | JOther => self
        end in
      let self :=
        match max_height with
        | JNumber n =>
            if num_lt (NumInt 0) n
            then {| max_image_width := max_image_width self;
                    max_image_height := n;
                    native_pixel_size := native_pixel_size self |}
            else self
        | JOther => self
        end in
      match pixel_x, pixel_y with
      | JNumber px, JNumber py =>
          {| max_image_width := max_image_width self;
             max_image_height := max_image_height self;
             native_pixel_size := py_min px py |}
      | _, _ => self
      end
  end.

(** [__init__]: the defaults, then the service description. *)
Definition init (reply : InfoReply) : NAIPFetcher :=
  _fetch_service_info
    {| max_image_width := NumInt 4000;
       max_image_height := NumInt 4000;
       native_pixel_size := NumFloat 1 |}
    reply.

(** Python's [x / y] with a float [x]. *)
Definition py_div (x y : Q) : Result Q :=
  if qeq y 0 then Raise ZeroDivision else Ok (x / y)%Q.

(** Lines 77-88 of [_calculate_optimal_size]: the two pixel counts. *)
Definition optimal_pixels `{Trigonometry} (self : NAIPFetcher)
           (min_lon min_lat max_lon max_lat : Q) (pixel_size : option Num)
  : Result (Num * Num) :=
  let pixel_size :=
    match pixel_size with
    | None => native_pixel_size self
    | Some p => p
    end in
  let mid_lat := ((min_lat + max_lat) / 2)%Q in
  let height_m := ((max_lat - min_lat) * 111000)%Q in
  let width_m := ((max_lon - min_lon) * 111000 * cos_of_degrees mid_lat)%Q in
  w <- py_div width_m (num_value pixel_size) ;;
  let width_px := NumInt (py_int w) in
  h <- py_div height_m (num_value pixel_size) ;;
  let height_px := NumInt (py_int h) in
  let width_px := py_max (NumInt 1) (py_min width_px (max_image_width self)) in
  let height_px := py_max (NumInt 1) (py_min height_px (max_image_height self)) in
  Ok (width_px, height_px).

(** [_calculate_optimal_size]. *)
Definition _calculate_optimal_size `{Trigonometry} `{FloatText} (self : NAIPFetcher)
           (min_lon min_lat max_lon max_lat : Q) (pixel_size : option Num)
  : Result string :=
  '(width_px, height_px) <-
     optimal_pixels self min_lon min_lat max_lon max_lat pixel_size ;;
  Ok (num_text width_px ++ "," ++ num_text height_px)%string.

(** [calculate_acre_bbox]: [(min_lon, min_lat, max_lon, max_lat)], computed
    exactly where the program rounds each operation to binary64. *)
Definition calculate_acre_bbox `{Trigonometry} (latitude longitude : Q)
  : Result (Q * Q * Q * Q) :=
  lat_degrees <- py_div (1272 # 10) 111000 ;;
  lon_degrees <- py_div (1272 # 10) (111000 * cos_of_degrees latitude) ;;
  let min_lat := (latitude - lat_degrees / 2)%Q in
  let max_lat := (latitude + lat_degrees / 2)%Q in
  let min_lon := (longitude - lon_degrees / 2)%Q in
  let max_lon := (longitude + lon_degrees / 2)%Q in
  Ok (min_lon, min_lat, max_lon, max_lat).

(** How one pass of the loop of [export_image] ends. *)
Inductive Step : Type :=
| Return                      (* the image is saved, the metadata returned *)
| Continue (last_error : string)
| RaiseNow (message : string).

(** One pass of the loop of lines 180-286, for the reply to its request.
    Writing the image is taken to succeed. *)
Definition export_step (attempt count : nat) (r : Http.Response) : Step :=
  let not_last := Nat.ltb attempt (count - 1) in
  (* except Exception as e *)
  let on_exception (message : string) : Step :=
    if not_last && (str_contains "size limit" (str_lower message)
                    || str_contains "small image" (str_lower message))
    then Continue message
    else RaiseNow message in
  match Http.raises r with
  | Some e =>
      (* except requests.exceptions.RequestException as e *)
      let last_error := ("Failed to export image from USGS service: " ++ e)%string in
      if not_last then Continue last_error else RaiseNow last_error
  | None =>
      let small := Http.file_size r <? 1000 in
      let json_check : option Step :=
        if small then
          match Http.body r with
          | Http.JsonObject message =>
              let error_msg := Http.error_message message in
              if str_contains "size limit" (str_lower error_msg) && not_last
              then Some (Continue ("NAIP service error: " ++ error_msg)%string)
              else Some (on_exception ("NAIP service error: " ++ error_msg)%string)
          | Http.JsonMalformed error_text => Some (on_exception error_text)
          | Http.NotJson => None
          end
        else None in
      match json_check with
      | Some step => step
      | None =>
          let small_image :=
            ("Received very small image (" ++ str_of_Z (Http.file_size r)
             ++ " bytes), likely an error response")%string in
          if str_startswith "image/" (Http.content_type r) && small
          then (if not_last then Continue small_image else on_exception small_image)
          else Return
      end
  end.

(** How [export_image] ends. *)
Inductive Outcome : Type :=
| Saved (size : string)        (* the metadata, with its [image_size] *)
| ExportFailed (message : string).

Record ExportRun : Type := {
  outcome : Outcome;
  requested : list string     (* the sizes requested, in order *)
}.

(** The loop over the sizes that are left. *)
Fixpoint export_loop (service : nat -> string -> Http.Response) (count attempt : nat)
         (sizes : list string) (last_error : option string) : ExportRun :=
  match sizes with
  | [] =>
      (* raise last_error or Exception("All image size attempts failed") *)
      {| outcome := ExportFailed match last_error with
                                 | Some message => message
                                 | None => "All image size attempts failed"%string
                                 end;
         requested := [] |}
  | size :: rest =>
      match export_step attempt count (service attempt size) with
      | Return => {| outcome := Saved size; requested := [size] |}
      | Continue last_error =>
          let run := export_loop service count (S attempt) rest (Some last_error) in
          {| outcome := outcome run; requested := size :: requested run |}
      | RaiseNow message => {| outcome := ExportFailed message; requested := [size] |}
      end
  end.

(** The loop of [export_image] for a first size. *)
Definition export_sizes (service : nat -> string -> Http.Response)
           (requested_size : string) : ExportRun :=
  let unique_sizes := Http.unique_sizes_of requested_size in
  export_loop service (List.length unique_sizes) 0 unique_sizes None.

(** [export_image]. *)
Definition export_image `{Trigonometry} `{FloatText} (self : NAIPFetcher)
           (service : nat -> string -> Http.Response)
           (min_lon min_lat max_lon max_lat : Q) (image_size : option string)
  : Result ExportRun :=
  requested_size <-
    match image_size with
    | None => _calculate_optimal_size self min_lon min_lat max_lon max_lat None
    | Some text =>
        if String.eqb text "auto"
        then _calculate_optimal_size self min_lon min_lat max_lon max_lat None
        else Ok text
    end ;;
  Ok (export_sizes service requested_size).

End Naip.

(** ** The script from the command line *)

Module ScriptMain.

Import Numpy.

(** [str(raster_dataset.crs)]. *)
Definition crs_text (raster : Raster.Dataset) : string :=
  match Raster.crs raster with
  | Some name => name
  | None => "None"%string
  end.

(** Lines 179-186. *)
Definition valid_point (raster : Raster.Dataset) (px py : Z) : bool :=
  (0 <=? px) && (px <? Raster.width raster)
  && (0 <=? py) && (py <? Raster.height raster).

(** [convert_point_cloud_to_image_coordinates]: [pixel_x], [pixel_y],
    [valid_points] and whether the diagnostic plot was drawn (drawing it is
    taken to succeed). *)
Definition convert_point_cloud_to_image_coordinates `{Externals}
           (las : Las.LasData) (raster : Raster.Dataset)
           (custom_transform_func : option Script.CustomTransform)
           (x_offset y_offset : Q)
  : Result (list Z * list Z * list bool * bool) :=
  coords <- Script.transform_coordinates las (crs_text raster) custom_transform_func ;;
  let coords :=
    if negb (qeq x_offset 0) || negb (qeq y_offset 0)
    then map (fun p => (fst p + x_offset, snd p + y_offset)%Q) coords
    else coords in
  match rowcol (Raster.transform raster) with
  | None => Raise NotInvertible
  | Some rc =>
      let rows_cols := map (fun p => rc (fst p) (snd p)) coords in
      let pixel_x := map snd rows_cols in
      let pixel_y := map fst rows_cols in
      let valid_points :=
        map (fun p => valid_point raster (fst p) (snd p)) (combine pixel_x pixel_y) in
      Ok (pixel_x, pixel_y, valid_points, Nat.eqb (count_true valid_points) 0)
  end.

(** [main] on a loaded point cloud and image: the exit code and the point
    cloud written, if one is. *)
Definition main `{Externals} (las_data : Las.LasData) (raster_dataset : Raster.Dataset)
           (use_custom_transform : bool) (x_offset y_offset : Q)
  : Result (Z * option Las.LasData) :=
  let custom_transform_to_use :=
    if use_custom_transform then Some Script.define_custom_transform else None in
  '(pixel_x, pixel_y, valid_points, _) <-
     convert_point_cloud_to_image_coordinates las_data raster_dataset
       custom_transform_to_use x_offset y_offset ;;
  if Nat.eqb (count_true valid_points) 0 then Ok (1, None)
  else
    '(colors, _) <- Script.extract_colors_from_image raster_dataset
                      pixel_x pixel_y valid_points ;;
    colorized_las <- Script.save_colorized_point_cloud las_data colors ;;
    Ok (0, Some colorized_las).

End ScriptMain.

(** ** Replies and services on which the acquisition code is run *)

Module Replies.

(** A cosine that is exact at the equator and the poles. *)
Definition parabola : Trigonometry :=
  {| cos_of_degrees := fun x => (1 - (x / 90) * (x / 90))%Q |}.

Definition decimal_floor : FloatText :=
  {| str_of_float := fun x => (str_of_Z (Qfloor x) ++ ".0")%string |}.

(** A two-megabyte image. *)
Definition image : Http.Response :=
  {| Http.raises := None; Http.file_size := 2000000; Http.body := Http.NotJson;
     Http.content_type := "image/tiff" |}.

(** The error page of the service for a size above its limit. *)
Definition too_large : Http.Response :=
  {| Http.raises := None; Http.file_size := 120;
     Http.body := Http.JsonObject (Some "The requested image exceeds the size limit."%string);
     Http.content_type := "application/json" |}.

(** A service error that does not speak of sizes. *)
Definition bad_request : Http.Response :=
  {| Http.raises := None; Http.file_size := 90;
     Http.body := Http.JsonObject (Some "Invalid or missing input parameters."%string);
     Http.content_type := "application/json" |}.

Definition timed_out : Http.Response :=
  {| Http.raises := Some "Read timed out."%string; Http.file_size := 0;
     Http.body := Http.NotJson; Http.content_type := EmptyString |}.

(** A service that refuses every size above 1024 pixels. *)
Definition limited (attempt : nat) (size : string) : Http.Response :=
  if String.eqb size "1024,1024" || String.eqb size "512,512" then image else too_large.

(** A service that answers the first request with [first] and the later
    ones with an image. *)
Definition after_first (first : Http.Response) (attempt : nat) (size : string)
  : Http.Response :=
  match attempt with
  | O => first
  | S _ => image
  end.

(** A service description with a width limit of zero, a height limit of
    15000 and pixel sizes of 0 and 0.6. *)
Definition odd_description (key : string) : option Naip.JsonValue :=
  if String.eqb key "maxImageWidth" then Some (Naip.JNumber (Naip.NumInt 0))
  else if String.eqb key "maxImageHeight" then Some (Naip.JNumber (Naip.NumInt 15000))
  else if String.eqb key "pixelSizeX" then Some (Naip.JNumber (Naip.NumInt 0))
  else if String.eqb key "pixelSizeY" then Some (Naip.JNumber (Naip.NumFloat (6 # 10)))
  else None.

(** A cloud of about 0.01 x 0.005 degrees near 40 N, 105 W. *)
Definition boulder : Raster.Bounds :=
  {| Raster.left := -(10528 # 100); Raster.bottom := 4001 # 100;
     Raster.right := -(10527 # 100); Raster.top := 40015 # 1000 |}.

(** Two connection errors, then the file. *)
Definition flaky (attempt : nat) : Acquisition.Download :=
  match attempt with
  | 0%nat => Acquisition.Failed "HTTPSConnectionPool(host='rockyweb.usgs.gov'): Max retries exceeded"
  | 1%nat => Acquisition.Failed "Connection aborted."
  | _ => Acquisition.Downloaded "data/tile.laz"
  end.

End Replies.

(** * Properties *)

(** ** Comparisons on coordinates *)

Lemma qlt_true (a b : Q) : Numpy.qlt a b = true -> (a < b)%Q.
Proof.
  unfold Numpy.qlt. intros H. apply negb_true_iff in H.
  apply Qnot_le_lt. intros Hle. apply Qle_bool_iff in Hle. congruence.
Qed.

Lemma qle_true (a b : Q) : Numpy.qle a b = true -> (a <= b)%Q.
Proof. unfold Numpy.qle. apply Qle_bool_iff. Qed.

Lemma qeq_true (a b : Q) : Numpy.qeq a b = true -> (a == b)%Q.
Proof. unfold Numpy.qeq. apply Qeq_bool_iff. Qed.

(** ** Boolean masks *)

Section Masks.

Context {A B : Type}.

Lemma select_length (a : list A) (mask : list bool) :
  List.length a = List.length mask ->
  List.length (Numpy.select a mask) = Numpy.count_true mask.
Proof.
  revert mask. induction a as [|x a IH]; intros [|m mask] Hlen;
    simpl in *; try reflexivity; try discriminate.
  destruct m; simpl; unfold Numpy.count_true in *; simpl;
    rewrite IH by lia; reflexivity.
Qed.

Lemma count_true_le (mask : list bool) :
  (Numpy.count_true mask <= List.length mask)%nat.
Proof.
  unfold Numpy.count_true. induction mask as [|m mask IH]; simpl; [lia|].
  destruct m; simpl; lia.
Qed.

Lemma select_map (f : A -> B) (a : list A) (mask : list bool) :
  Numpy.select (map f a) mask = map f (Numpy.select a mask).
Proof.
  revert mask. induction a as [|x a IH]; intros [|m mask]; simpl; try reflexivity.
  destruct m; simpl; rewrite IH; reflexivity.
Qed.

Lemma select_combine (a : list A) (b : list B) (mask : list bool) :
  List.length a = List.length mask ->
  List.length b = List.length mask ->
  combine (Numpy.select a mask) (Numpy.select b mask)
  = Numpy.select (combine a b) mask.
Proof.
  revert b mask. induction a as [|x a IH]; intros [|y b] [|m mask] Ha Hb;
    simpl in *; try reflexivity; try discriminate.
  destruct m; simpl; rewrite IH by lia; reflexivity.
Qed.

Lemma mask_select_ok (a : list A) (mask : list bool) :
  List.length a = List.length mask ->
  Numpy.mask_select a mask = Ok (Numpy.select a mask).
Proof.
  intros H. unfold Numpy.mask_select. rewrite H, Nat.eqb_refl. reflexivity.
Qed.

Lemma mask_select_inv (a : list A) (mask : list bool) (r : list A) :
  Numpy.mask_select a mask = Ok r ->
  List.length a = List.length mask /\ r = Numpy.select a mask.
Proof.
  unfold Numpy.mask_select.
  destruct (Nat.eqb (List.length a) (List.length mask)) eqn:E; [|discriminate].
  intros H. inversion H. apply Nat.eqb_eq in E. auto.
Qed.

Lemma scatter_length (set : A -> B -> A) (a : list A) (mask : list bool)
      (vals : list B) :
  List.length (Numpy.scatter set a mask vals) = List.length a.
Proof.
  revert mask vals. induction a as [|x a IH]; intros [|m mask] vals;
    simpl; try reflexivity.
  destruct m; [destruct vals as [|v vs]|]; simpl; try rewrite IH; reflexivity.
Qed.

(** Where the mask is true the scattered value is the image of the entry
    of the indexed array at the same position. *)
Lemma scatter_select_true {C : Type} (set : A -> B -> A) (f : C -> B)
      (a : list A) (idx : list C) (mask : list bool) (i : nat) (x : C) (y : A) :
  List.length a = List.length mask ->
  List.length idx = List.length mask ->
  nth_error mask i = Some true ->
  nth_error idx i = Some x ->
  nth_error a i = Some y ->
  nth_error (Numpy.scatter set a mask (map f (Numpy.select idx mask))) i
  = Some (set y (f x)).
Proof.
  revert idx mask i.
  induction a as [|a0 a IH]; intros [|i0 idx] [|m mask] i Ha Hi Hm Hx Hy;
    simpl in *; try discriminate; try (destruct i; discriminate).
  destruct i as [|i]; simpl in *.
  - inversion Hm; subst. inversion Hx; inversion Hy; subst. reflexivity.
  - destruct m; simpl; apply IH; auto; lia.
Qed.

(** Where the mask is false the entry is left as it was. *)
Lemma scatter_select_false {C : Type} (set : A -> B -> A) (f : C -> B)
      (a : list A) (idx : list C) (mask : list bool) (i : nat) :
  List.length a = List.length mask ->
  List.length idx = List.length mask ->
  nth_error mask i = Some false ->
  nth_error (Numpy.scatter set a mask (map f (Numpy.select idx mask))) i
  = nth_error a i.
Proof.
  revert idx mask i.
  induction a as [|a0 a IH]; intros [|i0 idx] [|m mask] i Ha Hi Hm;
    simpl in *; try discriminate; try (destruct i; discriminate).
  destruct i as [|i]; simpl in *.
  - inversion Hm; subst. reflexivity.
  - destruct m; simpl; apply IH; auto; lia.
Qed.

End Masks.

(** ** CRS resolution *)

Lemma guess_crs_first_match (r : Spec.Ranges) :
  Archive.guess_crs_from_ranges (Spec.x_min r) (Spec.x_max r) (Spec.y_min r) (Spec.y_max r)
  = Spec.first_match Spec.rules_on_minima r.
Proof.
  unfold Archive.guess_crs_from_ranges, Spec.rules_on_minima. simpl.
  fold (Spec.global_projected r). fold (Spec.geographic_minima r).
  fold (Spec.regional_grid r).
  destruct (Spec.global_projected r) eqn:Hglobal;
    destruct (Spec.geographic_minima r) eqn:Hgeo; try reflexivity.
  (* both rules cannot hold: the first asks x_min < -1000000 *)
  exfalso. unfold Spec.global_projected, Spec.geographic_minima in *.
  repeat (apply andb_true_iff in Hglobal; destruct Hglobal as [Hglobal ?]).
  repeat (apply andb_true_iff in Hgeo; destruct Hgeo as [Hgeo ?]).
  apply qlt_true in Hglobal. apply qle_true in Hgeo. lra.
Qed.

(** C2, counterexample.  A cloud without CRS whose coordinates run over
    [0, 500] x [0, 50] does not have geographic-looking ranges and matches no
    rule of the table as specified, yet the archived resolver answers
    EPSG:4326; the script answers EPSG:2232 for any cloud without CRS. *)
Lemma crs_rules_not_as_specified :
  Archive.guess_crs_from_ranges 0 500 0 50 = Ok "EPSG:4326"%string
  /\ Spec.first_match Spec.rules_as_specified
       {| Spec.x_min := 0; Spec.x_max := 500; Spec.y_min := 0; Spec.y_max := 50 |}
     = Raise CannotDetermineCrs
  /\ Script.identify_point_cloud_crs (Scenario.cloud_of [] [(0, 0)%Q])
     = "EPSG:2232"%string.
Proof. repeat split; vm_compute; reflexivity. Qed.

(** C2, amended.  For a cloud for which neither the caller nor the
    detection gives a CRS, the archived resolver answers what the ordered
    table geographic, global projected, regional gives on the minima of the
    ranges, and raises when no rule of the table matches. *)
Theorem crs_rules_in_specified_order `{Externals} (las : Las.LasData) :
  detect_point_cloud_crs las = None ->
  Archive.resolve_source_crs las None
  = (r <- Spec.ranges_of las ;; Spec.first_match Spec.rules_on_minima r).
Proof.
  intros Hdetect. unfold Archive.resolve_source_crs, Spec.ranges_of.
  rewrite Hdetect.
  destruct (Numpy.np_min (Las.xs las)) as [x0|]; simpl; [|reflexivity].
  destruct (Numpy.np_max (Las.xs las)) as [x1|]; simpl; [|reflexivity].
  destruct (Numpy.np_min (Las.ys las)) as [y0|]; simpl; [|reflexivity].
  destruct (Numpy.np_max (Las.ys las)) as [y1|]; simpl; [|reflexivity].
  exact (guess_crs_first_match
           {| Spec.x_min := x0; Spec.x_max := x1; Spec.y_min := y0; Spec.y_max := y1 |}).
Qed.

Lemma crs_rules_in_specified_order_witness :
  @detect_point_cloud_crs Scenario.externals
    (Scenario.cloud_of [] [(500000, 4000000)%Q]) = None
  /\ @Archive.resolve_source_crs Scenario.externals
       (Scenario.cloud_of [] [(500000, 4000000)%Q]) None
     = Ok "EPSG:26913"%string.
Proof.
  split; [reflexivity|].
  rewrite (@crs_rules_in_specified_order Scenario.externals
             (Scenario.cloud_of [] [(500000, 4000000)%Q]) eq_refl).
  vm_compute. reflexivity.
Defined.

(** ** The batched coordinate transform *)

Lemma transformer_transform_length (t : Transformer) (xs ys rx ry : list Q) :
  transformer_transform t xs ys = Ok (rx, ry) ->
  List.length xs = List.length ys
  /\ List.length rx = List.length xs /\ List.length ry = List.length xs.
Proof.
  revert ys rx ry. induction xs as [|x xs IH]; intros [|y ys] rx ry Heq;
    simpl in Heq; try discriminate.
  - inversion Heq; subst. auto.
  - destruct (t x y) as [[x' y']|]; [|discriminate].
    destruct (transformer_transform t xs ys) as [[rx' ry']|] eqn:Hrest;
      simpl in Heq; [|discriminate].
    inversion Heq; subst. destruct (IH _ _ _ Hrest) as (H1 & H2 & H3).
    simpl. auto.
Qed.

Lemma transformer_transform_app (t : Transformer) (a b c d : list Q) :
  List.length a = List.length c ->
  transformer_transform t (a ++ b) (c ++ d)
  = match transformer_transform t a c with
    | Ok (ra, rc) =>
        match transformer_transform t b d with
        | Ok (rb, rd) => Ok (ra ++ rb, rc ++ rd)
        | Raise e => Raise e
        end
    | Raise e => Raise e
    end.
Proof.
  revert c. induction a as [|x a IH]; intros [|y c] Hlen; simpl in *; try discriminate.
  - destruct (transformer_transform t b d) as [[rb rd]|]; reflexivity.
  - destruct (t x y) as [[x' y']|]; [|reflexivity].
    rewrite IH by lia.
    destruct (transformer_transform t a c) as [[ra rc]|]; simpl; [|reflexivity].
    destruct (transformer_transform t b d) as [[rb rd]|]; reflexivity.
Qed.


Lemma slice_assign_zeros (px bx : list Q) (i k m : nat) :
  List.length px = i -> List.length bx = k -> (k <= m)%nat ->
  Numpy.slice_assign (px ++ repeat 0%Q m) i (i + k) bx
  = Ok ((px ++ bx) ++ repeat 0%Q (m - k)).
Proof.
  intros Hpx Hbx Hk. unfold Numpy.slice_assign, Numpy.slice.
  assert (Hskip : skipn i (px ++ repeat 0%Q m) = repeat 0%Q m).
  { rewrite skipn_app, Hpx, Nat.sub_diag, skipn_all2 by lia. reflexivity. }
  rewrite Hskip.
  replace (i + k - i)%nat with k by lia.
  rewrite length_firstn, repeat_length, Hbx.
  replace (Nat.min k m) with k by lia. rewrite Nat.eqb_refl.
  f_equal. rewrite <- app_assoc. f_equal.
  - rewrite firstn_app, Hpx, Nat.sub_diag, firstn_all2 by lia.
    simpl. apply app_nil_r.
  - f_equal. rewrite skipn_app, Hpx, skipn_all2 by lia.
    replace (i + k - i)%nat with k by lia. simpl.
    clear. revert m. induction k as [|k IH]; intros m.
    + rewrite Nat.sub_0_r. reflexivity.
    + destruct m as [|m]; simpl; [reflexivity|]. apply IH.
Qed.

Lemma transform_batches_from (t : Transformer) (size n : nat) (xs ys : list Q) :
  (0 < size)%nat -> List.length xs = n -> List.length ys = n ->
  forall (fuel i : nat) (px py : list Q),
    (n - i <= fuel)%nat ->
    List.length px = Nat.min i n -> List.length py = Nat.min i n ->
    Archive.transform_batches t xs ys n size (Numpy.range_from fuel i n size)
      (px ++ repeat 0%Q (n - Nat.min i n)) (py ++ repeat 0%Q (n - Nat.min i n))
    = match transformer_transform t (skipn (Nat.min i n) xs) (skipn (Nat.min i n) ys) with
      | Ok (rx, ry) => Ok (px ++ rx, py ++ ry)
      | Raise e => Raise e
      end.
Proof.
  intros Hsize Hxs Hys. induction fuel as [|fuel IH]; intros i px py Hfuel Hpx Hpy.
  - assert (Hmin : Nat.min i n = n) by lia. rewrite Hmin in *.
    rewrite !skipn_all2 by lia. simpl. rewrite Nat.sub_diag. reflexivity.
  - simpl. destruct (Nat.ltb i n) eqn:Hlt.
    + apply Nat.ltb_lt in Hlt.
      assert (Hmin : Nat.min i n = i) by lia. rewrite Hmin in *.
      cbn [Archive.transform_batches].
      set (end_idx := Nat.min (i + size) n).
      assert (Hend : (i < end_idx <= n)%nat) by (unfold end_idx; lia).
      unfold Numpy.slice.
      rewrite <- (firstn_skipn (end_idx - i) (skipn i xs)) at 2.
      rewrite <- (firstn_skipn (end_idx - i) (skipn i ys)) at 2.
      rewrite transformer_transform_app
        by (rewrite !length_firstn, !length_skipn; lia).
      destruct (transformer_transform t (firstn (end_idx - i) (skipn i xs))
                                        (firstn (end_idx - i) (skipn i ys)))
        as [[bx by_]|] eqn:Hbatch; simpl; [|reflexivity].
      destruct (transformer_transform_length _ _ _ _ _ Hbatch) as (_ & Hbx & Hby).
      rewrite length_firstn, length_skipn in Hbx, Hby.
      assert (Hsplit : end_idx = (i + (end_idx - i))%nat) by lia.
      rewrite Hsplit at 1.
      rewrite (slice_assign_zeros px bx i (end_idx - i) (n - i)) by lia.
      cbn [bind].
      rewrite Hsplit at 1.
      rewrite (slice_assign_zeros py by_ i (end_idx - i) (n - i)) by lia.
      cbn [bind].
      assert (Hnext : Nat.min (i + size) n = end_idx) by reflexivity.
      replace (n - i - (end_idx - i))%nat with (n - Nat.min (i + size) n)%nat by lia.
      rewrite IH by (rewrite ?length_app; lia).
      rewrite Hnext, !skipn_skipn.
      replace (end_idx - i + i)%nat with end_idx by lia.
      destruct (transformer_transform t (skipn end_idx xs) (skipn end_idx ys))
        as [[rx ry]|]; [|reflexivity].
      rewrite <- !app_assoc. reflexivity.
    + apply Nat.ltb_ge in Hlt.
      assert (Hmin : Nat.min i n = n) by lia. rewrite Hmin in *.
      rewrite !skipn_all2 by lia. simpl. rewrite Nat.sub_diag. reflexivity.
Qed.

Lemma transformer_transform_error (t : Transformer) (xs ys : list Q) (e : Exc) :
  transformer_transform t xs ys = Raise e -> e = ProjError.
Proof.
  revert ys. induction xs as [|x xs IH]; intros [|y ys] Heq; simpl in Heq;
    try discriminate; try (inversion Heq; reflexivity).
  destruct (t x y) as [[x' y']|]; [|inversion Heq; reflexivity].
  destruct (transformer_transform t xs ys) as [[rx ry]|] eqn:Hrest; simpl in Heq;
    [discriminate|].
  inversion Heq; subst. eapply IH; eassumption.
Qed.

(** Whatever the positive batch size, the loop computes what one call on
    the whole arrays computes. *)
Lemma transform_batches_whole (t : Transformer) (size : nat) (xs ys : list Q) :
  (0 < size)%nat -> List.length xs = List.length ys ->
  Archive.transform_batches t xs ys (List.length xs) size
    (Numpy.range 0 (List.length xs) size)
    (repeat 0%Q (List.length xs)) (repeat 0%Q (List.length ys))
  = transformer_transform t xs ys.
Proof.
  intros Hsize Hlen. unfold Numpy.range.
  pose proof (transform_batches_from t size (List.length xs) xs ys Hsize eq_refl
                (eq_sym Hlen) (List.length xs - 0) 0 [] []) as Hloop.
  rewrite Nat.min_0_l in Hloop. simpl in Hloop.
  rewrite Nat.sub_0_r in Hloop. rewrite <- Hlen.
  rewrite Nat.sub_0_r. rewrite Hloop by (auto; lia).
  destruct (transformer_transform t xs ys) as [[rx ry]|]; reflexivity.
Qed.

(** A failing batch makes the call on the whole arrays fail. *)
Lemma failing_slice_fails (t : Transformer) (xs ys : list Q) (i j : nat) (e : Exc) :
  List.length xs = List.length ys ->
  transformer_transform t (Numpy.slice xs i j) (Numpy.slice ys i j) = Raise e ->
  transformer_transform t xs ys = Raise ProjError.
Proof.
  intros Hlen Hfail. unfold Numpy.slice in Hfail.
  rewrite <- (firstn_skipn i xs), <- (firstn_skipn i ys).
  rewrite transformer_transform_app by (rewrite !length_firstn; lia).
  destruct (transformer_transform t (firstn i xs) (firstn i ys)) as [[ra rc]|] eqn:Hhead;
    [|apply transformer_transform_error in Hhead; subst; reflexivity].
  rewrite <- (firstn_skipn (j - i) (skipn i xs)), <- (firstn_skipn (j - i) (skipn i ys)).
  rewrite transformer_transform_app
    by (rewrite !length_firstn, !length_skipn; lia).
  rewrite Hfail. apply transformer_transform_error in Hfail. subst. reflexivity.
Qed.

(** C7.  The transform in batches of 500,000 points returns what a single
    call of the same transformer on the whole arrays returns, arrays of the
    length of the cloud in the order of the input; when a batch raises, the
    operation raises the chained transformation error and returns nothing. *)
Theorem batched_transform_is_single_call `{Externals}
        (las : Las.LasData) (ortho_crs : string) (source_crs : option string)
        (s : string) (t : Transformer) :
  Archive.resolve_source_crs las source_crs = Ok s ->
  transformer_from_crs s ortho_crs = Some t ->
  let n := List.length (Las.points las) in
  let size := N.to_nat Archive.batch_size in
  let result := Archive.transform_point_cloud_to_ortho_crs las ortho_crs source_crs in
  result = match transformer_transform t (Las.xs las) (Las.ys las) with
           | Ok r => Ok r
           | Raise e => Raise (TransformFailed e)
           end
  /\ (forall tx ty, result = Ok (tx, ty) ->
                    List.length tx = n /\ List.length ty = n)
  /\ (forall i e, In i (Numpy.range 0 n size) ->
                  transformer_transform t
                    (Numpy.slice (Las.xs las) i (Nat.min (i + size) n))
                    (Numpy.slice (Las.ys las) i (Nat.min (i + size) n)) = Raise e ->
                  result = Raise (TransformFailed ProjError)).
Proof.
  intros Hcrs Ht n size result.
  assert (Hlen : List.length (Las.xs las) = List.length (Las.ys las))
    by (unfold Las.xs, Las.ys; rewrite !length_map; reflexivity).
  assert (Hn : List.length (Las.xs las) = n)
    by (unfold Las.xs; rewrite length_map; reflexivity).
  assert (Hsize : (0 < size)%nat) by (unfold size, Archive.batch_size; lia).
  assert (Heq : result = match transformer_transform t (Las.xs las) (Las.ys las) with
                         | Ok r => Ok r
                         | Raise e => Raise (TransformFailed e)
                         end).
  { unfold result, Archive.transform_point_cloud_to_ortho_crs.
    rewrite Hcrs. cbn [bind]. unfold Archive.transform_in_batches. rewrite Ht.
    fold size. rewrite (transform_batches_whole t size _ _ Hsize Hlen). reflexivity. }
  split; [exact Heq|]. split.
  - intros tx ty Hok. rewrite Heq in Hok.
    destruct (transformer_transform t (Las.xs las) (Las.ys las)) as [[rx ry]|] eqn:Hall;
      [|discriminate].
    inversion Hok; subst.
    destruct (transformer_transform_length _ _ _ _ _ Hall) as (_ & Hx & Hy).
    rewrite Hn in Hx, Hy. auto.
  - intros i e _ Hfail. rewrite Heq.
    rewrite (failing_slice_fails t _ _ _ _ e Hlen Hfail). reflexivity.
Qed.

Lemma batched_transform_is_single_call_witness :
  @Archive.resolve_source_crs Scenario.failing_externals
    (Scenario.cloud_of [Scenario.utm_vlr] [(1, 1); (-1, 2)]%Q) None
  = Ok "EPSG:26913"%string
  /\ @transformer_from_crs Scenario.failing_externals "EPSG:26913" "EPSG:26913"
     = Some Scenario.partial_transformer
  /\ @Archive.transform_point_cloud_to_ortho_crs Scenario.failing_externals
       (Scenario.cloud_of [Scenario.utm_vlr] [(1, 1); (-1, 2)]%Q) "EPSG:26913" None
     = Raise (TransformFailed ProjError).
Proof.
  split; [reflexivity|]. split; [reflexivity|].
  exact (proj1 (@batched_transform_is_single_call Scenario.failing_externals
                  (Scenario.cloud_of [Scenario.utm_vlr] [(1, 1); (-1, 2)]%Q)
                  "EPSG:26913" None "EPSG:26913" Scenario.partial_transformer
                  eq_refl eq_refl)).
Defined.

(** ** The bounds-to-bounds fallback of the script *)

Lemma map_fst_combine {A B : Type} (a : list A) (b : list B) :
  List.length a = List.length b -> map fst (combine a b) = a.
Proof.
  revert b. induction a as [|x a IH]; intros [|y b] Hlen; simpl in *;
    try reflexivity; try discriminate.
  rewrite IH by lia. reflexivity.
Qed.

Lemma map_snd_combine {A B : Type} (a : list A) (b : list B) :
  List.length a = List.length b -> map snd (combine a b) = b.
Proof.
  revert b. induction a as [|x a IH]; intros [|y b] Hlen; simpl in *;
    try reflexivity; try discriminate.
  rewrite IH by lia. reflexivity.
Qed.

Lemma np_min_nonempty (a : list Q) :
  a <> [] -> exists m, Numpy.np_min a = Ok m.
Proof. destruct a as [|x a]; [congruence|]. intros _. eexists. reflexivity. Qed.

Lemma np_max_nonempty (a : list Q) :
  a <> [] -> exists m, Numpy.np_max a = Ok m.
Proof. destruct a as [|x a]; [congruence|]. intros _. eexists. reflexivity. Qed.

(** The guarded quotient of lines 115-124 never raises. *)
Lemma guarded_scale_total (num den : Q) :
  exists scale,
    (if negb (Numpy.qeq den 0) then Script.py_div num den else Ok 1%Q) = Ok scale
    /\ (Numpy.qeq den 0 = true -> scale = 1%Q).
Proof.
  unfold Script.py_div. destruct (Numpy.qeq den 0) eqn:Hzero; simpl.
  - exists 1%Q. auto.
  - exists (num / den)%Q. split; [reflexivity|discriminate].
Qed.

Lemma bounds_to_bounds_scaling_total (x_coords y_coords : list Q) :
  x_coords <> [] -> List.length x_coords = List.length y_coords ->
  exists coords,
    Script.bounds_to_bounds_scaling x_coords y_coords = Ok coords
    /\ List.length coords = List.length x_coords
    /\ (forall min_x max_x,
           Numpy.np_min x_coords = Ok min_x -> Numpy.np_max x_coords = Ok max_x ->
           Numpy.qeq (max_x - min_x) 0 = true ->
           map fst coords
           = map (fun x => (4762169806 # 10000) + (x - min_x) * 1)%Q x_coords)
    /\ (forall min_y max_y,
           Numpy.np_min y_coords = Ok min_y -> Numpy.np_max y_coords = Ok max_y ->
           Numpy.qeq (max_y - min_y) 0 = true ->
           map snd coords
           = map (fun y => (44248648564 # 10000) + (y - min_y) * 1)%Q y_coords).
Proof.
  intros Hx Hlen.
  assert (Hy : y_coords <> []) by (destruct x_coords, y_coords; simpl in *; congruence).
  destruct (np_min_nonempty _ Hx) as [min_x Hminx].
  destruct (np_max_nonempty _ Hx) as [max_x Hmaxx].
  destruct (np_min_nonempty _ Hy) as [min_y Hminy].
  destruct (np_max_nonempty _ Hy) as [max_y Hmaxy].
  unfold Script.bounds_to_bounds_scaling.
  rewrite Hminx, Hmaxx, Hminy, Hmaxy. cbn [bind].
  destruct (guarded_scale_total ((4778330806 # 10000) - (4762169806 # 10000))
                                (max_x - min_x)) as (sx & Hsx & Hsx1).
  destruct (guarded_scale_total ((44264811064 # 10000) - (44248648564 # 10000))
                                (max_y - min_y)) as (sy & Hsy & Hsy1).
  rewrite Hsx. cbn [bind]. rewrite Hsy. cbn [bind].
  unfold Script.column_stack. rewrite !length_map, Hlen, Nat.eqb_refl.
  eexists. split; [reflexivity|]. split; [|split].
  - rewrite length_combine, !length_map. lia.
  - intros mn mx Hmn Hmx Hdeg. inversion Hmn; inversion Hmx; subst.
    rewrite (Hsx1 Hdeg).
    rewrite map_fst_combine by (rewrite !length_map; exact Hlen). reflexivity.
  - intros mn mx Hmn Hmx Hdeg. inversion Hmn; inversion Hmx; subst.
    rewrite (Hsy1 Hdeg).
    rewrite map_snd_combine by (rewrite !length_map; exact Hlen). reflexivity.
Qed.

(** C10.  When pyproj fails and no custom transform is given, the fallback
    scaling of [transform_coordinates] returns one coordinate pair per point
    of a non-empty cloud: the quotient is only taken for an axis whose
    extent is not zero, and an axis with [max = min] is scaled by 1. *)
Theorem fallback_scaling_total `{Externals} (las : Las.LasData) (target_crs_str : string) :
  Las.points las <> [] ->
  (forall t, transformer_from_crs (Script.identify_point_cloud_crs las) target_crs_str
             = Some t ->
             exists e, transformer_transform t (Las.xs las) (Las.ys las) = Raise e) ->
  exists coords,
    Script.transform_coordinates las target_crs_str None = Ok coords
    /\ List.length coords = List.length (Las.points las)
    /\ (forall min_x max_x,
           Numpy.np_min (Las.xs las) = Ok min_x ->
           Numpy.np_max (Las.xs las) = Ok max_x ->
           Numpy.qeq (max_x - min_x) 0 = true ->
           map fst coords
           = map (fun x => (4762169806 # 10000) + (x - min_x) * 1)%Q (Las.xs las))
    /\ (forall min_y max_y,
           Numpy.np_min (Las.ys las) = Ok min_y ->
           Numpy.np_max (Las.ys las) = Ok max_y ->
           Numpy.qeq (max_y - min_y) 0 = true ->
           map snd coords
           = map (fun y => (44248648564 # 10000) + (y - min_y) * 1)%Q (Las.ys las)).
Proof.
  intros Hpoints Hproj.
  assert (Hx : Las.xs las <> []).
  { unfold Las.xs. destruct (Las.points las); [congruence|discriminate]. }
  assert (Hlen : List.length (Las.xs las) = List.length (Las.ys las))
    by (unfold Las.xs, Las.ys; rewrite !length_map; reflexivity).
  destruct (bounds_to_bounds_scaling_total _ _ Hx Hlen) as (coords & Hok & Hn & Hdx & Hdy).
  exists coords. split; [|split; [|split]]; auto.
  - unfold Script.transform_coordinates.
    destruct (negb (String.eqb (Script.identify_point_cloud_crs las) EmptyString));
      [|exact Hok].
    destruct (transformer_from_crs (Script.identify_point_cloud_crs las) target_crs_str)
      as [t|] eqn:Ht; [|exact Hok].
    destruct (Hproj t eq_refl) as [e He]. rewrite He. exact Hok.
  - rewrite Hn. unfold Las.xs. apply length_map.
Qed.

Lemma fallback_scaling_total_witness :
  Las.points (Scenario.cloud_of [] [(3, 4)%Q]) <> []
  /\ (forall t, @transformer_from_crs Scenario.no_proj_externals
                  (Script.identify_point_cloud_crs (Scenario.cloud_of [] [(3, 4)%Q]))
                  "EPSG:26913" = Some t ->
                exists e, transformer_transform t
                            (Las.xs (Scenario.cloud_of [] [(3, 4)%Q]))
                            (Las.ys (Scenario.cloud_of [] [(3, 4)%Q])) = Raise e)
  /\ exists coords,
       @Script.transform_coordinates Scenario.no_proj_externals
         (Scenario.cloud_of [] [(3, 4)%Q]) "EPSG:26913" None = Ok coords
       /\ List.length coords = 1%nat.
Proof.
  split; [discriminate|]. split; [intros t Ht; discriminate Ht|].
  destruct (@fallback_scaling_total Scenario.no_proj_externals
              (Scenario.cloud_of [] [(3, 4)%Q]) "EPSG:26913")
    as (coords & Hok & Hn & _); [discriminate|intros t Ht; discriminate Ht|].
  exists coords. split; [exact Hok|exact Hn].
Defined.

(** ** Shapes along the archived pipeline *)

Lemma mask_assign_inv {A B : Type} (set : A -> B -> A) (a : list A)
      (mask : list bool) (vals : list B) (r : list A) :
  Numpy.mask_assign set a mask vals = Ok r ->
  List.length a = List.length mask
  /\ List.length vals = Numpy.count_true mask
  /\ r = Numpy.scatter set a mask vals.
Proof.
  unfold Numpy.mask_assign.
  destruct (Nat.eqb (List.length a) (List.length mask)) eqn:E1; simpl; [|discriminate].
  destruct (Nat.eqb (List.length vals) (Numpy.count_true mask)) eqn:E2; simpl;
    [|discriminate].
  intros H. inversion H. apply Nat.eqb_eq in E1, E2. auto.
Qed.

Lemma mask_assign_ok {A B : Type} (set : A -> B -> A) (a : list A)
      (mask : list bool) (vals : list B) :
  List.length a = List.length mask ->
  List.length vals = Numpy.count_true mask ->
  Numpy.mask_assign set a mask vals = Ok (Numpy.scatter set a mask vals).
Proof.
  intros H1 H2. unfold Numpy.mask_assign. rewrite H1, H2, !Nat.eqb_refl. reflexivity.
Qed.

Lemma zeros_colors_length (n : nat) : List.length (zeros_colors n) = n.
Proof. apply repeat_length. Qed.

Ltac bind_inv H :=
  match type of H with
  | bind ?c _ = Ok _ =>
      let E := fresh "E" in
      destruct c eqn:E; cbn [bind] in H; [|discriminate H]
  end.

Lemma sample_colors_length (ortho : Raster.Dataset) (cols rows : list Z)
      (mask : list bool) (n : nat) (colors : list Color) :
  Archive.sample_colors ortho cols rows mask n = Ok colors ->
  List.length colors = n /\ List.length mask = n.
Proof.
  unfold Archive.sample_colors. intros H.
  bind_inv H. bind_inv H. bind_inv H. destruct a1 as [[rv gv] bv].
  bind_inv H. bind_inv H. bind_inv H. bind_inv H. bind_inv H.
  inversion H; subst.
  apply mask_assign_inv in E4, E5, E6.
  destruct E4 as (L1 & _ & ->). destruct E5 as (L2 & _ & ->).
  destruct E6 as (L3 & _ & ->).
  rewrite !scatter_length, zeros_colors_length in *. auto.
Qed.

Lemma transform_lengths `{Externals} (las : Las.LasData) (ortho_crs : string)
      (source_crs : option string) (tx ty : list Q) :
  Archive.transform_point_cloud_to_ortho_crs las ortho_crs source_crs = Ok (tx, ty) ->
  List.length tx = List.length (Las.points las)
  /\ List.length ty = List.length (Las.points las).
Proof.
  unfold Archive.transform_point_cloud_to_ortho_crs. intros Hok.
  bind_inv Hok. unfold Archive.transform_in_batches in Hok.
  destruct (transformer_from_crs a ortho_crs) as [t|]; [|discriminate].
  assert (Hlen : List.length (Las.xs las) = List.length (Las.ys las))
    by (unfold Las.xs, Las.ys; rewrite !length_map; reflexivity).
  rewrite transform_batches_whole in Hok by (auto; unfold Archive.batch_size; lia).
  destruct (transformer_transform t (Las.xs las) (Las.ys las)) as [[rx ry]|] eqn:Hall;
    [|discriminate].
  inversion Hok; subst.
  destruct (transformer_transform_length _ _ _ _ _ Hall) as (_ & Hx & Hy).
  unfold Las.xs in Hx, Hy. rewrite length_map in Hx, Hy. auto.
Qed.

Lemma align_lengths `{Externals} (las : Las.LasData) (ortho : Raster.Dataset)
      (source_crs : option string) tx ty pc ov :
  Archive.align las ortho source_crs = Ok (tx, ty, pc, ov) ->
  List.length tx = List.length (Las.points las)
  /\ List.length ty = List.length (Las.points las).
Proof.
  unfold Archive.align. destruct (Raster.crs ortho) as [c|]; [|discriminate].
  intros Hok. bind_inv Hok. destruct a as [tx' ty']. bind_inv Hok.
  inversion Hok; subst. eapply transform_lengths; eassumption.
Qed.

Lemma locate_shapes `{Externals} (las : Las.LasData) (ortho : Raster.Dataset)
      (tx ty : list Q) pc ov (l : Archive.Located) :
  List.length tx = List.length (Las.points las) ->
  List.length ty = List.length (Las.points las) ->
  Archive.locate las ortho tx ty pc ov = Ok l ->
  Archive.total_points l = List.length (Las.points las)
  /\ List.length (Archive.valid_mask l) = List.length (Las.points las)
  /\ List.length (Archive.pixel_cols l) = List.length (Las.points las)
  /\ List.length (Archive.pixel_rows l) = List.length (Las.points las)
  /\ Archive.num_valid l = Numpy.count_true (Archive.valid_mask l).
Proof.
  intros Hx Hy. unfold Archive.locate. intros Hok. bind_inv Hok.
  destruct a as [cols rows]. inversion Hok; subst; simpl.
  unfold Archive.pixel_coordinates in E. bind_inv E. bind_inv E.
  match type of E with context [rowcol ?u] => destruct (rowcol u) as [rc|] end;
    [|discriminate].
  inversion E; subst.
  unfold Archive.make_valid_mask.
  rewrite !length_map, !length_combine, !length_map, !length_combine. 
  repeat split; lia.
Qed.

Lemma colorize_shapes `{Externals} (self : Archive.PointCloudColorizer)
      (depth : nat) :
  forall (w : Archive.World) (las : Las.LasData) (ortho : Raster.Dataset)
         (source_crs : option string) (w' : Archive.World)
         (colors : list Color) (mask : list bool),
    Archive.colorize_point_cloud self depth w las ortho source_crs
    = (w', Ok (colors, mask)) ->
    List.length colors = List.length (Las.points las)
    /\ List.length mask = List.length (Las.points las).
Proof.
  induction depth as [|depth IH]; intros w las ortho source_crs w' colors mask Hrun.
  - discriminate.
  - simpl in Hrun.
    destruct (Archive.align las ortho source_crs) as [[[[tx ty] pc] ov]|e] eqn:Halign;
      [|discriminate].
    destruct (align_lengths _ _ _ _ _ _ _ Halign) as [Hx Hy].
    destruct (Archive.locate las ortho tx ty pc ov) as [l|e] eqn:Hloc; [|discriminate].
    destruct (locate_shapes _ _ _ _ _ _ _ Hx Hy Hloc) as (Ht & Hm & _).
    assert (Hextract :
              forall w0,
                (w0, match Archive.sample_colors ortho (Archive.pixel_cols l)
                             (Archive.pixel_rows l) (Archive.valid_mask l)
                             (Archive.total_points l) with
                     | Ok colors0 => Ok (colors0, Archive.valid_mask l)
                     | Raise e => Raise e
                     end) = (w', Ok (colors, mask)) ->
                List.length colors = List.length (Las.points las)
                /\ List.length mask = List.length (Las.points las)).
    { intros w0 Hex.
      destruct (Archive.sample_colors ortho (Archive.pixel_cols l) (Archive.pixel_rows l)
                  (Archive.valid_mask l) (Archive.total_points l)) as [c|] eqn:Hs;
        [|discriminate].
      inversion Hex; subst. apply sample_colors_length in Hs. lia. }
    destruct (Archive.low_coverage l).
    + match type of Hrun with
      | context [Archive.download_corrected_orthophoto ?w0] =>
          destruct (Archive.download_corrected_orthophoto w0) as [w1 [corrected|]]
      end.
      * match type of Hrun with
        | context [Archive.colorize_point_cloud self depth ?w0 las corrected source_crs] =>
            destruct (Archive.colorize_point_cloud self depth w0 las corrected source_crs)
              as [w2 [[colors2 mask2]|e]] eqn:Hrec
        end.
        -- inversion Hrun; subst. eapply IH; eassumption.
        -- destruct (Nat.eqb (Archive.num_valid l) 0); [discriminate|].
           eapply Hextract; eassumption.
      * destruct (Nat.eqb (Archive.num_valid l) 0); [discriminate|].
        eapply Hextract; eassumption.
    + eapply Hextract; eassumption.
Qed.

(** ** The summary report *)

Lemma summary_counts (colors : list Color) (mask : list bool)
      (stats : Archive.ProcessingStats) (cstats : Archive.ColorStats) :
  Archive.create_summary_report colors mask = Ok (stats, cstats) ->
  (Archive.colorized_points stats <= Archive.trimmed_points stats)%nat
  /\ (Archive.trimmed_points stats <= Archive.original_total_points stats)%nat
  /\ Archive.original_total_points stats = List.length colors
  /\ Archive.trimmed_points stats = Numpy.count_true mask.
Proof.
  unfold Archive.create_summary_report. intros Hok. bind_inv Hok.
  apply mask_select_inv in E. destruct E as [Hlen ->].
  inversion Hok; subst; simpl.
  pose proof (filter_length_le Archive.any_positive (Numpy.select colors mask)) as Hf.
  rewrite (select_length colors mask Hlen) in Hf.
  pose proof (@count_true_le mask) as Hc.
  repeat split; lia.
Qed.

(** C9.  In every run of the pipeline that writes its report, the points
    counted as colorized are at most the valid points, which are at most the
    points of the input cloud. *)
Theorem colorized_le_valid_le_total `{Externals} (self : Archive.PointCloudColorizer)
        (depth : nat) (w w' : Archive.World) (las out : Las.LasData)
        (ortho : Raster.Dataset)
        (stats : Archive.ProcessingStats) (cstats : Archive.ColorStats) :
  Archive.process_files self depth w las ortho true
  = (w', Ok (out, Some (stats, cstats))) ->
  (Archive.colorized_points stats <= Archive.trimmed_points stats)%nat
  /\ (Archive.trimmed_points stats <= Archive.original_total_points stats)%nat
  /\ Archive.original_total_points stats = List.length (Las.points las).
Proof.
  unfold Archive.process_files. intros Hrun.
  destruct (Archive.colorize_point_cloud self depth w las ortho None)
    as [w1 [[colors mask]|e]] eqn:Hcolorize; [|discriminate].
  destruct (colorize_shapes _ _ _ _ _ _ _ _ _ Hcolorize) as [Hc Hm].
  inversion Hrun as [[Hw Hres]]. clear Hrun.
  bind_inv Hres. bind_inv Hres. inversion Hres; subst.
  destruct (summary_counts _ _ _ _ E0) as (H1 & H2 & H3 & _).
  rewrite <- Hc, <- H3. auto.
Qed.

Lemma colorized_le_valid_le_total_witness :
  exists w' out stats cstats,
    @Archive.process_files Scenario.externals Scenario.quiet 3 (Scenario.world_of [])
      Scenario.inside_cloud Scenario.white8 true
    = (w', Ok (out, Some (stats, cstats)))
    /\ (Archive.colorized_points stats <= Archive.trimmed_points stats)%nat
    /\ (Archive.trimmed_points stats <= Archive.original_total_points stats)%nat
    /\ Archive.original_total_points stats = 2%nat.
Proof.
  destruct (@Archive.process_files Scenario.externals Scenario.quiet 3
              (Scenario.world_of []) Scenario.inside_cloud Scenario.white8 true)
    as [w' [[out [[stats cstats]|]]|e]] eqn:Hrun.
  - exists w', out, stats, cstats. split; [reflexivity|].
    exact (@colorized_le_valid_le_total Scenario.externals _ _ _ _ _ _ _ _ _ Hrun).
  - exfalso. vm_compute in Hrun. discriminate Hrun.
  - exfalso. vm_compute in Hrun. discriminate Hrun.
Defined.

(** ** The output assembler *)

Lemma map_on_fst_combine {A B C : Type} (g : A -> C) (a : list A) (b : list B) :
  List.length a = List.length b ->
  map (fun p => g (fst p)) (combine a b) = map g a.
Proof.
  intros Hlen. rewrite <- (map_map fst g). rewrite map_fst_combine by exact Hlen.
  reflexivity.
Qed.

Lemma map_on_snd_combine {A B C : Type} (g : B -> C) (a : list A) (b : list B) :
  List.length a = List.length b ->
  map (fun p => g (snd p)) (combine a b) = map g b.
Proof.
  intros Hlen. rewrite <- (map_map snd g). rewrite map_snd_combine by exact Hlen.
  reflexivity.
Qed.

Lemma output_point_copies (las : Las.LasData) (p : Las.Point) (c : Color)
      (name : string) :
  In name Archive.attributes_to_copy -> Las.hasattr las name = true ->
  Las.pt_dim (Archive.output_point las p c) name = Las.pt_dim p name.
Proof.
  intros Hin Hhas. unfold Archive.attributes_to_copy in Hin. simpl in Hin.
  repeat (destruct Hin as [<-|Hin]; [simpl; rewrite Hhas; reflexivity|]).
  contradiction.
Qed.

(** C3, counterexample.  For a cloud of point format 3 the archived
    assembler keeps the format but not the GPS time of the kept point, and
    the script writes both points although the mask keeps one. *)
Lemma trimmed_output_not_every_attribute :
  match Archive.save_colorized_point_cloud Scenario.timed_cloud
          [(1, 2, 3); (4, 5, 6)] [true; false] with
  | Ok out =>
      Las.hasattr out "gps_time" = true
      /\ Las.column "gps_time" out = [0]
      /\ Numpy.select (Las.column "gps_time" Scenario.timed_cloud) [true; false] = [5]
  | Raise _ => False
  end
  /\ match Script.save_colorized_point_cloud Scenario.timed_cloud
             [(1, 2, 3); (4, 5, 6)] with
     | Ok out => List.length (Las.points out) = 2%nat
                 /\ Numpy.count_true [true; false] = 1%nat
     | Raise _ => False
     end.
Proof. vm_compute. repeat split; reflexivity. Qed.

(** C3, amended.  The cloud the archived assembler writes holds exactly the
    points whose mask entry is true, in the order of the input; their
    coordinates and those of the attributes intensity, return_number,
    number_of_returns, classification, scan_angle_rank, user_data and
    point_source_id that the input has are the input's at the same point, and
    the colours are the masked rows of the colour array. *)
Theorem trimmed_output_copies_listed_attributes
        (las : Las.LasData) (colors : list Color) (valid_mask : list bool) :
  List.length colors = List.length (Las.points las) ->
  List.length valid_mask = List.length (Las.points las) ->
  exists out,
    Archive.save_colorized_point_cloud las colors valid_mask = Ok out
    /\ List.length (Las.points out) = Numpy.count_true valid_mask
    /\ Las.xs out = Numpy.select (Las.xs las) valid_mask
    /\ Las.ys out = Numpy.select (Las.ys las) valid_mask
    /\ Las.zs out = Numpy.select (Las.zs las) valid_mask
    /\ (forall name, In name Archive.attributes_to_copy ->
                     Las.hasattr las name = true ->
                     Las.column name out
                     = Numpy.select (Las.column name las) valid_mask)
    /\ Las.column "red" out = map red_of (Numpy.select colors valid_mask)
    /\ Las.column "green" out = map green_of (Numpy.select colors valid_mask)
    /\ Las.column "blue" out = map blue_of (Numpy.select colors valid_mask).
Proof.
  intros Hcolors Hmask. unfold Archive.save_colorized_point_cloud.
  rewrite (mask_select_ok (Las.points las) valid_mask) by lia.
  rewrite (mask_select_ok colors valid_mask) by lia. cbn [bind].
  assert (Hsel : List.length (Numpy.select (Las.points las) valid_mask)
                 = List.length (Numpy.select colors valid_mask))
    by (rewrite !select_length by lia; reflexivity).
  eexists. split; [reflexivity|].
  unfold Las.xs, Las.ys, Las.zs, Las.column. cbn [Las.points].
  rewrite !map_map. cbn [Archive.output_point Las.pt_x Las.pt_y Las.pt_z Las.pt_dim].
  repeat split.
  - rewrite length_map, length_combine, <- Hsel, Nat.min_id.
    apply select_length. lia.
  - rewrite (map_on_fst_combine Las.pt_x) by exact Hsel. symmetry. apply select_map.
  - rewrite (map_on_fst_combine Las.pt_y) by exact Hsel. symmetry. apply select_map.
  - rewrite (map_on_fst_combine Las.pt_z) by exact Hsel. symmetry. apply select_map.
  - intros name Hin Hhas. rewrite map_map, select_map.
    rewrite <- (map_on_fst_combine (fun p => Las.pt_dim p name)
                  (Numpy.select (Las.points las) valid_mask)
                  (Numpy.select colors valid_mask) Hsel).
    apply map_ext. intros [p c].
    exact (output_point_copies las p c name Hin Hhas).
  - simpl. apply (map_on_snd_combine red_of). exact Hsel.
  - simpl. apply (map_on_snd_combine green_of). exact Hsel.
  - simpl. apply (map_on_snd_combine blue_of). exact Hsel.
Qed.

Lemma trimmed_output_copies_listed_attributes_witness :
  List.length [(1, 2, 3); (4, 5, 6)] = List.length (Las.points Scenario.timed_cloud)
  /\ List.length [true; false] = List.length (Las.points Scenario.timed_cloud)
  /\ exists out,
       Archive.save_colorized_point_cloud Scenario.timed_cloud
         [(1, 2, 3); (4, 5, 6)] [true; false] = Ok out
       /\ List.length (Las.points out) = 1%nat
       /\ Las.column "intensity" out = [7].
Proof.
  split; [reflexivity|]. split; [reflexivity|].
  destruct (trimmed_output_copies_listed_attributes Scenario.timed_cloud
              [(1, 2, 3); (4, 5, 6)] [true; false] eq_refl eq_refl)
    as (out & Hok & Hn & _ & _ & _ & Hattr & _).
  exists out. split; [exact Hok|]. split; [exact Hn|].
  exact (Hattr "intensity"%string (or_introl eq_refl) eq_refl).
Defined.

(** ** The correction loop *)

Lemma download_effect (w w1 : Archive.World) (reply : option Raster.Dataset) :
  Archive.download_corrected_orthophoto w = (w1, reply) ->
  Archive.w_retries w1 = Archive.w_retries w
  /\ exists consumed,
       Archive.w_downloads w = consumed ++ Archive.w_downloads w1
       /\ (List.length consumed <= 1)%nat
       /\ Spec.acquired consumed = match reply with Some _ => 1%nat | None => 0%nat end.
Proof.
  unfold Archive.download_corrected_orthophoto.
  destruct (Archive.w_downloads w) as [|r rest] eqn:Hd; intros Heq;
    inversion Heq; subst; simpl; rewrite ?Hd; split; try reflexivity.
  - exists []. simpl. auto.
  - exists [reply]. simpl. repeat split; auto. destruct reply; reflexivity.
Qed.

Lemma acquired_app (a b : list (option Raster.Dataset)) :
  Spec.acquired (a ++ b) = (Spec.acquired a + Spec.acquired b)%nat.
Proof. unfold Spec.acquired. rewrite filter_app, length_app. reflexivity. Qed.

(** C1, counterexample.  With an image service that twice serves a raster
    covering 1 point in 11, one execution makes two recursive retries. *)
Lemma correction_retries_twice :
  Archive.w_retries
    (fst (@Archive.colorize_point_cloud Scenario.externals Scenario.quiet 50
            (Scenario.world_of [Some Scenario.white8; Some Scenario.white8; None])
            Scenario.sparse_cloud Scenario.white8 None))
  = 2%nat.
Proof. vm_compute. reflexivity. Qed.

(** C1, amended.  An invocation asks for at most one replacement raster
    and, when it gets one, runs the whole colorization on it by one recursive
    call; that call tests the coverage of the replacement in the same way and
    may ask again.  So the retries of an execution are exactly the
    replacement rasters among the replies it consumes, at most one reply per
    nested call and no more than the recursion depth allows, and they are
    not bounded by one. *)
Theorem retries_are_acquired_replies `{Externals} (self : Archive.PointCloudColorizer)
        (depth : nat) :
  forall (w : Archive.World) (las : Las.LasData) (ortho : Raster.Dataset)
         (source_crs : option string),
    let w' := fst (Archive.colorize_point_cloud self depth w las ortho source_crs) in
    exists consumed,
      Archive.w_downloads w = consumed ++ Archive.w_downloads w'
      /\ Archive.w_retries w' = (Archive.w_retries w + Spec.acquired consumed)%nat
      /\ (List.length consumed <= depth)%nat.
Proof.
  assert (Hnone : forall w : Archive.World,
             exists consumed,
               Archive.w_downloads w = consumed ++ Archive.w_downloads w
               /\ Archive.w_retries w = (Archive.w_retries w + Spec.acquired consumed)%nat
               /\ (List.length consumed <= 0)%nat)
    by (intros w; exists []; simpl; repeat split; unfold Spec.acquired; simpl; lia).
  induction depth as [|depth IH]; intros w las ortho source_crs; simpl.
  - apply Hnone.
  - assert (Hstay : forall w0 : Archive.World,
               Archive.w_retries w0 = Archive.w_retries w ->
               Archive.w_downloads w0 = Archive.w_downloads w ->
               exists consumed,
                 Archive.w_downloads w = consumed ++ Archive.w_downloads w0
                 /\ Archive.w_retries w0
                    = (Archive.w_retries w + Spec.acquired consumed)%nat
                 /\ (List.length consumed <= S depth)%nat).
    { intros w0 Hr Hd. exists []. rewrite Hr, Hd. unfold Spec.acquired. simpl.
      repeat split; lia. }
    destruct (Archive.align las ortho source_crs) as [[[[tx ty] pc] ov]|e]; simpl;
      [|apply Hstay; reflexivity].
    set (w0 := if Archive.create_diagnostics self || negb (fst ov && snd ov)
               then Archive.create_alignment_diagnostic w else w).
    assert (Hw0 : Archive.w_retries w0 = Archive.w_retries w
                  /\ Archive.w_downloads w0 = Archive.w_downloads w)
      by (unfold w0; destruct (Archive.create_diagnostics self || negb (fst ov && snd ov));
          simpl; auto).
    destruct Hw0 as [Hr0 Hd0].
    destruct (Archive.locate las ortho tx ty pc ov) as [l|e]; simpl;
      [|apply Hstay; assumption].
    destruct (Archive.low_coverage l); simpl; [|apply Hstay; assumption].
    destruct (Archive.download_corrected_orthophoto w0) as [w1 reply] eqn:Hdl.
    destruct (download_effect _ _ _ Hdl) as (Hr1 & first & Hd1 & Hlen1 & Hacq1).
    assert (Hhandler : forall w2 : Archive.World,
               (exists rest,
                   Archive.w_downloads w1 = rest ++ Archive.w_downloads w2
                   /\ Archive.w_retries w2
                      = (Archive.w_retries w + Spec.acquired (first ++ rest))%nat
                   /\ (List.length rest <= depth)%nat) ->
               exists consumed,
                 Archive.w_downloads w = consumed ++ Archive.w_downloads w2
                 /\ Archive.w_retries w2
                    = (Archive.w_retries w + Spec.acquired consumed)%nat
                 /\ (List.length consumed <= S depth)%nat).
    { intros w2 (rest & Hd2 & Hr2 & Hlen2). exists (first ++ rest).
      rewrite <- Hd0, Hd1, Hd2, app_assoc, length_app. repeat split; auto; lia. }
    destruct reply as [corrected|].
    + destruct (IH (Archive.count_retry w1) las corrected source_crs)
        as (rest & Hd2 & Hr2 & Hlen2).
      simpl in Hd2, Hr2.
      assert (Hrec : forall w2,
                 w2 = fst (Archive.colorize_point_cloud self depth
                             (Archive.count_retry w1) las corrected source_crs) ->
                 exists rest0,
                   Archive.w_downloads w1 = rest0 ++ Archive.w_downloads w2
                   /\ Archive.w_retries w2
                      = (Archive.w_retries w + Spec.acquired (first ++ rest0))%nat
                   /\ (List.length rest0 <= depth)%nat).
      { intros w2 ->. exists rest. rewrite acquired_app, Hacq1.
        repeat split; auto. rewrite Hr2, Hr1, Hr0. lia. }
      destruct (Archive.colorize_point_cloud self depth (Archive.count_retry w1) las
                  corrected source_crs) as [w2 [res|e]]; simpl in *;
        [|destruct (Nat.eqb (Archive.num_valid l) 0); simpl];
        apply Hhandler; apply Hrec; reflexivity.
    + destruct (Nat.eqb (Archive.num_valid l) 0); simpl; apply Hhandler;
        exists []; rewrite app_nil_r, Hacq1, Hr1, Hr0; simpl; repeat split; lia.
Qed.

(** ** Repeated runs *)

(** Without correction the result of an invocation is a function of the
    cloud, the raster and the CRS override alone. *)
Lemma colorize_without_correction `{Externals} (self : Archive.PointCloudColorizer)
      (depth : nat) (w : Archive.World) (las : Las.LasData) (ortho : Raster.Dataset)
      (source_crs : option string) :
  Spec.triggers_correction las ortho source_crs = false ->
  snd (Archive.colorize_point_cloud self (S depth) w las ortho source_crs)
  = match Archive.align las ortho source_crs with
    | Ok (transformed_x, transformed_y, pc, overlap) =>
        match Archive.locate las ortho transformed_x transformed_y pc overlap with
        | Ok l =>
            match Archive.sample_colors ortho (Archive.pixel_cols l) (Archive.pixel_rows l)
                    (Archive.valid_mask l) (Archive.total_points l) with
            | Ok colors => Ok (colors, Archive.valid_mask l)
            | Raise e => Raise e
            end
        | Raise e => Raise e
        end
    | Raise e => Raise e
    end.
Proof.
  unfold Spec.triggers_correction. intros Hquiet. simpl.
  destruct (Archive.align las ortho source_crs) as [[[[tx ty] pc] ov]|e]; [|reflexivity].
  destruct (Archive.locate las ortho tx ty pc ov) as [l|e]; [|reflexivity].
  rewrite Hquiet. reflexivity.
Qed.

(** C8.  Two runs on the same cloud, raster and CRS override that do not
    enter the correction branch return the same colour array and the same
    mask, and write the same point cloud, whatever the random generator, the
    image service, the diagnostics option and the recursion allowance of each
    run are. *)
Theorem colorization_is_repeatable `{Externals}
        (self1 self2 : Archive.PointCloudColorizer) (depth1 depth2 : nat)
        (w1 w2 : Archive.World) (las : Las.LasData) (ortho : Raster.Dataset)
        (source_crs : option string) (create_summary : bool) :
  Spec.triggers_correction las ortho source_crs = false ->
  snd (Archive.colorize_point_cloud self1 (S depth1) w1 las ortho source_crs)
  = snd (Archive.colorize_point_cloud self2 (S depth2) w2 las ortho source_crs)
  /\ (source_crs = None ->
      snd (Archive.process_files self1 (S depth1) w1 las ortho create_summary)
      = snd (Archive.process_files self2 (S depth2) w2 las ortho create_summary)).
Proof.
  intros Hquiet. split.
  - rewrite !colorize_without_correction by exact Hquiet. reflexivity.
  - intros ->.
    pose proof (colorize_without_correction self1 depth1 w1 las ortho None Hquiet) as H1.
    pose proof (colorize_without_correction self2 depth2 w2 las ortho None Hquiet) as H2.
    unfold Archive.process_files.
    destruct (Archive.colorize_point_cloud self1 (S depth1) w1 las ortho None)
      as [w1' r1].
    destruct (Archive.colorize_point_cloud self2 (S depth2) w2 las ortho None)
      as [w2' r2].
    cbn [snd] in H1, H2. rewrite <- H2 in H1. subst r2.
    destruct r1 as [[colors mask]|e]; reflexivity.
Qed.

Lemma colorization_is_repeatable_witness :
  @Spec.triggers_correction Scenario.externals Scenario.inside_cloud Scenario.white8 None
  = false
  /\ snd (@Archive.colorize_point_cloud Scenario.externals
            {| Archive.create_diagnostics := true |} 1
            (Scenario.world_of [Some Scenario.white8])
            Scenario.inside_cloud Scenario.white8 None)
     = snd (@Archive.colorize_point_cloud Scenario.externals Scenario.quiet 7
              {| Archive.w_downloads := []; Archive.w_rng := 42;
                 Archive.w_retries := 0; Archive.w_plots := 3 |}
              Scenario.inside_cloud Scenario.white8 None).
Proof.
  assert (Hquiet : @Spec.triggers_correction Scenario.externals
                     Scenario.inside_cloud Scenario.white8 None = false)
    by (vm_compute; reflexivity).
  split; [exact Hquiet|].
  exact (proj1 (@colorization_is_repeatable Scenario.externals
                  {| Archive.create_diagnostics := true |} Scenario.quiet 0 6
                  (Scenario.world_of [Some Scenario.white8])
                  {| Archive.w_downloads := []; Archive.w_rng := 42;
                     Archive.w_retries := 0; Archive.w_plots := 3 |}
                  Scenario.inside_cloud Scenario.white8 None true Hquiet)).
Defined.

(** ** Colour sampling *)

Lemma nth_error_combine {A B : Type} (a : list A) (b : list B) (i : nat) (x : A) (y : B) :
  nth_error a i = Some x -> nth_error b i = Some y ->
  nth_error (combine a b) i = Some (x, y).
Proof.
  revert b i. induction a as [|a0 a IH]; intros [|b0 b] [|i] Ha Hb; simpl in *;
    try discriminate.
  - inversion Ha; inversion Hb; reflexivity.
  - apply IH; assumption.
Qed.

Lemma nth_error_zeros (n i : nat) :
  (i < n)%nat -> nth_error (zeros_colors n) i = Some (0, 0, 0).
Proof. intros Hi. unfold zeros_colors. apply nth_error_repeat. exact Hi. Qed.

Lemma select_true_nonempty {A : Type} (a : list A) (mask : list bool) (i : nat) :
  List.length a = List.length mask -> nth_error mask i = Some true ->
  Numpy.select a mask <> [].
Proof.
  revert mask i. induction a as [|x a IH]; intros [|m mask] i Hlen Hi; simpl in *;
    try discriminate; try (destruct i; discriminate).
  destruct m; [discriminate|]. destruct i as [|i]; simpl in Hi; [discriminate|].
  apply (IH mask i); [lia|exact Hi].
Qed.

(** The three masked assignments of a colour extraction, at a valid point:
    each channel holds the image of the sample found at the point's pixel. *)
Lemma three_assignments_at (fr fg fb : Z * Z -> Z)
      (cols rows : list Z) (mask : list bool) (i : nat) (col row : Z) :
  List.length cols = List.length mask -> List.length rows = List.length mask ->
  nth_error mask i = Some true ->
  nth_error cols i = Some col -> nth_error rows i = Some row ->
  let at_valid := Numpy.select (combine rows cols) mask in
  exists colors,
    (c1 <- Numpy.mask_assign set_red (zeros_colors (List.length mask)) mask
                             (map fr at_valid) ;;
     c2 <- Numpy.mask_assign set_green c1 mask (map fg at_valid) ;;
     c3 <- Numpy.mask_assign set_blue c2 mask (map fb at_valid) ;;
     Ok c3) = Ok colors
    /\ nth_error colors i = Some (fr (row, col), fg (row, col), fb (row, col)).
Proof.
  intros Hcols Hrows Hm Hc Hr at_valid.
  assert (Hidx : List.length (combine rows cols) = List.length mask)
    by (rewrite length_combine; lia).
  assert (Hvals : forall f : Z * Z -> Z,
             List.length (map f at_valid) = Numpy.count_true mask)
    by (intros f; rewrite length_map; apply select_length; exact Hidx).
  assert (Hi : (i < List.length mask)%nat)
    by (apply nth_error_Some; congruence).
  pose proof (nth_error_combine _ _ _ _ _ Hr Hc) as Hrc.
  rewrite mask_assign_ok by (rewrite ?zeros_colors_length; auto). cbn [bind].
  rewrite mask_assign_ok by (rewrite ?scatter_length, ?zeros_colors_length; auto).
  cbn [bind].
  rewrite mask_assign_ok by (rewrite ?scatter_length, ?zeros_colors_length; auto).
  cbn [bind].
  eexists. split; [reflexivity|].
  unfold at_valid.
  erewrite (scatter_select_true set_blue fb); try eassumption;
    [|rewrite ?scatter_length, ?zeros_colors_length; reflexivity|].
  2:{ erewrite (scatter_select_true set_green fg); try eassumption;
        [|rewrite ?scatter_length, ?zeros_colors_length; reflexivity|].
      2:{ erewrite (scatter_select_true set_red fr); try eassumption;
            [|rewrite ?zeros_colors_length; reflexivity|].
          2:{ apply nth_error_zeros. exact Hi. }
          reflexivity. }
      reflexivity. }
  reflexivity.
Qed.

Lemma read_channels_bands (ortho : Raster.Dataset) (valid_rows valid_cols : list Z) :
  3 <= Raster.count ortho \/ Raster.count ortho = 1 ->
  Archive.read_channels ortho valid_rows valid_cols
  = Ok (Archive.index_band ortho (Spec.channel_band ortho 1) valid_rows valid_cols,
        Archive.index_band ortho (Spec.channel_band ortho 2) valid_rows valid_cols,
        Archive.index_band ortho (Spec.channel_band ortho 3) valid_rows valid_cols).
Proof.
  intros Hbands. unfold Archive.read_channels, Spec.channel_band.
  destruct (3 <=? Raster.count ortho) eqn:H3; [reflexivity|].
  apply Z.leb_gt in H3. destruct Hbands as [Hge|H1]; [lia|].
  rewrite H1. reflexivity.
Qed.

(** The archived sampler at a valid point. *)
Lemma sample_colors_at (ortho : Raster.Dataset) (cols rows : list Z)
      (mask : list bool) (dtype_str : string) (rest : list string)
      (i : nat) (col row : Z) :
  Raster.dtypes ortho = dtype_str :: rest ->
  3 <= Raster.count ortho \/ Raster.count ortho = 1 ->
  List.length cols = List.length mask -> List.length rows = List.length mask ->
  nth_error mask i = Some true ->
  nth_error cols i = Some col -> nth_error rows i = Some row ->
  exists colors,
    Archive.sample_colors ortho cols rows mask (List.length mask) = Ok colors
    /\ nth_error colors i
       = Some (Archive.scale_sample dtype_str
                 (Raster.read ortho (Spec.channel_band ortho 1) row col),
               Archive.scale_sample dtype_str
                 (Raster.read ortho (Spec.channel_band ortho 2) row col),
               Archive.scale_sample dtype_str
                 (Raster.read ortho (Spec.channel_band ortho 3) row col)).
Proof.
  intros Hdtype Hbands Hcols Hrows Hm Hc Hr.
  unfold Archive.sample_colors.
  rewrite (mask_select_ok cols mask Hcols), (mask_select_ok rows mask Hrows).
  cbn [bind]. rewrite (read_channels_bands _ _ _ Hbands). cbn [bind].
  unfold Archive.index_band. rewrite (select_combine rows cols mask Hrows Hcols).
  assert (Hne : Numpy.select (combine rows cols) mask <> []).
  { apply (select_true_nonempty _ mask i); [rewrite length_combine; lia|exact Hm]. }
  assert (Hcheck : forall f : Z * Z -> npval,
             match map f (Numpy.select (combine rows cols) mask) with
             | [] => Raise ZeroSizeReduction
             | _ :: _ => Ok tt
             end = Ok tt)
    by (intros f; destruct (Numpy.select (combine rows cols) mask);
        [congruence|reflexivity]).
  rewrite Hcheck. cbn [bind]. rewrite Hdtype. cbn [bind].
  rewrite !map_map.
  exact (three_assignments_at
           (fun p => Archive.scale_sample dtype_str
                       (Raster.read ortho (Spec.channel_band ortho 1) (fst p) (snd p)))
           (fun p => Archive.scale_sample dtype_str
                       (Raster.read ortho (Spec.channel_band ortho 2) (fst p) (snd p)))
           (fun p => Archive.scale_sample dtype_str
                       (Raster.read ortho (Spec.channel_band ortho 3) (fst p) (snd p)))
           cols rows mask i col row Hcols Hrows Hm Hc Hr).
Qed.

Lemma count_true_positive (mask : list bool) (i : nat) :
  nth_error mask i = Some true -> Nat.eqb (Numpy.count_true mask) 0 = false.
Proof.
  intros Hi. apply Nat.eqb_neq.
  pose proof (select_true_nonempty mask mask i eq_refl Hi) as Hne.
  rewrite <- (select_length mask mask eq_refl).
  destruct (Numpy.select mask mask); [congruence|discriminate].
Qed.

(** The script's sampler at a valid point: one scaling for the three
    channels, chosen from the dtype and the samples. *)
Lemma extract_colors_at (raster : Raster.Dataset) (pixel_x pixel_y : list Z)
      (mask : list bool) (dtype_str : string) (rest : list string)
      (i : nat) (x y : Z) :
  Raster.dtypes raster = dtype_str :: rest ->
  3 <= Raster.count raster \/ Raster.count raster = 1 ->
  List.length pixel_x = List.length mask -> List.length pixel_y = List.length mask ->
  nth_error mask i = Some true ->
  nth_error pixel_x i = Some x -> nth_error pixel_y i = Some y ->
  let chosen := Script.scaling dtype_str
                  (Spec.channel_floats raster 1 pixel_x pixel_y mask)
                  (Spec.channel_floats raster 2 pixel_x pixel_y mask)
                  (Spec.channel_floats raster 3 pixel_x pixel_y mask) in
  exists colors,
    Script.extract_colors_from_image raster pixel_x pixel_y mask
    = Ok (colors, snd chosen)
    /\ nth_error colors i
       = Some (Script.clip_to_uint16
                 (fst chosen (astype_float32
                                (Raster.read raster (Spec.channel_band raster 1) y x))),
               Script.clip_to_uint16
                 (fst chosen (astype_float32
                                (Raster.read raster (Spec.channel_band raster 2) y x))),
               Script.clip_to_uint16
                 (fst chosen (astype_float32
                                (Raster.read raster (Spec.channel_band raster 3) y x)))).
Proof.
  intros Hdtype Hbands Hx Hy Hm Hpx Hpy chosen.
  unfold Script.extract_colors_from_image.
  rewrite (mask_select_ok pixel_x mask Hx), (mask_select_ok pixel_y mask Hy).
  cbn [bind]. rewrite (count_true_positive mask i Hm), Hdtype. cbn [bind].
  unfold Script.index_band_float.
  rewrite (select_combine pixel_y pixel_x mask Hy Hx).
  destruct (three_assignments_at
              (fun p => Script.clip_to_uint16
                          (fst chosen (astype_float32
                                    (Raster.read raster (Spec.channel_band raster 1)
                                                 (fst p) (snd p)))))
              (fun p => Script.clip_to_uint16
                          (fst chosen (astype_float32
                                    (Raster.read raster (Spec.channel_band raster 2)
                                                 (fst p) (snd p)))))
              (fun p => Script.clip_to_uint16
                          (fst chosen (astype_float32
                                    (Raster.read raster (Spec.channel_band raster 3)
                                                 (fst p) (snd p)))))
              pixel_x pixel_y mask i x y Hx Hy Hm Hpx Hpy) as (colors & Hok & Hat).
  exists colors. split; [|exact Hat].
  rewrite Hx. unfold chosen, Spec.channel_floats, Spec.channel_band in *.
  destruct (3 <=? Raster.count raster) eqn:H3.
  - destruct (Script.scaling dtype_str _ _ _) as [sc printed]. cbn [fst snd] in *.
    rewrite !map_map.
    destruct (Numpy.mask_assign set_red _ _ _) as [c1|]; cbn [bind] in *; [|discriminate].
    destruct (Numpy.mask_assign set_green _ _ _) as [c2|]; cbn [bind] in *; [|discriminate].
    destruct (Numpy.mask_assign set_blue _ _ _) as [c3|]; cbn [bind] in *; [|discriminate].
    inversion Hok; subst. reflexivity.
  - apply Z.leb_gt in H3. destruct Hbands as [Hge|H1]; [lia|].
    rewrite H1. cbn [Z.eqb Pos.eqb].
    destruct (Script.scaling dtype_str _ _ _) as [sc printed]. cbn [fst snd] in *.
    rewrite !map_map.
    destruct (Numpy.mask_assign set_red _ _ _) as [c1|]; cbn [bind] in *; [|discriminate].
    destruct (Numpy.mask_assign set_green _ _ _) as [c2|]; cbn [bind] in *; [|discriminate].
    destruct (Numpy.mask_assign set_blue _ _ _) as [c3|]; cbn [bind] in *; [|discriminate].
    inversion Hok; subst. reflexivity.
Qed.

(** ** Normalisation of integer samples *)

Lemma holds_from_spec (P : Z -> bool) (n : nat) :
  forall z, Spec.holds_from P n z = true ->
            forall k, z <= k < z + Z.of_nat n -> P k = true.
Proof.
  induction n as [|n IH]; intros z Hall k Hk.
  - lia.
  - simpl in Hall. apply andb_true_iff in Hall. destruct Hall as [Hz Hrest].
    destruct (Z.eq_dec k z) as [->|Hne]; [exact Hz|].
    apply (IH (z + 1) Hrest). lia.
Qed.

(** In binary32, [x / 255.0 * 65535.0] clipped and cast gives [257 x] for
    each of the 256 values of an 8-bit sample. *)
Lemma script_uint8_table :
  Spec.holds_from
    (fun z => Z.eqb (Script.clip_to_uint16 (Script.scale_uint8 (astype_float32 (NInt z))))
                    (257 * z))
    256 0 = true.
Proof. vm_compute. reflexivity. Qed.

(** A 16-bit sample survives the passage through binary32 and the clip. *)
Lemma script_uint16_table :
  Spec.holds_from
    (fun z => Z.eqb (Script.clip_to_uint16 (astype_float32 (NInt z))) z)
    (N.to_nat 65536) 0 = true.
Proof. vm_compute. reflexivity. Qed.

Lemma archive_integer_sample (depth : Spec.SampleDepth) (z : Z) :
  0 <= z <= Spec.max_sample depth ->
  Archive.scale_sample (Spec.dtype_name depth) (NInt z) = Spec.factor depth * z.
Proof.
  intros Hz. destruct depth; cbv [Spec.max_sample Spec.factor Spec.dtype_name] in *;
    unfold Archive.scale_sample.
  - replace (str_contains "uint8" "uint8") with true by reflexivity.
    cbv [Archive.np_mul_int astype_uint16 uint16_wrap].
    rewrite Z.mod_small by lia. lia.
  - replace (str_contains "uint8" "uint16") with false by reflexivity.
    replace (str_contains "uint16" "uint16") with true by reflexivity.
    cbv [astype_uint16 uint16_wrap]. rewrite Z.mod_small by lia. lia.
Qed.

Lemma script_scaling_integer (depth : Spec.SampleDepth) (r g b : list spec_float) :
  Script.scaling (Spec.dtype_name depth) r g b
  = (match depth with
     | Spec.Bits8 => Script.scale_uint8
     | Spec.Bits16 => fun x => x
     end, []).
Proof. destruct depth; reflexivity. Qed.

Lemma script_integer_sample (depth : Spec.SampleDepth) (z : Z) :
  0 <= z <= Spec.max_sample depth ->
  Script.clip_to_uint16
    (match depth with
     | Spec.Bits8 => Script.scale_uint8
     | Spec.Bits16 => fun x => x
     end (astype_float32 (NInt z)))
  = Spec.factor depth * z.
Proof.
  intros Hz. destruct depth; simpl in Hz.
  - pose proof (holds_from_spec _ _ _ script_uint8_table z) as Htable.
    cbv beta in Htable. apply Z.eqb_eq. apply Htable. lia.
  - pose proof (holds_from_spec _ _ _ script_uint16_table z) as Htable.
    cbv beta in Htable. change (Spec.factor Spec.Bits16 * z) with (1 * z).
    rewrite Z.mul_1_l. apply Z.eqb_eq. apply Htable. lia.
Qed.

(** C4.  At a valid point of an 8-bit raster each output channel is 257
    times the sample of its band, and at a valid point of a 16-bit raster it
    is the sample itself, in the archived colorizer and in the script. *)
Theorem integer_samples_scale_exactly (depth : Spec.SampleDepth)
        (raster : Raster.Dataset) (cols rows : list Z) (mask : list bool)
        (rest : list string) (i : nat) (col row r g b : Z) :
  Raster.dtypes raster = Spec.dtype_name depth :: rest ->
  3 <= Raster.count raster \/ Raster.count raster = 1 ->
  List.length cols = List.length mask -> List.length rows = List.length mask ->
  nth_error mask i = Some true ->
  nth_error cols i = Some col -> nth_error rows i = Some row ->
  Raster.read raster (Spec.channel_band raster 1) row col = NInt r ->
  Raster.read raster (Spec.channel_band raster 2) row col = NInt g ->
  Raster.read raster (Spec.channel_band raster 3) row col = NInt b ->
  0 <= r <= Spec.max_sample depth ->
  0 <= g <= Spec.max_sample depth ->
  0 <= b <= Spec.max_sample depth ->
  (exists colors,
      Archive.sample_colors raster cols rows mask (List.length mask) = Ok colors
      /\ nth_error colors i
         = Some (Spec.factor depth * r, Spec.factor depth * g, Spec.factor depth * b))
  /\ (exists colors,
         Script.extract_colors_from_image raster cols rows mask = Ok (colors, [])
         /\ nth_error colors i
            = Some (Spec.factor depth * r, Spec.factor depth * g, Spec.factor depth * b)).
Proof.
  intros Hdtype Hbands Hc Hr Hm Hcol Hrow Hred Hgreen Hblue Hr1 Hg1 Hb1. split.
  - destruct (sample_colors_at raster cols rows mask _ _ i col row
                Hdtype Hbands Hc Hr Hm Hcol Hrow) as (colors & Hok & Hat).
    exists colors. split; [exact Hok|].
    rewrite Hat, Hred, Hgreen, Hblue, !archive_integer_sample by assumption.
    reflexivity.
  - destruct (extract_colors_at raster cols rows mask _ _ i col row
                Hdtype Hbands Hc Hr Hm Hcol Hrow) as (colors & Hok & Hat).
    rewrite script_scaling_integer in Hok, Hat. cbn [fst snd] in Hok, Hat.
    exists colors. split; [exact Hok|].
    rewrite Hat, Hred, Hgreen, Hblue, !script_integer_sample by assumption.
    reflexivity.
Qed.

Lemma integer_samples_scale_exactly_witness :
  (exists colors,
      Archive.sample_colors Scenario.white8 [0; 1] [9; 7] [true; true] 2 = Ok colors
      /\ nth_error colors 1 = Some (65535, 65535, 65535))
  /\ (exists colors,
         Script.extract_colors_from_image Scenario.gray16 [0; 1] [9; 7] [true; true]
         = Ok (colors, [])
         /\ nth_error colors 0 = Some (30000, 30000, 30000)).
Proof.
  assert (Hbands8 : 3 <= Raster.count Scenario.white8
                    \/ Raster.count Scenario.white8 = 1)
    by (left; vm_compute; discriminate).
  assert (Hbands16 : 3 <= Raster.count Scenario.gray16
                     \/ Raster.count Scenario.gray16 = 1)
    by (right; reflexivity).
  assert (Hwhite : 0 <= 255 <= Spec.max_sample Spec.Bits8)
    by (vm_compute; split; discriminate).
  assert (Hgray : 0 <= 30000 <= Spec.max_sample Spec.Bits16)
    by (vm_compute; split; discriminate).
  split.
  - exact (proj1 (integer_samples_scale_exactly Spec.Bits8 Scenario.white8
                    [0; 1] [9; 7] [true; true] ["uint8"; "uint8"]%string
                    1 1 7 255 255 255
                    eq_refl Hbands8 eq_refl eq_refl eq_refl
                    eq_refl eq_refl eq_refl eq_refl eq_refl Hwhite Hwhite Hwhite)).
  - exact (proj2 (integer_samples_scale_exactly Spec.Bits16 Scenario.gray16
                    [0; 1] [9; 7] [true; true] []
                    0 0 9 30000 30000 30000
                    eq_refl Hbands16 eq_refl eq_refl eq_refl
                    eq_refl eq_refl eq_refl eq_refl eq_refl Hgray Hgray Hgray)).
Defined.

(** ** The band rule *)




(** ** Floating-point samples *)

(** C5, the code at the failing input.  A binary32 raster with the sample
    2.0 at a valid point: the archived sampler stores 131070 reduced modulo
    2^16, that is 65534, in every channel, on its own and inside
    [colorize_point_cloud]; the script stores the clamped 65535 and prints
    its range warning. *)
Lemma float_sample_wraps_in_archive :
  Archive.sample_colors Scenario.bright_float [0] [9] [true] 1
  = Ok [(65534, 65534, 65534)]
  /\ snd (@Archive.colorize_point_cloud Scenario.externals Scenario.quiet 3
            (Scenario.world_of []) Scenario.inside_cloud Scenario.bright_float None)
     = Ok ([(65534, 65534, 65534); (65534, 65534, 65534)], [true; true])
  /\ Script.extract_colors_from_image Scenario.bright_float [0] [9] [true]
     = Ok ([(65535, 65535, 65535)], [Script.FloatRangeWarning]).
Proof. repeat split; vm_compute; reflexivity. Qed.

(** * Further properties of the colorizers *)

(** ** Where a result of [colorize_point_cloud] comes from *)

(** A masked assignment leaves the entries at false positions alone,
    whatever the values are. *)
Lemma scatter_false {A B : Type} (set : A -> B -> A) (a : list A)
      (mask : list bool) (vals : list B) (i : nat) :
  nth_error mask i = Some false ->
  nth_error (Numpy.scatter set a mask vals) i = nth_error a i.
Proof.
  revert mask vals i. induction a as [|x a IH]; intros [|m mask] vals i Hm;
    simpl; try reflexivity.
  destruct m.
  - destruct vals as [|v vs]; [reflexivity|].
    destruct i as [|i]; simpl in *; [discriminate|]. apply IH. exact Hm.
  - destruct i as [|i]; simpl in *; [reflexivity|]. apply IH. exact Hm.
Qed.

Lemma sample_colors_invalid_black (ortho : Raster.Dataset) (cols rows : list Z)
      (mask : list bool) (n : nat) (colors : list Color) (i : nat) :
  Archive.sample_colors ortho cols rows mask n = Ok colors ->
  nth_error mask i = Some false ->
  nth_error colors i = Some (0, 0, 0).
Proof.
  intros Hok Hm.
  destruct (sample_colors_length _ _ _ _ _ _ Hok) as [_ Hlen].
  unfold Archive.sample_colors in Hok.
  bind_inv Hok. bind_inv Hok. bind_inv Hok. destruct a1 as [[rv gv] bv].
  bind_inv Hok. bind_inv Hok. bind_inv Hok. bind_inv Hok. bind_inv Hok.
  inversion Hok; subst.
  apply mask_assign_inv in E4, E5, E6.
  destruct E4 as (_ & _ & ->). destruct E5 as (_ & _ & ->).
  destruct E6 as (_ & _ & ->).
  rewrite !scatter_false by exact Hm.
  apply nth_error_zeros. apply nth_error_Some. congruence.
Qed.

(** A result of [colorize_point_cloud] is the extraction from one raster,
    the caller's or a replacement the image service supplied, on which at
    least one point is valid. *)
Lemma colorize_origin `{Externals} (self : Archive.PointCloudColorizer) (depth : nat) :
  forall (w : Archive.World) (las : Las.LasData) (ortho : Raster.Dataset)
         (source_crs : option string) (w' : Archive.World)
         (colors : list Color) (mask : list bool),
    Archive.colorize_point_cloud self depth w las ortho source_crs
    = (w', Ok (colors, mask)) ->
    exists used tx ty pc ov l,
      (used = ortho \/ In (Some used) (Archive.w_downloads w))
      /\ Archive.align las used source_crs = Ok (tx, ty, pc, ov)
      /\ Archive.locate las used tx ty pc ov = Ok l
      /\ Archive.sample_colors used (Archive.pixel_cols l) (Archive.pixel_rows l)
           (Archive.valid_mask l) (Archive.total_points l) = Ok colors
      /\ mask = Archive.valid_mask l
      /\ Archive.num_valid l <> 0%nat.
Proof.
  induction depth as [|depth IH]; intros w las ortho source_crs w' colors mask Hrun.
  - discriminate.
  - simpl in Hrun.
    destruct (Archive.align las ortho source_crs) as [[[[tx ty] pc] ov]|e] eqn:Halign;
      [|discriminate].
    destruct (Archive.locate las ortho tx ty pc ov) as [l|e] eqn:Hloc; [|discriminate].
    assert (Hextract :
              forall w0, Archive.num_valid l <> 0%nat ->
                (w0, match Archive.sample_colors ortho (Archive.pixel_cols l)
                             (Archive.pixel_rows l) (Archive.valid_mask l)
                             (Archive.total_points l) with
                     | Ok colors0 => Ok (colors0, Archive.valid_mask l)
                     | Raise e => Raise e
                     end) = (w', Ok (colors, mask)) ->
                exists used tx ty pc ov l,
                  (used = ortho \/ In (Some used) (Archive.w_downloads w))
                  /\ Archive.align las used source_crs = Ok (tx, ty, pc, ov)
                  /\ Archive.locate las used tx ty pc ov = Ok l
                  /\ Archive.sample_colors used (Archive.pixel_cols l)
                       (Archive.pixel_rows l) (Archive.valid_mask l)
                       (Archive.total_points l) = Ok colors
                  /\ mask = Archive.valid_mask l
                  /\ Archive.num_valid l <> 0%nat).
    { intros w0 Hvalid Hex.
      destruct (Archive.sample_colors ortho (Archive.pixel_cols l) (Archive.pixel_rows l)
                  (Archive.valid_mask l) (Archive.total_points l)) as [c|] eqn:Hs;
        [|discriminate].
      inversion Hex; subst. exists ortho, tx, ty, pc, ov, l. auto 10. }
    set (w0 := if Archive.create_diagnostics self || negb (fst ov && snd ov)
               then Archive.create_alignment_diagnostic w else w) in *.
    assert (Hd0 : Archive.w_downloads w0 = Archive.w_downloads w)
      by (unfold w0; destruct (Archive.create_diagnostics self || negb (fst ov && snd ov));
          reflexivity).
    destruct (Archive.low_coverage l) eqn:Hlow.
    + destruct (Archive.download_corrected_orthophoto w0) as [w1 reply] eqn:Hdl.
      destruct (download_effect _ _ _ Hdl) as (_ & first & Hd1 & _ & _).
      assert (Hreply : forall r, reply = Some r -> In (Some r) (Archive.w_downloads w)
                                                   /\ incl (Archive.w_downloads w1)
                                                           (Archive.w_downloads w)).
      { intros r ->. unfold Archive.download_corrected_orthophoto in Hdl.
        rewrite <- Hd0.
        destruct (Archive.w_downloads w0) as [|r0 rest]; inversion Hdl; subst; simpl.
        split; [left; reflexivity|]. intros x Hx. right. exact Hx. }
      destruct reply as [corrected|].
      * destruct (Hreply corrected eq_refl) as [Hin Hincl].
        destruct (Archive.colorize_point_cloud self depth (Archive.count_retry w1) las
                    corrected source_crs) as [w2 [[colors2 mask2]|e]] eqn:Hrec.
        -- inversion Hrun; subst.
           destruct (IH _ _ _ _ _ _ _ Hrec)
             as (used & tx' & ty' & pc' & ov' & l' & Hused & Hrest).
           exists used, tx', ty', pc', ov', l'. split; [|exact Hrest].
           destruct Hused as [->|Hused]; [right; exact Hin|].
           right. apply Hincl. exact Hused.
        -- destruct (Nat.eqb (Archive.num_valid l) 0) eqn:Hz; [discriminate|].
           apply Nat.eqb_neq in Hz. eapply Hextract; eassumption.
      * destruct (Nat.eqb (Archive.num_valid l) 0) eqn:Hz; [discriminate|].
        apply Nat.eqb_neq in Hz. eapply Hextract; eassumption.
    + unfold Archive.low_coverage in Hlow. apply orb_false_iff in Hlow.
      destruct Hlow as [Hz _]. apply Nat.eqb_neq in Hz.
      eapply Hextract; eassumption.
Qed.

(** X1.  In every result of [colorize_point_cloud] a point whose mask entry
    is false has the colour (0, 0, 0). *)
Theorem invalid_points_stay_black `{Externals} (self : Archive.PointCloudColorizer)
        (depth : nat) (w w' : Archive.World) (las : Las.LasData)
        (ortho : Raster.Dataset) (source_crs : option string)
        (colors : list Color) (mask : list bool) (i : nat) :
  Archive.colorize_point_cloud self depth w las ortho source_crs
  = (w', Ok (colors, mask)) ->
  nth_error mask i = Some false ->
  nth_error colors i = Some (0, 0, 0).
Proof.
  intros Hrun Hm.
  destruct (colorize_origin _ _ _ _ _ _ _ _ _ Hrun)
    as (used & tx & ty & pc & ov & l & _ & _ & _ & Hs & -> & _).
  eapply sample_colors_invalid_black; eassumption.
Qed.

Lemma invalid_points_stay_black_witness :
  exists w' colors mask,
    @Archive.colorize_point_cloud Scenario.externals Scenario.quiet 3
      (Scenario.world_of []) Scenario.sparse_cloud Scenario.white8 None
    = (w', Ok (colors, mask))
    /\ nth_error mask 1 = Some false
    /\ nth_error colors 1 = Some (0, 0, 0).
Proof.
  destruct (@Archive.colorize_point_cloud Scenario.externals Scenario.quiet 3
              (Scenario.world_of []) Scenario.sparse_cloud Scenario.white8 None)
    as [w' [[colors mask]|e]] eqn:Hrun.
  - assert (Hm : nth_error mask 1 = Some false).
    { pose proof Hrun as Hval. vm_compute in Hval. inversion Hval. reflexivity. }
    exists w', colors, mask. split; [reflexivity|]. split; [exact Hm|].
    exact (@invalid_points_stay_black Scenario.externals _ _ _ _ _ _ _ _ _ 1%nat Hrun Hm).
  - exfalso. vm_compute in Hrun. discriminate Hrun.
Defined.

(** X2.  [colorize_point_cloud] never returns a result without a valid
    point: the mask it returns is as long as the cloud and has a true entry,
    and the colour array has one row per point. *)
Theorem result_has_a_valid_point `{Externals} (self : Archive.PointCloudColorizer)
        (depth : nat) (w w' : Archive.World) (las : Las.LasData)
        (ortho : Raster.Dataset) (source_crs : option string)
        (colors : list Color) (mask : list bool) :
  Archive.colorize_point_cloud self depth w las ortho source_crs
  = (w', Ok (colors, mask)) ->
  (0 < Numpy.count_true mask)%nat
  /\ List.length mask = List.length (Las.points las)
  /\ List.length colors = List.length (Las.points las).
Proof.
  intros Hrun.
  destruct (colorize_shapes _ _ _ _ _ _ _ _ _ Hrun) as [Hc Hm].
  destruct (colorize_origin _ _ _ _ _ _ _ _ _ Hrun)
    as (used & tx & ty & pc & ov & l & _ & Halign & Hloc & _ & -> & Hvalid).
  destruct (align_lengths _ _ _ _ _ _ _ Halign) as [Hx Hy].
  destruct (locate_shapes _ _ _ _ _ _ _ Hx Hy Hloc) as (_ & _ & _ & _ & Hn).
  repeat split; try assumption. rewrite <- Hn. lia.
Qed.

Lemma result_has_a_valid_point_witness :
  exists w' colors mask,
    @Archive.colorize_point_cloud Scenario.externals Scenario.quiet 3
      (Scenario.world_of []) Scenario.sparse_cloud Scenario.white8 None
    = (w', Ok (colors, mask))
    /\ (0 < Numpy.count_true mask)%nat.
Proof.
  destruct (@Archive.colorize_point_cloud Scenario.externals Scenario.quiet 3
              (Scenario.world_of []) Scenario.sparse_cloud Scenario.white8 None)
    as [w' [[colors mask]|e]] eqn:Hrun.
  - exists w', colors, mask. split; [reflexivity|].
    exact (proj1 (@result_has_a_valid_point Scenario.externals _ _ _ _ _ _ _ _ _ Hrun)).
  - exfalso. vm_compute in Hrun. discriminate Hrun.
Defined.

(** X3.  On a cloud without points [colorize_point_cloud] raises, at the
    first reduction over the empty coordinate arrays at the latest, without
    asking the image service for anything and without writing a plot. *)
Theorem empty_cloud_raises `{Externals} (self : Archive.PointCloudColorizer)
        (depth : nat) (w : Archive.World) (las : Las.LasData)
        (ortho : Raster.Dataset) (source_crs : option string) :
  Las.points las = [] ->
  exists e,
    Archive.colorize_point_cloud self depth w las ortho source_crs = (w, Raise e).
Proof.
  intros Hempty. destruct depth as [|depth]; simpl; [eexists; reflexivity|].
  assert (Halign : exists e, Archive.align las ortho source_crs = Raise e).
  { unfold Archive.align. destruct (Raster.crs ortho) as [c|]; [|eexists; reflexivity].
    unfold Archive.transform_point_cloud_to_ortho_crs.
    destruct (Archive.resolve_source_crs las source_crs) as [s|e]; cbn [bind];
      [|eexists; reflexivity].
    unfold Archive.transform_in_batches, Las.xs, Las.ys. rewrite Hempty. simpl.
    destruct (transformer_from_crs s c) as [t|]; simpl; eexists; reflexivity. }
  destruct Halign as [e He]. rewrite He. exists e. reflexivity.
Qed.

Lemma empty_cloud_raises_witness :
  Las.points (Scenario.cloud_of [Scenario.utm_vlr] []) = []
  /\ exists e,
       @Archive.colorize_point_cloud Scenario.externals Scenario.quiet 3
         (Scenario.world_of [Some Scenario.white8])
         (Scenario.cloud_of [Scenario.utm_vlr] []) Scenario.white8 None
       = (Scenario.world_of [Some Scenario.white8], Raise e).
Proof.
  split; [reflexivity|].
  exact (@empty_cloud_raises Scenario.externals Scenario.quiet 3
           (Scenario.world_of [Some Scenario.white8])
           (Scenario.cloud_of [Scenario.utm_vlr] []) Scenario.white8 None eq_refl).
Defined.

(** ** The assemblers *)

Lemma archive_save_ok (las : Las.LasData) (colors : list Color) (mask : list bool) :
  List.length colors = List.length (Las.points las) ->
  List.length mask = List.length (Las.points las) ->
  exists out,
    Archive.save_colorized_point_cloud las colors mask = Ok out
    /\ List.length (Las.points out) = Numpy.count_true mask.
Proof.
  intros Hc Hm. unfold Archive.save_colorized_point_cloud.
  rewrite (mask_select_ok (Las.points las) mask) by lia.
  rewrite (mask_select_ok colors mask) by lia. cbn [bind].
  eexists. split; [reflexivity|]. cbn [Las.points].
  rewrite length_map, length_combine, !select_length by lia. lia.
Qed.

(** X4.  The header of the cloud the archived assembler writes keeps the
    version, the scales, the offsets and the variable-length records of the
    input, hence its CRS; its point format is one of the formats with colour,
    the input's own format when that already is one and format 2 otherwise. *)
Theorem saved_header_keeps_georeference (las out : Las.LasData)
        (colors : list Color) (mask : list bool) :
  Archive.save_colorized_point_cloud las colors mask = Ok out ->
  let h := Las.header las in
  let h' := Las.header out in
  Las.version h' = Las.version h
  /\ (Las.x_scale h', Las.y_scale h', Las.z_scale h')
     = (Las.x_scale h, Las.y_scale h, Las.z_scale h)
  /\ (Las.x_offset h', Las.y_offset h', Las.z_offset h')
     = (Las.x_offset h, Las.y_offset h, Las.z_offset h)
  /\ Las.vlrs h' = Las.vlrs h
  /\ Las.parse_crs (Las.vlrs h') = Las.parse_crs (Las.vlrs h)
  /\ In (Las.pf_id (Las.point_format h')) Archive.rgb_supported_formats
  /\ (In (Las.pf_id (Las.point_format h)) Archive.rgb_supported_formats ->
      Las.point_format h' = Las.point_format h)
  /\ (~ In (Las.pf_id (Las.point_format h)) Archive.rgb_supported_formats ->
      Las.point_format h' = Las.PointFormat2).
Proof.
  unfold Archive.save_colorized_point_cloud. intros Hok.
  bind_inv Hok. bind_inv Hok. inversion Hok; subst; clear Hok.
  cbv zeta. cbn [Las.header].
  assert (Hdec : forall z : Z,
             existsb (Z.eqb z) Archive.rgb_supported_formats = true
             <-> In z Archive.rgb_supported_formats).
  { intros z. rewrite existsb_exists. split.
    - intros (x & Hx & Heq). apply Z.eqb_eq in Heq. subst. exact Hx.
    - intros Hin. exists z. split; [exact Hin|apply Z.eqb_refl]. }
  unfold Archive.output_header.
  cbn [Las.version Las.x_scale Las.y_scale Las.z_scale Las.x_offset Las.y_offset
       Las.z_offset Las.vlrs Las.point_format].
  destruct (existsb (Z.eqb (Las.pf_id (Las.point_format (Las.header las))))
                    Archive.rgb_supported_formats) eqn:Hsup; cbn [negb].
  - apply Hdec in Hsup.
    repeat split; try reflexivity; try assumption. intros Hnot. contradiction.
  - assert (Hnot : ~ In (Las.pf_id (Las.point_format (Las.header las)))
                      Archive.rgb_supported_formats)
      by (intros Hin; apply Hdec in Hin; congruence).
    repeat split; try reflexivity.
    + left. reflexivity.
    + intros Hin. contradiction.
Qed.

Lemma saved_header_keeps_georeference_witness :
  exists out,
    Archive.save_colorized_point_cloud Scenario.inside_cloud
      [(1, 2, 3); (4, 5, 6)] [true; false] = Ok out
    /\ Las.parse_crs (Las.vlrs (Las.header out)) = Some "EPSG:26913"%string
    /\ Las.point_format (Las.header out) = Las.PointFormat2.
Proof.
  destruct (Archive.save_colorized_point_cloud Scenario.inside_cloud
              [(1, 2, 3); (4, 5, 6)] [true; false]) as [out|e] eqn:Hsave.
  - exists out. split; [reflexivity|].
    destruct (saved_header_keeps_georeference _ _ _ _ Hsave)
      as (_ & _ & _ & _ & Hcrs & _ & _ & Hfmt).
    split; [exact Hcrs|]. apply Hfmt. vm_compute. intuition discriminate.
  - exfalso. vm_compute in Hsave. discriminate Hsave.
Defined.

(** X5.  After a colorization that returns, [process_files] can fail only
    in writing the cloud: once the assembler has written it, the report
    cannot fail, and [process_files] returns that cloud, which has as many
    points as the mask has true entries and at least one; the report counts
    exactly these points as trimmed. *)
Theorem process_files_returns_saved_cloud `{Externals}
        (self : Archive.PointCloudColorizer)
        (depth : nat) (w w' : Archive.World) (las : Las.LasData)
        (ortho : Raster.Dataset) (colors : list Color) (mask : list bool)
        (out : Las.LasData) :
  Archive.colorize_point_cloud self depth w las ortho None = (w', Ok (colors, mask)) ->
  Archive.save_colorized_point_cloud las colors mask = Ok out ->
  exists stats cstats,
    Archive.process_files self depth w las ortho true
    = (w', Ok (out, Some (stats, cstats)))
    /\ Archive.process_files self depth w las ortho false = (w', Ok (out, None))
    /\ List.length (Las.points out) = Numpy.count_true mask
    /\ (0 < List.length (Las.points out))%nat
    /\ Archive.trimmed_points stats = List.length (Las.points out).
Proof.
  intros Hrun Hsave.
  destruct (colorize_shapes _ _ _ _ _ _ _ _ _ Hrun) as [Hc Hm].
  assert (Hpos : (0 < Numpy.count_true mask)%nat).
  { destruct (colorize_origin _ _ _ _ _ _ _ _ _ Hrun)
      as (used & tx & ty & pc & ov & l & _ & Halign & Hloc & _ & -> & Hvalid).
    destruct (align_lengths _ _ _ _ _ _ _ Halign) as [Hx Hy].
    destruct (locate_shapes _ _ _ _ _ _ _ Hx Hy Hloc) as (_ & _ & _ & _ & Hn).
    rewrite <- Hn. lia. }
  destruct (archive_save_ok las colors mask Hc Hm) as (out' & Hsave' & Hn).
  rewrite Hsave in Hsave'. inversion Hsave'; subst out'; clear Hsave'.
  unfold Archive.process_files. rewrite Hrun, Hsave. cbn [bind].
  unfold Archive.create_summary_report.
  rewrite (mask_select_ok colors mask) by lia. cbn [bind].
  eexists _, _. repeat split; try reflexivity; try lia.
  cbn [Archive.trimmed_points]. lia.
Qed.

Lemma process_files_returns_saved_cloud_witness :
  exists w' colors mask out stats cstats,
    @Archive.colorize_point_cloud Scenario.externals Scenario.quiet 3
      (Scenario.world_of []) Scenario.inside_cloud Scenario.white8 None
    = (w', Ok (colors, mask))
    /\ Archive.save_colorized_point_cloud Scenario.inside_cloud colors mask = Ok out
    /\ @Archive.process_files Scenario.externals Scenario.quiet 3
         (Scenario.world_of []) Scenario.inside_cloud Scenario.white8 true
       = (w', Ok (out, Some (stats, cstats)))
    /\ (0 < List.length (Las.points out))%nat.
Proof.
  destruct (@Archive.colorize_point_cloud Scenario.externals Scenario.quiet 3
              (Scenario.world_of []) Scenario.inside_cloud Scenario.white8 None)
    as [w' [[colors mask]|e]] eqn:Hrun.
  - destruct (Archive.save_colorized_point_cloud Scenario.inside_cloud colors mask)
      as [out|e] eqn:Hsave.
    + destruct (@process_files_returns_saved_cloud Scenario.externals
                  _ _ _ _ _ _ _ _ _ Hrun Hsave)
        as (stats & cstats & Htrue & _ & _ & Hpos & _).
      exists w', colors, mask, out, stats, cstats.
      split; [reflexivity|]. split; [exact Hsave|].
      split; [exact Htrue|exact Hpos].
    + exfalso. vm_compute in Hrun. inversion Hrun; subst.
      vm_compute in Hsave. discriminate Hsave.
  - exfalso. vm_compute in Hrun. discriminate Hrun.
Defined.

(** X6.  The script's assembler writes every input point, whatever its
    colour: the output has the header and the number of points of the input,
    the same coordinates and the same value in every dimension other than
    red, green and blue, which hold the rows of the colour array. *)
Theorem script_save_keeps_every_point (input out : Las.LasData) (colors : list Color) :
  Script.save_colorized_point_cloud input colors = Ok out ->
  Las.header out = Las.header input
  /\ List.length (Las.points out) = List.length (Las.points input)
  /\ Las.xs out = Las.xs input /\ Las.ys out = Las.ys input /\ Las.zs out = Las.zs input
  /\ (forall name, name <> "red"%string -> name <> "green"%string ->
                   name <> "blue"%string ->
                   Las.column name out = Las.column name input)
  /\ Las.column "red" out = map red_of colors
  /\ Las.column "green" out = map green_of colors
  /\ Las.column "blue" out = map blue_of colors.
Proof.
  unfold Script.save_colorized_point_cloud. intros Hok.
  destruct (negb (Las.hasattr input "red" && Las.hasattr input "green"
                  && Las.hasattr input "blue")); [discriminate|].
  destruct (Nat.eqb (List.length colors) (List.length (Las.points input))) eqn:Hlen;
    cbn [negb] in Hok; [|discriminate].
  apply Nat.eqb_eq in Hlen. inversion Hok; subst; clear Hok.
  unfold Las.xs, Las.ys, Las.zs, Las.column. cbn [Las.header Las.points].
  rewrite !map_map. cbn [Script.recolored_point Las.pt_x Las.pt_y Las.pt_z Las.pt_dim].
  assert (Hsym : List.length (Las.points input) = List.length colors) by lia.
  repeat split.
  - rewrite length_map, length_combine. lia.
  - apply (map_on_fst_combine Las.pt_x). exact Hsym.
  - apply (map_on_fst_combine Las.pt_y). exact Hsym.
  - apply (map_on_fst_combine Las.pt_z). exact Hsym.
  - intros name Hr Hg Hb. rewrite map_map.
    cbn [Script.recolored_point Las.pt_dim].
    apply String.eqb_neq in Hr, Hg, Hb. rewrite Hr, Hg, Hb.
    apply (map_on_fst_combine (fun p => Las.pt_dim p name)). exact Hsym.
  - simpl. apply (map_on_snd_combine red_of). exact Hsym.
  - simpl. apply (map_on_snd_combine green_of). exact Hsym.
  - simpl. apply (map_on_snd_combine blue_of). exact Hsym.
Qed.

Lemma script_save_keeps_every_point_witness :
  exists out,
    Script.save_colorized_point_cloud Scenario.timed_cloud [(1, 2, 3); (0, 0, 0)] = Ok out
    /\ List.length (Las.points out) = 2%nat
    /\ Las.column "gps_time" out = [5; 5].
Proof.
  destruct (Script.save_colorized_point_cloud Scenario.timed_cloud
              [(1, 2, 3); (0, 0, 0)]) as [out|e] eqn:Hsave.
  - exists out. split; [reflexivity|].
    destruct (script_save_keeps_every_point _ _ _ Hsave)
      as (_ & Hn & _ & _ & _ & Hattr & _).
    split; [exact Hn|].
    exact (Hattr "gps_time"%string ltac:(discriminate) ltac:(discriminate)
                 ltac:(discriminate)).
  - exfalso. vm_compute in Hsave. discriminate Hsave.
Defined.

(** ** The script's sampler and transform *)

Lemma extract_colors_shape (raster : Raster.Dataset)
      (pixel_x pixel_y : list Z) (valid_points : list bool)
      (colors : list Color) (printed : list Script.Message) :
  Script.extract_colors_from_image raster pixel_x pixel_y valid_points
  = Ok (colors, printed) ->
  List.length colors = List.length pixel_x
  /\ List.length valid_points = List.length pixel_x
  /\ (forall i, nth_error valid_points i = Some false ->
                nth_error colors i = Some (0, 0, 0)).
Proof.
  unfold Script.extract_colors_from_image. intros Hok.
  bind_inv Hok. bind_inv Hok.
  apply mask_select_inv in E. destruct E as [Hlen _].
  assert (Hzero : List.length (zeros_colors (List.length pixel_x)) = List.length pixel_x
                  /\ List.length valid_points = List.length pixel_x
                  /\ (forall i, nth_error valid_points i = Some false ->
                                nth_error (zeros_colors (List.length pixel_x)) i
                                = Some (0, 0, 0))).
  { split; [apply zeros_colors_length|]. split; [congruence|].
    intros i Hm. apply nth_error_zeros.
    rewrite Hlen. apply nth_error_Some. congruence. }
  destruct (Nat.eqb (Numpy.count_true valid_points) 0);
    [inversion Hok; subst; exact Hzero|].
  bind_inv Hok.
  match type of Hok with
  | match ?c with Some _ => _ | None => _ end = _ => destruct c as [[[rf gf] bf]|]
  end; [|inversion Hok; subst; exact Hzero].
  destruct (Script.scaling a1 rf gf bf) as [scale msgs].
  bind_inv Hok. bind_inv Hok. bind_inv Hok. inversion Hok; subst; clear Hok.
  repeat match goal with
         | Hassign : Numpy.mask_assign _ _ _ _ = Ok _ |- _ =>
             apply mask_assign_inv in Hassign; destruct Hassign as (_ & _ & ->)
         end.
  split; [|split; [congruence|]].
  - rewrite !scatter_length. apply zeros_colors_length.
  - intros i Hm. rewrite !scatter_false by exact Hm. apply (proj2 (proj2 Hzero) i Hm).
Qed.

(** X7.  Whatever the raster, a colour array the script's sampler returns
    has one row per pixel index and the row (0, 0, 0) wherever the mask is
    false. *)
Theorem script_invalid_points_stay_black (raster : Raster.Dataset)
        (pixel_x pixel_y : list Z) (valid_points : list bool)
        (colors : list Color) (printed : list Script.Message) (i : nat) :
  Script.extract_colors_from_image raster pixel_x pixel_y valid_points
  = Ok (colors, printed) ->
  List.length colors = List.length pixel_x
  /\ (nth_error valid_points i = Some false -> nth_error colors i = Some (0, 0, 0)).
Proof.
  intros Hok. destruct (extract_colors_shape _ _ _ _ _ _ Hok) as (Hn & _ & Hblack).
  split; [exact Hn|apply Hblack].
Qed.

Lemma script_invalid_points_stay_black_witness :
  exists colors printed,
    Script.extract_colors_from_image Scenario.white8 [0; 50] [9; 7] [true; false]
    = Ok (colors, printed)
    /\ List.length colors = 2%nat
    /\ nth_error colors 1 = Some (0, 0, 0).
Proof.
  destruct (Script.extract_colors_from_image Scenario.white8 [0; 50] [9; 7] [true; false])
    as [[colors printed]|e] eqn:Hrun.
  - exists colors, printed. split; [reflexivity|].
    destruct (script_invalid_points_stay_black _ _ _ _ _ _ 1%nat Hrun) as [Hn Hblack].
    split; [exact Hn|exact (Hblack eq_refl)].
  - exfalso. vm_compute in Hrun. discriminate Hrun.
Defined.

(** X8.  When pyproj transforms the coordinates, [transform_coordinates]
    returns its result and does not consult the custom transform: the custom
    transform is a fallback only, whether or not one is supplied. *)
Theorem pyproj_result_has_precedence `{Externals} (las : Las.LasData)
        (target_crs_str : string) (t : Transformer) (tx ty : list Q)
        (custom : option Script.CustomTransform) :
  Script.identify_point_cloud_crs las <> EmptyString ->
  transformer_from_crs (Script.identify_point_cloud_crs las) target_crs_str = Some t ->
  transformer_transform t (Las.xs las) (Las.ys las) = Ok (tx, ty) ->
  Script.transform_coordinates las target_crs_str custom = Ok (combine tx ty)
  /\ List.length (combine tx ty) = List.length (Las.points las).
Proof.
  intros Hname Ht Hok. unfold Script.transform_coordinates.
  apply String.eqb_neq in Hname. rewrite Hname, Ht, Hok. cbn [negb bind].
  destruct (transformer_transform_length _ _ _ _ _ Hok) as (_ & Hx & Hy).
  unfold Script.column_stack. rewrite Hx, Hy, Nat.eqb_refl.
  split; [reflexivity|].
  rewrite length_combine, Hx, Hy. unfold Las.xs. rewrite length_map. lia.
Qed.

Lemma pyproj_result_has_precedence_witness :
  Script.identify_point_cloud_crs Scenario.inside_cloud <> EmptyString
  /\ @Script.transform_coordinates Scenario.externals Scenario.inside_cloud
       "EPSG:26913" (Some Script.define_custom_transform)
     = Ok [(1 # 2, 1 # 2); (3 # 2, 5 # 2)]%Q.
Proof.
  assert (Hname : Script.identify_point_cloud_crs Scenario.inside_cloud <> EmptyString)
    by (vm_compute; discriminate).
  split; [exact Hname|].
  exact (proj1 (@pyproj_result_has_precedence Scenario.externals Scenario.inside_cloud
                  "EPSG:26913" Scenario.identity_transformer
                  [1 # 2; 3 # 2]%Q [1 # 2; 5 # 2]%Q
                  (Some Script.define_custom_transform) Hname eq_refl eq_refl)).
Defined.

(** ** Coordinates *)

Lemma qlt_false (a b : Q) : Numpy.qlt a b = false -> (b <= a)%Q.
Proof.
  unfold Numpy.qlt. intros H. apply negb_false_iff in H. apply Qle_bool_iff. exact H.
Qed.

Lemma fold_min_bound (rest : list Q) :
  forall init,
    (fold_left (fun m v => if Numpy.qlt v m then v else m) rest init <= init)%Q
    /\ (forall x, In x rest ->
                  (fold_left (fun m v => if Numpy.qlt v m then v else m) rest init <= x)%Q).
Proof.
  induction rest as [|v rest IH]; intros init; simpl.
  - split; [apply Qle_refl|intros x []].
  - destruct (Numpy.qlt v init) eqn:Hlt.
    + apply qlt_true in Hlt. destruct (IH v) as [Hv Hrest]. split.
      * eapply Qle_trans; [exact Hv|]. apply Qlt_le_weak. exact Hlt.
      * intros x [<-|Hx]; auto.
    + apply qlt_false in Hlt. destruct (IH init) as [Hi Hrest]. split; [exact Hi|].
      intros x [<-|Hx]; auto. eapply Qle_trans; eassumption.
Qed.

Lemma fold_max_bound (rest : list Q) :
  forall init,
    (init <= fold_left (fun m v => if Numpy.qlt m v then v else m) rest init)%Q
    /\ (forall x, In x rest ->
                  (x <= fold_left (fun m v => if Numpy.qlt m v then v else m) rest init)%Q).
Proof.
  induction rest as [|v rest IH]; intros init; simpl.
  - split; [apply Qle_refl|intros x []].
  - destruct (Numpy.qlt init v) eqn:Hlt.
    + apply qlt_true in Hlt. destruct (IH v) as [Hv Hrest]. split.
      * eapply Qle_trans; [|exact Hv]. apply Qlt_le_weak. exact Hlt.
      * intros x [<-|Hx]; auto.
    + apply qlt_false in Hlt. destruct (IH init) as [Hi Hrest]. split; [exact Hi|].
      intros x [<-|Hx]; auto. eapply Qle_trans; eassumption.
Qed.

Lemma np_min_lower (a : list Q) (m x : Q) :
  Numpy.np_min a = Ok m -> In x a -> (m <= x)%Q.
Proof.
  destruct a as [|x0 rest]; [discriminate|]. intros Hm Hin. inversion Hm; subst.
  destruct (fold_min_bound rest x0) as [H0 Hrest]. destruct Hin as [<-|Hin]; auto.
Qed.

Lemma np_max_upper (a : list Q) (m x : Q) :
  Numpy.np_max a = Ok m -> In x a -> (x <= m)%Q.
Proof.
  destruct a as [|x0 rest]; [discriminate|]. intros Hm Hin. inversion Hm; subst.
  destruct (fold_max_bound rest x0) as [H0 Hrest]. destruct Hin as [<-|Hin]; auto.
Qed.

(** One axis of the bounds-to-bounds scaling: the image of a coordinate
    between the extrema lies between the target bounds. *)
Lemma scaled_axis_in_target (lo hi x t_lo t_hi scale : Q) :
  (lo <= x)%Q -> (x <= hi)%Q -> (t_lo < t_hi)%Q ->
  (if negb (Numpy.qeq (hi - lo) 0) then Script.py_div (t_hi - t_lo) (hi - lo)
   else Ok 1%Q) = Ok scale ->
  (t_lo <= t_lo + (x - lo) * scale)%Q /\ (t_lo + (x - lo) * scale <= t_hi)%Q.
Proof.
  intros Hlo Hhi Ht Hscale. unfold Script.py_div in Hscale.
  destruct (Numpy.qeq (hi - lo) 0) eqn:Hzero; simpl in Hscale; inversion Hscale; subst.
  - apply qeq_true in Hzero. split; lra.
  - assert (Hne : ~ (hi - lo == 0)%Q)
      by (intros Heq; apply Qeq_bool_iff in Heq; unfold Numpy.qeq in Hzero; congruence).
    assert (Hpos : (0 < hi - lo)%Q).
    { destruct (Qlt_le_dec 0 (hi - lo)) as [Hgt|Hle]; [exact Hgt|].
      exfalso. apply Hne. lra. }
    set (s := ((t_hi - t_lo) / (hi - lo))%Q).
    assert (Hs : (s * (hi - lo) == t_hi - t_lo)%Q) by (unfold s; field; exact Hne).
    assert (Hs0 : (0 <= s)%Q).
    { unfold s. apply Qle_shift_div_l; [exact Hpos|]. lra. }
    assert (Hu : (0 <= (x - lo) * s)%Q) by (apply Qmult_le_0_compat; [lra|exact Hs0]).
    assert (Hv : ((x - lo) * s <= (hi - lo) * s)%Q)
      by (apply Qmult_le_compat_r; [lra|exact Hs0]).
    split; [lra|]. rewrite (Qmult_comm (hi - lo) s), Hs in Hv. lra.
Qed.

(** X9.  The bounds-to-bounds fallback of the script maps every point of
    the cloud into the fixed target rectangle [476216.9806, 477833.0806] x
    [4424864.8564, 4426481.1064], whatever the coordinates of the cloud are. *)
Theorem fallback_lands_in_target_box (x_coords y_coords : list Q)
        (coords : list (Q * Q)) (p : Q * Q) :
  Script.bounds_to_bounds_scaling x_coords y_coords = Ok coords ->
  In p coords ->
  ((4762169806 # 10000) <= fst p)%Q /\ (fst p <= (4778330806 # 10000))%Q
  /\ ((44248648564 # 10000) <= snd p)%Q /\ (snd p <= (44264811064 # 10000))%Q.
Proof.
  unfold Script.bounds_to_bounds_scaling. intros Hok Hin.
  bind_inv Hok. bind_inv Hok. bind_inv Hok. bind_inv Hok.
  rename a into min_x, a0 into max_x, a1 into min_y, a2 into max_y.
  bind_inv Hok. bind_inv Hok. rename a into x_scale, a0 into y_scale.
  unfold Script.column_stack in Hok.
  destruct (Nat.eqb _ _); [|discriminate]. inversion Hok; subst; clear Hok.
  destruct p as [px py]. cbn [fst snd].
  pose proof (in_combine_l _ _ _ _ Hin) as Hx.
  pose proof (in_combine_r _ _ _ _ Hin) as Hy.
  apply in_map_iff in Hx. destruct Hx as (x & <- & Hx).
  apply in_map_iff in Hy. destruct Hy as (y & <- & Hy).
  destruct (scaled_axis_in_target min_x max_x x (4762169806 # 10000)
              (4778330806 # 10000) x_scale) as [Hx1 Hx2];
    [eapply np_min_lower; eassumption|eapply np_max_upper; eassumption
     |reflexivity|assumption|].
  destruct (scaled_axis_in_target min_y max_y y (44248648564 # 10000)
              (44264811064 # 10000) y_scale) as [Hy1 Hy2];
    [eapply np_min_lower; eassumption|eapply np_max_upper; eassumption
     |reflexivity|assumption|].
  auto.
Qed.

Lemma fallback_lands_in_target_box_witness :
  exists coords p,
    Script.bounds_to_bounds_scaling [0; 10; 4]%Q [7; 7; 7]%Q = Ok coords
    /\ In p coords
    /\ ((4762169806 # 10000) <= fst p)%Q /\ (fst p <= (4778330806 # 10000))%Q.
Proof.
  destruct (Script.bounds_to_bounds_scaling [0; 10; 4]%Q [7; 7; 7]%Q)
    as [[|p coords]|e] eqn:Hrun.
  - exfalso. vm_compute in Hrun. discriminate Hrun.
  - exists (p :: coords), p. split; [reflexivity|].
    assert (Hin : In p (p :: coords)) by (left; reflexivity).
    split; [exact Hin|].
    destruct (fallback_lands_in_target_box _ _ _ _ Hrun Hin) as (H1 & H2 & _).
    split; [exact H1|exact H2].
  - exfalso. vm_compute in Hrun. discriminate Hrun.
Defined.

Lemma Forall2_map_self {A B : Type} (R : A -> B -> Prop) (f : A -> B) (l : list A) :
  (forall a, R a (f a)) -> Forall2 R l (map f l).
Proof. intros H. induction l; simpl; constructor; auto. Qed.

(** X10.  The custom transform of the script never raises and returns one
    value per input, in the order of the input.  It sends the source
    rectangle [3065262.93, 3065728.85] x [1780508.57, 1780808.63] into the
    target rectangle to within a millionth of a unit, its two corners to
    within a millionth of the corners of the target.  The margin covers the
    rounding of the program's binary64 arithmetic, in which the image of a
    corner misses the target corner by less than 1e-9. *)
Theorem custom_transform_stays_near_target_box (x y : list Q) :
  exists new_x new_y,
    Script.define_custom_transform x y = Ok (new_x, new_y)
    /\ Forall2 (fun v v' =>
                  (v == (306526293 # 100) ->
                   v' <= (4762169806 # 10000) + (1 # 1000000))
                  /\ (v == (306572885 # 100) ->
                      (4778330806 # 10000) - (1 # 1000000) <= v')
                  /\ ((306526293 # 100) <= v <= (306572885 # 100) ->
                      (4762169806 # 10000) - (1 # 1000000) <= v'
                      <= (4778330806 # 10000) + (1 # 1000000)))%Q
               x new_x
    /\ Forall2 (fun v v' =>
                  (v == (178050857 # 100) ->
                   v' <= (44248648564 # 10000) + (1 # 1000000))
                  /\ (v == (178080863 # 100) ->
                      (44264811064 # 10000) - (1 # 1000000) <= v')
                  /\ ((178050857 # 100) <= v <= (178080863 # 100) ->
                      (44248648564 # 10000) - (1 # 1000000) <= v'
                      <= (44264811064 # 10000) + (1 # 1000000)))%Q
               y new_y.
Proof.
  unfold Script.define_custom_transform, Script.py_div.
  replace (Numpy.qeq ((306572885 # 100) - (306526293 # 100)) 0) with false
    by (vm_compute; reflexivity).
  replace (Numpy.qeq ((178080863 # 100) - (178050857 # 100)) 0) with false
    by (vm_compute; reflexivity).
  cbn [bind]. eexists _, _. split; [reflexivity|]. split.
  - apply Forall2_map_self. intros v.
    set (x_scale := (((4778330806 # 10000) - (4762169806 # 10000))
                     / ((306572885 # 100) - (306526293 # 100)))%Q).
    assert (Hscale : (x_scale == 16161000 # 4659200)%Q) by reflexivity.
    rewrite Hscale. split; [|split]; intros Hv; lra.
  - apply Forall2_map_self. intros v.
    set (y_scale := (((44264811064 # 10000) - (44248648564 # 10000))
                     / ((178080863 # 100) - (178050857 # 100)))%Q).
    assert (Hscale : (y_scale == 16162500 # 3000600)%Q) by reflexivity.
    rewrite Hscale. split; [|split]; intros Hv; lra.
Qed.

(** X11.  No coordinate ranges satisfy two of the three fallback rules of
    the archived CRS resolver, so the CRS it guesses does not depend on the
    order in which the rules are tested. *)
Theorem crs_rules_exclude_each_other (r : Spec.Ranges) :
  Spec.global_projected r && Spec.geographic_minima r = false
  /\ Spec.global_projected r && Spec.regional_grid r = false
  /\ Spec.geographic_minima r && Spec.regional_grid r = false
  /\ forall order : list Spec.Rule,
       Permutation order Spec.rules_on_minima ->
       Spec.first_match order r
       = Archive.guess_crs_from_ranges (Spec.x_min r) (Spec.x_max r)
                                       (Spec.y_min r) (Spec.y_max r).
Proof.
  assert (H1 : Spec.global_projected r && Spec.geographic_minima r = false).
  { destruct (Spec.global_projected r) eqn:Hg;
      destruct (Spec.geographic_minima r) eqn:Hm; try reflexivity.
    exfalso. unfold Spec.global_projected, Spec.geographic_minima in *.
    repeat (apply andb_true_iff in Hg; destruct Hg as [Hg ?]).
    repeat (apply andb_true_iff in Hm; destruct Hm as [Hm ?]).
    apply qlt_true in Hg. apply qle_true in Hm. lra. }
  assert (H2 : Spec.global_projected r && Spec.regional_grid r = false).
  { destruct (Spec.global_projected r) eqn:Hg;
      destruct (Spec.regional_grid r) eqn:Hm; try reflexivity.
    exfalso. unfold Spec.global_projected, Spec.regional_grid in *.
    repeat (apply andb_true_iff in Hg; destruct Hg as [Hg ?]).
    repeat (apply andb_true_iff in Hm; destruct Hm as [Hm ?]).
    apply qlt_true in Hg. apply qlt_true in Hm. lra. }
  assert (H3 : Spec.geographic_minima r && Spec.regional_grid r = false).
  { destruct (Spec.geographic_minima r) eqn:Hg;
      destruct (Spec.regional_grid r) eqn:Hm; try reflexivity.
    exfalso. unfold Spec.geographic_minima, Spec.regional_grid in *.
    repeat (apply andb_true_iff in Hg; destruct Hg as [Hg ?]).
    repeat (apply andb_true_iff in Hm; destruct Hm as [Hm ?]).
    match goal with Hle : Numpy.qle (Spec.x_min r) 180 = true |- _ =>
                      apply qle_true in Hle end.
    apply qlt_true in Hm. lra. }
  repeat split; try assumption.
  intros order Hperm. rewrite guess_crs_first_match.
  assert (Hlen : List.length order = 3%nat)
    by (rewrite (Permutation_length Hperm); reflexivity).
  destruct order as [|a [|b [|c [|d rest]]]]; try discriminate Hlen.
  assert (Hcases : forall x, In x [a; b; c] -> In x Spec.rules_on_minima)
    by (intros x Hx; eapply Permutation_in; eassumption).
  assert (Hnodup : NoDup [a; b; c]).
  { eapply Permutation_NoDup;
      [apply Permutation_sym; exact Hperm|].
    unfold Spec.rules_on_minima.
    repeat constructor; simpl; intuition congruence. }
  pose proof (Hcases a (or_introl eq_refl)) as Ha.
  pose proof (Hcases b (or_intror (or_introl eq_refl))) as Hb.
  pose proof (Hcases c (or_intror (or_intror (or_introl eq_refl)))) as Hc.
  unfold Spec.rules_on_minima in Ha, Hb, Hc. simpl in Ha, Hb, Hc.
  inversion Hnodup as [|? ? Hna Hnd']; subst.
  inversion Hnd' as [|? ? Hnb Hnd'']; subst. simpl in Hna, Hnb.
  destruct (Spec.global_projected r) eqn:Eg;
    destruct (Spec.geographic_minima r) eqn:Em;
    destruct (Spec.regional_grid r) eqn:Er; try discriminate;
    destruct Ha as [<-|[<-|[<-|[]]]]; destruct Hb as [<-|[<-|[<-|[]]]];
      destruct Hc as [<-|[<-|[<-|[]]]];
      try (exfalso; apply Hna; simpl; tauto);
      try (exfalso; apply Hnb; simpl; tauto);
      unfold Spec.rules_on_minima; simpl; rewrite ?Eg, ?Em, ?Er; reflexivity.
Qed.

(** ** The report and the pixel grid *)

Lemma nat_ratio_in_unit (a b : nat) :
  (a <= b)%nat -> (0 < b)%nat ->
  (0 <= inject_Z (Z.of_nat a) / inject_Z (Z.of_nat b))%Q
  /\ (inject_Z (Z.of_nat a) / inject_Z (Z.of_nat b) <= 1)%Q.
Proof.
  intros Hab Hb.
  assert (Hpos : (0 < inject_Z (Z.of_nat b))%Q)
    by (change 0%Q with (inject_Z 0); rewrite <- Zlt_Qlt; lia).
  assert (Ha : (0 <= inject_Z (Z.of_nat a))%Q)
    by (change 0%Q with (inject_Z 0); rewrite <- Zle_Qle; lia).
  assert (Hle : (inject_Z (Z.of_nat a) <= inject_Z (Z.of_nat b))%Q)
    by (rewrite <- Zle_Qle; lia).
  split.
  - apply Qle_shift_div_l; [exact Hpos|]. lra.
  - apply Qle_shift_div_r; [exact Hpos|]. lra.
Qed.

(** X12.  In a report of [create_summary_report] the colorization rate is a
    fraction between 0 and 1, it is 0 when no point is valid, and for a
    non-empty colour array the trimming rate is a fraction between 0 and 1
    as well. *)
Theorem report_rates_are_fractions (colors : list Color) (mask : list bool)
        (stats : Archive.ProcessingStats) (cstats : Archive.ColorStats) :
  Archive.create_summary_report colors mask = Ok (stats, cstats) ->
  (0 <= Archive.colorization_rate stats)%Q
  /\ (Archive.colorization_rate stats <= 1)%Q
  /\ (Archive.trimmed_points stats = 0%nat -> Archive.colorization_rate stats = 0%Q)
  /\ (colors <> [] ->
      (0 <= Archive.trimming_rate stats)%Q /\ (Archive.trimming_rate stats <= 1)%Q).
Proof.
  unfold Archive.create_summary_report. intros Hok. bind_inv Hok.
  apply mask_select_inv in E. destruct E as [Hlen ->].
  inversion Hok; subst; clear Hok.
  cbn [Archive.colorization_rate Archive.trimmed_points Archive.trimming_rate].
  pose proof (filter_length_le Archive.any_positive (Numpy.select colors mask)) as Hf.
  pose proof (select_length colors mask Hlen) as Hsel.
  pose proof (@count_true_le mask) as Hc.
  destruct (Nat.ltb 0 (List.length (Numpy.select colors mask))) eqn:Hpos.
  - apply Nat.ltb_lt in Hpos.
    destruct (nat_ratio_in_unit _ _ Hf Hpos) as [H0 H1].
    repeat split; try assumption.
    + intros Hzero. lia.
    + apply nat_ratio_in_unit; [lia|].
      destruct colors; [congruence|simpl; lia].
    + apply nat_ratio_in_unit; [lia|].
      destruct colors; [congruence|simpl; lia].
  - apply Nat.ltb_ge in Hpos.
    repeat split; try (apply Qle_refl); try (intros; reflexivity); try lra.
    + apply nat_ratio_in_unit; [lia|].
      destruct colors; [congruence|simpl; lia].
    + apply nat_ratio_in_unit; [lia|].
      destruct colors; [congruence|simpl; lia].
Qed.

Lemma report_rates_are_fractions_witness :
  exists stats cstats,
    Archive.create_summary_report [(0, 0, 0); (5, 0, 0); (9, 9, 9)] [true; true; false]
    = Ok (stats, cstats)
    /\ (0 <= Archive.colorization_rate stats)%Q
    /\ (Archive.colorization_rate stats <= 1)%Q.
Proof.
  destruct (Archive.create_summary_report [(0, 0, 0); (5, 0, 0); (9, 9, 9)]
              [true; true; false]) as [[stats cstats]|e] eqn:Hrun.
  - exists stats, cstats. split; [reflexivity|].
    destruct (report_rates_are_fractions _ _ _ _ Hrun) as (H0 & H1 & _).
    split; [exact H0|exact H1].
  - exfalso. vm_compute in Hrun. discriminate Hrun.
Defined.

(** X13.  Every pixel the archived colorizer reads lies on the raster: at a
    point whose mask entry is true the column index is in [0, width) and the
    row index in [0, height), so no sample is taken through a negative or an
    overlong index. *)
Theorem valid_points_index_the_raster `{Externals} (las : Las.LasData)
        (ortho : Raster.Dataset) (tx ty : list Q) (pc : Raster.Bounds)
        (ov : bool * bool) (l : Archive.Located) (i : nat) :
  Archive.locate las ortho tx ty pc ov = Ok l ->
  nth_error (Archive.valid_mask l) i = Some true ->
  exists col row,
    nth_error (Archive.pixel_cols l) i = Some col
    /\ nth_error (Archive.pixel_rows l) i = Some row
    /\ 0 <= col < Raster.width ortho
    /\ 0 <= row < Raster.height ortho.
Proof.
  unfold Archive.locate. intros Hok Hm. bind_inv Hok. destruct a as [cols rows].
  inversion Hok; subst; clear Hok. cbn [Archive.valid_mask Archive.pixel_cols
                                         Archive.pixel_rows] in *.
  unfold Archive.make_valid_mask in Hm.
  rewrite nth_error_map in Hm.
  destruct (nth_error (combine cols rows) i) as [[col row]|] eqn:Hcr; [|discriminate].
  simpl in Hm. inversion Hm as [Hvalid]. clear Hm.
  exists col, row.
  assert (Hsplit : nth_error cols i = Some col /\ nth_error rows i = Some row).
  { clear - Hcr. revert rows i Hcr.
    induction cols as [|c cols IH]; intros [|r rows] [|i] Hcr; simpl in *;
      try discriminate.
    - inversion Hcr; subst. auto.
    - apply IH. exact Hcr. }
  destruct Hsplit as [Hc Hr]. repeat split; try assumption;
    unfold Archive.valid_pixel in Hvalid;
    repeat (apply andb_true_iff in Hvalid; destruct Hvalid as [Hvalid ?]);
    lia.
Qed.

Lemma valid_points_index_the_raster_witness :
  exists l col row,
    @Archive.locate Scenario.externals Scenario.inside_cloud Scenario.white8
      [1 # 2; 3 # 2]%Q [1 # 2; 5 # 2]%Q (Raster.bounds Scenario.white8) (true, true)
    = Ok l
    /\ nth_error (Archive.valid_mask l) 1 = Some true
    /\ nth_error (Archive.pixel_cols l) 1 = Some col
    /\ 0 <= col < Raster.width Scenario.white8
    /\ 0 <= row < Raster.height Scenario.white8.
Proof.
  destruct (@Archive.locate Scenario.externals Scenario.inside_cloud Scenario.white8
              [1 # 2; 3 # 2]%Q [1 # 2; 5 # 2]%Q (Raster.bounds Scenario.white8)
              (true, true)) as [l|e] eqn:Hloc.
  - assert (Hm : nth_error (Archive.valid_mask l) 1 = Some true).
    { pose proof Hloc as Hval. vm_compute in Hval. inversion Hval. reflexivity. }
    destruct (@valid_points_index_the_raster Scenario.externals _ _ _ _ _ _ _ 1%nat
                Hloc Hm) as (col & row & Hc & _ & Hcol & Hrow).
    exists l, col, row. split; [reflexivity|]. auto.
  - exfalso. vm_compute in Hloc. discriminate Hloc.
Defined.
(** ** Acquisition: the sizes that are requested *)

Lemma unique_sizes_of_filter (s : string) :
  Http.unique_sizes_of s
  = s :: filter (fun f => negb (String.eqb f s)) Http.fallback_sizes.
Proof.
  unfold Http.unique_sizes_of, Http.fallback_sizes.
  cbn [Http.unique_from existsb filter].
  destruct (String.eqb "2048,2048" s) eqn:E1;
    destruct (String.eqb "1024,1024" s) eqn:E2;
    destruct (String.eqb "512,512" s) eqn:E3;
    try (apply String.eqb_eq in E1; apply String.eqb_eq in E2; congruence);
    try (apply String.eqb_eq in E1; apply String.eqb_eq in E3; congruence);
    try (apply String.eqb_eq in E2; apply String.eqb_eq in E3; congruence);
    reflexivity.
Qed.

Lemma unique_sizes_of_shape (s : string) :
  NoDup (Http.unique_sizes_of s)
  /\ (3 <= List.length (Http.unique_sizes_of s) <= 4)%nat
  /\ (forall size, In size (Http.unique_sizes_of s) <->
                   size = s \/ In size Http.fallback_sizes).
Proof.
  rewrite unique_sizes_of_filter. unfold Http.fallback_sizes. cbn [filter].
  destruct (String.eqb_spec "2048,2048" s) as [E1|E1];
    destruct (String.eqb_spec "1024,1024" s) as [E2|E2];
    destruct (String.eqb_spec "512,512" s) as [E3|E3];
    try congruence; cbn [negb].
  all: split; [|split; [cbn [List.length]; lia|]].
  all: try (repeat constructor; cbn [In]; intuition (subst; congruence || discriminate)).
  all: intros size; cbn [In]; intuition (subst; auto).
Qed.

Lemma prefix_append (a b : string) : String.prefix a (a ++ b) = true.
Proof.
  induction a as [|c a IH]; [destruct b; reflexivity|].
  cbn [String.append String.prefix].
  destruct (Ascii.ascii_dec c c) as [_|Hne]; [exact IH|congruence].
Qed.

Lemma append_assoc (a b c : string) : ((a ++ b) ++ c = a ++ (b ++ c))%string.
Proof. induction a as [|x a IH]; [reflexivity|]. cbn [String.append]. now rewrite IH. Qed.

(** No width from 200 to 2000 is printed as [2048]. *)
Lemma target_text_table :
  Spec.holds_from
    (fun w => negb (String.prefix (str_of_Z w ++ ",") "2048,2048")) 1801 200 = true.
Proof. vm_compute. reflexivity. Qed.

Lemma target_size_not_2048 (w h : Z) :
  200 <= w <= 2000 -> Http.size_text w h <> "2048,2048"%string.
Proof.
  intros Hw Heq.
  pose proof (holds_from_spec _ _ _ target_text_table w ltac:(lia)) as Htable.
  cbv beta in Htable. apply negb_true_iff in Htable.
  rewrite <- Heq in Htable. unfold Http.size_text in Htable.
  rewrite <- append_assoc in Htable. rewrite prefix_append in Htable. discriminate.
Qed.

(** X14.  The corrected download asks for a target image of 200 to 2000
    pixels a side, and its list of sizes is that target, then 2048,2048, then
    the smaller fallbacks: three or four sizes, none of them twice.  The
    second request is thus larger than the capped target. *)
Theorem corrected_sizes_are_bounded `{Trigonometry} (pc_bounds : Raster.Bounds) :
  let request := Acquisition.corrected_request pc_bounds in
  200 <= Acquisition.target_width request <= 2000
  /\ 200 <= Acquisition.target_height request <= 2000
  /\ Acquisition.image_size request
     = Http.size_text (Acquisition.target_width request)
                      (Acquisition.target_height request)
  /\ (exists rest,
         Acquisition.unique_sizes request
         = Acquisition.image_size request :: "2048,2048"%string :: rest
         /\ (1 <= List.length rest <= 2)%nat)
  /\ NoDup (Acquisition.unique_sizes request).
Proof.
  cbv zeta. unfold Acquisition.corrected_request.
  cbn [Acquisition.target_width Acquisition.target_height Acquisition.image_size
       Acquisition.unique_sizes].
  split; [lia|]. split; [lia|]. split; [reflexivity|].
  split; [|apply unique_sizes_of_shape].
  match goal with
  | |- context [Http.size_text ?w ?h] =>
      assert (Hne : Http.size_text w h <> "2048,2048"%string)
        by (apply target_size_not_2048; lia);
      generalize dependent (Http.size_text w h)
  end.
  intros s Hne. rewrite unique_sizes_of_filter.
  unfold Http.fallback_sizes. cbn [filter].
  assert (E1 : String.eqb "2048,2048" s = false)
    by (apply String.eqb_neq; congruence).
  rewrite E1. cbn [negb].
  destruct (String.eqb_spec "1024,1024" s) as [E2|E2];
    destruct (String.eqb_spec "512,512" s) as [E3|E3];
    try congruence; cbn [negb];
    eexists; (split; [reflexivity|cbn [List.length]; lia]).
Qed.

(** ** Acquisition: the loop over the sizes *)

(** In the archive every reply that is not taken for an image moves the
    loop to the next size; the text of a service error plays no part. *)
Lemma attempt_step_acceptable (attempt count : nat) (r : Http.Response) :
  Acquisition.attempt_step attempt count r
  = if Http.acceptable r then Acquisition.Return
    else if Nat.ltb attempt (count - 1) then Acquisition.Continue
         else Acquisition.Break.
Proof.
  unfold Acquisition.attempt_step, Http.acceptable.
  destruct (Http.raises r); [reflexivity|].
  destruct (Http.file_size r <? 1000); cbn [negb orb andb].
  - destruct (Http.body r) as [|message|text]; cbn [andb].
    + destruct (str_startswith "image/" (Http.content_type r)); cbn [negb andb];
        [destruct (Nat.ltb attempt (count - 1)); reflexivity|reflexivity].
    + destruct (str_contains "size limit" (str_lower (Http.error_message message)));
        destruct (Nat.ltb attempt (count - 1)); reflexivity.
    + reflexivity.
  - rewrite andb_false_r. reflexivity.
Qed.

Lemma attempts_from (service : nat -> string -> Http.Response) (count : nat) :
  forall (sizes : list string) (k : nat),
    sizes <> [] -> count = (k + List.length sizes)%nat ->
    exists n size,
      nth_error sizes n = Some size
      /\ snd (Acquisition.attempts service count k sizes) = firstn (S n) sizes
      /\ (forall i s, (i < n)%nat -> nth_error sizes i = Some s ->
                      Http.acceptable (service (k + i)%nat s) = false)
      /\ (if Http.acceptable (service (k + n)%nat size)
          then fst (Acquisition.attempts service count k sizes) = Some size
          else fst (Acquisition.attempts service count k sizes) = None
               /\ S n = List.length sizes).
Proof.
  induction sizes as [|size rest IH]; intros k Hne Hcount; [congruence|].
  cbn [Acquisition.attempts]. rewrite attempt_step_acceptable.
  destruct (Http.acceptable (service k size)) eqn:Hacc.
  - exists 0%nat, size. rewrite Nat.add_0_r, Hacc. cbn.
    repeat split; try reflexivity. intros i s Hi. lia.
  - destruct rest as [|size' rest'].
    + assert (Hlast : Nat.ltb k (count - 1) = false)
        by (apply Nat.ltb_ge; cbn [List.length] in Hcount; lia).
      rewrite Hlast. exists 0%nat, size. rewrite Nat.add_0_r, Hacc. cbn.
      repeat split; try reflexivity. intros i s Hi. lia.
    + assert (Hmore : Nat.ltb k (count - 1) = true)
        by (apply Nat.ltb_lt; cbn [List.length] in Hcount; lia).
      rewrite Hmore.
      destruct (IH (S k) ltac:(discriminate)
                   ltac:(cbn [List.length] in *; lia))
        as (n & s & Hnth & Hreq & Hbefore & Hend).
      destruct (Acquisition.attempts service count (S k) (size' :: rest'))
        as [saved requested].
      cbn [fst snd] in *.
      exists (S n), s. replace (k + S n)%nat with (S k + n)%nat by lia.
      split; [exact Hnth|]. split; [rewrite Hreq; reflexivity|].
      split.
      * intros i s0 Hi Hs0. destruct i as [|i].
        -- rewrite Nat.add_0_r. cbn in Hs0. inversion Hs0; subst. exact Hacc.
        -- replace (k + S i)%nat with (S k + i)%nat by lia.
           apply Hbefore; [lia|exact Hs0].
      * destruct (Http.acceptable (service (S k + n)%nat s)); [exact Hend|].
        destruct Hend as [Hnone Hlen]. split; [exact Hnone|].
        cbn [List.length] in *. lia.
Qed.

(** X15.  The corrected download requests the sizes of its list in order and
    stops at the first reply it takes for an image: that size is saved.  Every
    earlier reply was refused, whatever its error; the download fails only
    when every size of the list was requested and every reply refused. *)
Theorem corrected_download_takes_first_image `{Trigonometry}
        (service : nat -> string -> Http.Response) (pc_bounds : Raster.Bounds) :
  let sizes := Acquisition.unique_sizes (Acquisition.corrected_request pc_bounds) in
  let run := Acquisition.download_corrected_orthophoto service pc_bounds in
  exists n size,
    nth_error sizes n = Some size
    /\ snd run = firstn (S n) sizes
    /\ (forall i s, (i < n)%nat -> nth_error sizes i = Some s ->
                    Http.acceptable (service i s) = false)
    /\ (if Http.acceptable (service n size)
        then fst run = Some size
        else fst run = None /\ snd run = sizes).
Proof.
  cbv zeta. unfold Acquisition.download_corrected_orthophoto.
  set (sizes := Acquisition.unique_sizes (Acquisition.corrected_request pc_bounds)).
  assert (Hne : sizes <> []).
  { unfold sizes, Acquisition.corrected_request. cbn [Acquisition.unique_sizes].
    rewrite unique_sizes_of_filter. discriminate. }
  destruct (attempts_from service (List.length sizes) sizes 0 Hne eq_refl)
    as (n & size & Hnth & Hreq & Hbefore & Hend).
  exists n, size. cbn [Nat.add] in *.
  split; [exact Hnth|]. split; [exact Hreq|]. split; [exact Hbefore|].
  destruct (Http.acceptable (service n size)); [exact Hend|].
  destruct Hend as [Hnone Hlen]. split; [exact Hnone|].
  rewrite Hreq, Hlen. apply firstn_all.
Qed.

(** X16.  The box requested for the corrected image contains the bounds of
    the cloud, and a cloud of no extent along an axis gets a box of no extent
    along it: the request is then for an empty box. *)
Theorem corrected_box_covers_cloud `{Trigonometry} (pc_bounds : Raster.Bounds) :
  (Raster.left pc_bounds <= Raster.right pc_bounds)%Q ->
  (Raster.bottom pc_bounds <= Raster.top pc_bounds)%Q ->
  let request := Acquisition.corrected_request pc_bounds in
  (Acquisition.min_lon request <= Raster.left pc_bounds)%Q
  /\ (Raster.right pc_bounds <= Acquisition.max_lon request)%Q
  /\ (Acquisition.min_lat request <= Raster.bottom pc_bounds)%Q
  /\ (Raster.top pc_bounds <= Acquisition.max_lat request)%Q
  /\ ((Raster.left pc_bounds == Raster.right pc_bounds)%Q ->
      (Acquisition.min_lon request == Raster.left pc_bounds)%Q
      /\ (Acquisition.max_lon request == Raster.right pc_bounds)%Q)
  /\ ((Raster.bottom pc_bounds == Raster.top pc_bounds)%Q ->
      (Acquisition.min_lat request == Raster.bottom pc_bounds)%Q
      /\ (Acquisition.max_lat request == Raster.top pc_bounds)%Q).
Proof.
  intros Hx Hy. cbv zeta. unfold Acquisition.corrected_request.
  cbn [Acquisition.min_lon Acquisition.max_lon Acquisition.min_lat Acquisition.max_lat].
  repeat split; try lra; intros Heq; lra.
Qed.

Lemma corrected_box_covers_cloud_witness :
  (Raster.left Replies.boulder <= Raster.right Replies.boulder)%Q
  /\ (Raster.bottom Replies.boulder <= Raster.top Replies.boulder)%Q
  /\ (Acquisition.min_lon (@Acquisition.corrected_request Replies.parabola Replies.boulder)
      <= Raster.left Replies.boulder)%Q.
Proof.
  assert (Hx : (Raster.left Replies.boulder <= Raster.right Replies.boulder)%Q)
    by (vm_compute; discriminate).
  assert (Hy : (Raster.bottom Replies.boulder <= Raster.top Replies.boulder)%Q)
    by (vm_compute; discriminate).
  split; [exact Hx|]. split; [exact Hy|].
  exact (proj1 (@corrected_box_covers_cloud Replies.parabola Replies.boulder Hx Hy)).
Defined.
(** ** Acquisition: the retries of the point-cloud download *)

Lemma three_attempts : Numpy.range 0 3 1 = [0; 1; 2]%nat.
Proof. reflexivity. Qed.

Ltac contradict_with H :=
  exfalso; eapply H; [lia|first [eassumption|reflexivity]].

Ltac retry_cases download :=
  unfold Acquisition.fetch_outcome, Acquisition.download_with_retries;
  rewrite three_attempts; cbn [Acquisition.retry_loop];
  repeat match goal with
         | |- context [download ?i] =>
             let d := fresh "d" in
             let E := fresh "E" in
             destruct (download i) as [?|  |?] eqn:E
         | |- context [Acquisition.is_network_error ?m] =>
             destruct (Acquisition.is_network_error m)
         end;
  cbn [Acquisition.loop_end Acquisition.calls Acquisition.slept
       andb Nat.ltb Nat.leb Nat.eqb Nat.sub app List.length].

(** X17.  The point-cloud download is tried at least once and at most three
    times, and the program sleeps only between two attempts: first 5 seconds,
    then 10, never more than 15 seconds in all. *)
Theorem retries_are_bounded (download : nat -> Acquisition.Download) :
  let run := Acquisition.download_with_retries download in
  (1 <= Acquisition.calls run <= 3)%nat
  /\ (exists k, Acquisition.slept run = firstn k [5; 10])
  /\ (List.length (Acquisition.slept run) < Acquisition.calls run)%nat
  /\ fold_right Z.add 0 (Acquisition.slept run) <= 15.
Proof.
  cbv zeta. retry_cases download.
  all: split; [lia|].
  all: split;
    [first [exists 0%nat; reflexivity | exists 1%nat; reflexivity
           | exists 2%nat; reflexivity]|].
  all: split; [lia|cbn; lia].
Qed.

(** X18.  The fetch returns a path exactly when one of the three attempts
    downloads a file, and then the path of the first attempt that does: an
    attempt that raises or creates no file before it is passed over, whether
    or not its error is a network error. *)
Theorem first_download_is_returned (download : nat -> Acquisition.Download)
        (path : string) :
  Acquisition.fetch_outcome download = inl path
  <-> exists i, (i < 3)%nat
                /\ download i = Acquisition.Downloaded path
                /\ forall j p, (j < i)%nat -> download j <> Acquisition.Downloaded p.
Proof.
  split.
  - retry_cases download; intros Hout; try discriminate Hout;
      inversion Hout; subst;
      match goal with
      | E : download ?i = Acquisition.Downloaded _ |- _ =>
          exists i; split; [lia|]; split; [exact E|]
      end;
      intros j p Hj; do 3 (try destruct j as [|j]); try lia; congruence.
  - intros (i & Hi & Hget & Hbefore).
    do 3 (try destruct i as [|i]); try lia.
    + retry_cases download; congruence.
    + pose proof (Hbefore 0%nat) as H0.
      retry_cases download; try congruence; contradict_with H0.
    + pose proof (Hbefore 0%nat) as H0. pose proof (Hbefore 1%nat) as H1.
      retry_cases download; try congruence;
        first [contradict_with H0|contradict_with H1].
Qed.

(** X19.  When no attempt downloads a file, only the third attempt decides
    the error: its exception goes through the handler of the function, and if
    it raised none the error is the message about three failed attempts,
    unchanged.  What the first two attempts raised is not reported. *)
Theorem only_last_error_is_reported (download : nat -> Acquisition.Download) :
  (forall i p, (i < 3)%nat -> download i <> Acquisition.Downloaded p) ->
  Acquisition.fetch_outcome download
  = inr match download 2%nat with
        | Acquisition.Failed message => Acquisition.reraise message
        | _ => Acquisition.exhausted_message
        end.
Proof.
  intros Hnone.
  pose proof (Hnone 0%nat) as H0. pose proof (Hnone 1%nat) as H1.
  pose proof (Hnone 2%nat) as H2.
  retry_cases download; try reflexivity;
    first [contradict_with H0|contradict_with H1|contradict_with H2].
Qed.

Lemma only_last_error_is_reported_witness :
  (forall i p, (i < 3)%nat ->
               (fun _ : nat => Acquisition.Failed "disk full") i
               <> Acquisition.Downloaded p)
  /\ Acquisition.fetch_outcome (fun _ => Acquisition.Failed "disk full")
     = inr "Failed to fetch point cloud data: disk full"%string.
Proof.
  assert (Hnone : forall i p, (i < 3)%nat ->
                              (fun _ : nat => Acquisition.Failed "disk full") i
                              <> Acquisition.Downloaded p)
    by (intros i p _; discriminate).
  split; [exact Hnone|].
  exact (only_last_error_is_reported (fun _ => Acquisition.Failed "disk full") Hnone).
Defined.
(** ** The image fetcher: limits and sizes *)

Lemma qeq_iff (a b : Q) : Numpy.qeq a b = true <-> (a == b)%Q.
Proof. unfold Numpy.qeq. apply Qeq_bool_iff. Qed.

Lemma naip_div_ok (x y : Q) :
  ~ (y == 0)%Q -> Naip.py_div x y = Ok (x / y)%Q.
Proof.
  intros Hy. unfold Naip.py_div.
  destruct (Numpy.qeq y 0) eqn:E; [|reflexivity].
  apply qeq_iff in E. contradiction.
Qed.

Lemma naip_div_zero (x y : Q) :
  (y == 0)%Q -> Naip.py_div x y = Raise ZeroDivision.
Proof.
  intros Hy. unfold Naip.py_div. apply qeq_iff in Hy. rewrite Hy. reflexivity.
Qed.

(** X20.  Reading the service description keeps the two size limits
    positive: a reported limit replaces the current one only when it is a
    number above zero, and a failed request changes nothing. *)
Theorem service_limits_stay_positive (self : Naip.NAIPFetcher) (reply : Naip.InfoReply) :
  (0 < Naip.num_value (Naip.max_image_width self))%Q ->
  (0 < Naip.num_value (Naip.max_image_height self))%Q ->
  (0 < Naip.num_value (Naip.max_image_width (Naip._fetch_service_info self reply)))%Q
  /\ (0 < Naip.num_value (Naip.max_image_height (Naip._fetch_service_info self reply)))%Q
  /\ Naip._fetch_service_info self Naip.InfoFailed = self.
Proof.
  intros Hw Hh. split; [|split; [|reflexivity]].
  - destruct reply as [|info]; [exact Hw|]. unfold Naip._fetch_service_info.
    destruct (Naip.info_get info "maxImageWidth" (Naip.max_image_width self)) as [n|];
      destruct (Naip.info_get info "maxImageHeight" (Naip.max_image_height self)) as [m|];
      destruct (Naip.info_get info "pixelSizeX" (Naip.native_pixel_size self));
      destruct (Naip.info_get info "pixelSizeY" (Naip.native_pixel_size self));
      try destruct (Naip.num_lt (Naip.NumInt 0) n) eqn:En;
      try destruct (Naip.num_lt (Naip.NumInt 0) m) eqn:Em;
      cbn [Naip.max_image_width]; try exact Hw;
      apply qlt_true in En; exact En.
  - destruct reply as [|info]; [exact Hh|]. unfold Naip._fetch_service_info.
    destruct (Naip.info_get info "maxImageWidth" (Naip.max_image_width self)) as [n|];
      destruct (Naip.info_get info "maxImageHeight" (Naip.max_image_height self)) as [m|];
      destruct (Naip.info_get info "pixelSizeX" (Naip.native_pixel_size self));
      destruct (Naip.info_get info "pixelSizeY" (Naip.native_pixel_size self));
      try destruct (Naip.num_lt (Naip.NumInt 0) n) eqn:En;
      try destruct (Naip.num_lt (Naip.NumInt 0) m) eqn:Em;
      cbn [Naip.max_image_height]; try exact Hh;
      apply qlt_true in Em; exact Em.
Qed.

Lemma service_limits_stay_positive_witness :
  Naip.num_value (Naip.max_image_width (Naip.init (Naip.InfoObject Replies.odd_description)))
  = 4000%Q
  /\ (0 < Naip.num_value
            (Naip.max_image_height (Naip.init (Naip.InfoObject Replies.odd_description))))%Q.
Proof.
  split; [reflexivity|].
  exact (proj1 (proj2 (service_limits_stay_positive
                         {| Naip.max_image_width := Naip.NumInt 4000;
                            Naip.max_image_height := Naip.NumInt 4000;
                            Naip.native_pixel_size := Naip.NumFloat 1 |}
                         (Naip.InfoObject Replies.odd_description)
                         eq_refl eq_refl))).
Defined.

Lemma fetched_pixel_size (self : Naip.NAIPFetcher) (info : string -> option Naip.JsonValue)
      (px py : Naip.Num) :
  info "pixelSizeX"%string = Some (Naip.JNumber px) ->
  info "pixelSizeY"%string = Some (Naip.JNumber py) ->
  Naip.native_pixel_size (Naip._fetch_service_info self (Naip.InfoObject info))
  = Naip.py_min px py.
Proof.
  intros Hx Hy. unfold Naip._fetch_service_info, Naip.info_get. rewrite Hx, Hy.
  reflexivity.
Qed.

(** X21.  The reported pixel sizes are not checked: when the service
    description gives two numbers of which the smaller is zero, every export
    with an automatic size raises ZeroDivisionError, before any image is
    requested. *)
Theorem zero_pixel_size_stops_automatic_export `{Trigonometry} `{FloatText}
        (self : Naip.NAIPFetcher) (info : string -> option Naip.JsonValue)
        (px py : Naip.Num) (service : nat -> string -> Http.Response)
        (min_lon min_lat max_lon max_lat : Q) (image_size : option string) :
  info "pixelSizeX"%string = Some (Naip.JNumber px) ->
  info "pixelSizeY"%string = Some (Naip.JNumber py) ->
  (Naip.num_value (Naip.py_min px py) == 0)%Q ->
  image_size = None \/ image_size = Some "auto"%string ->
  Naip.export_image (Naip._fetch_service_info self (Naip.InfoObject info)) service
                    min_lon min_lat max_lon max_lat image_size
  = Raise ZeroDivision.
Proof.
  intros Hx Hy Hzero Hauto.
  assert (Hsize : Naip._calculate_optimal_size
                    (Naip._fetch_service_info self (Naip.InfoObject info))
                    min_lon min_lat max_lon max_lat None
                  = Raise ZeroDivision).
  { unfold Naip._calculate_optimal_size, Naip.optimal_pixels.
    rewrite (fetched_pixel_size self info px py Hx Hy).
    rewrite naip_div_zero by exact Hzero. reflexivity. }
  unfold Naip.export_image.
  destruct Hauto as [->| ->]; cbn [String.eqb Ascii.eqb Bool.eqb]; rewrite Hsize;
    reflexivity.
Qed.

Lemma zero_pixel_size_stops_automatic_export_witness :
  @Naip.export_image Replies.parabola Replies.decimal_floor
    (Naip.init (Naip.InfoObject Replies.odd_description))
    (fun _ _ => Replies.image) (-105) 40 (-104) 41 None
  = Raise ZeroDivision.
Proof.
  assert (Hzero : (Naip.num_value (Naip.py_min (Naip.NumInt 0) (Naip.NumFloat (6 # 10)))
                   == 0)%Q) by reflexivity.
  exact (@zero_pixel_size_stops_automatic_export Replies.parabola Replies.decimal_floor
           _ Replies.odd_description (Naip.NumInt 0) (Naip.NumFloat (6 # 10))
           (fun _ _ => Replies.image) (-105) 40 (-104) 41 None
           eq_refl eq_refl Hzero (or_introl eq_refl)).
Defined.




(** ** The image fetcher: the box around an address *)

Lemma acre_bbox_zero `{Trigonometry} (latitude longitude : Q) :
  (cos_of_degrees latitude == 0)%Q ->
  Naip.calculate_acre_bbox latitude longitude = Raise ZeroDivision.
Proof.
  intros Hcos. unfold Naip.calculate_acre_bbox.
  rewrite naip_div_ok by discriminate. cbn [bind].
  rewrite naip_div_zero; [reflexivity|]. rewrite Hcos. reflexivity.
Qed.

Lemma acre_bbox_value `{Trigonometry} (latitude longitude : Q) :
  ~ (cos_of_degrees latitude == 0)%Q ->
  Naip.calculate_acre_bbox latitude longitude
  = Ok (longitude - (1272 # 10) / (111000 * cos_of_degrees latitude) / 2,
        latitude - (1272 # 10) / 111000 / 2,
        longitude + (1272 # 10) / (111000 * cos_of_degrees latitude) / 2,
        latitude + (1272 # 10) / 111000 / 2)%Q.
Proof.
  intros Hcos. unfold Naip.calculate_acre_bbox.
  rewrite naip_div_ok by discriminate. cbn [bind].
  rewrite naip_div_ok; [reflexivity|].
  intros Hz. apply Hcos. apply Qmult_integral in Hz.
  destruct Hz as [Hz|Hz]; [discriminate Hz|exact Hz].
Qed.

(** X23.  For a point with latitude in [-90, 90] and longitude in
    [-180, 180] at which the cosine of the latitude is positive, the box
    around an address is defined and contains the point, and by the
    conversion the code uses (111000 metres to a degree, shortened by the
    cosine of the latitude for longitudes) it is between 127 and 128 metres
    high and wide. *)
Theorem acre_box_contains_point `{Trigonometry} (latitude longitude : Q) :
  (-90 <= latitude <= 90)%Q -> (-180 <= longitude <= 180)%Q ->
  (0 < cos_of_degrees latitude)%Q ->
  exists min_lon min_lat max_lon max_lat,
    Naip.calculate_acre_bbox latitude longitude
    = Ok (min_lon, min_lat, max_lon, max_lat)
    /\ (min_lon <= longitude <= max_lon)%Q
    /\ (min_lat <= latitude <= max_lat)%Q
    /\ (127 <= (max_lat - min_lat) * 111000 <= 128)%Q
    /\ (127 <= (max_lon - min_lon) * 111000 * cos_of_degrees latitude <= 128)%Q.
Proof.
  intros _ _ Hcos.
  assert (Hne : ~ (cos_of_degrees latitude == 0)%Q)
    by (intros Hzero; rewrite Hzero in Hcos; discriminate Hcos).
  rewrite (acre_bbox_value latitude longitude Hne).
  do 4 eexists. split; [reflexivity|].
  assert (Hd : (0 < (1272 # 10) / (111000 * cos_of_degrees latitude) / 2)%Q).
  { apply Qlt_shift_div_l; [reflexivity|].
    apply Qlt_shift_div_l; lra. }
  assert (Hw : ((longitude + (1272 # 10) / (111000 * cos_of_degrees latitude) / 2
                 - (longitude - (1272 # 10) / (111000 * cos_of_degrees latitude) / 2))
                * 111000 * cos_of_degrees latitude == 1272 # 10)%Q)
    by (field; exact Hne).
  assert (Hk : ((1272 # 10) / 111000 / 2 == 1272 # 2220000)%Q) by reflexivity.
  set (h := ((1272 # 10) / (111000 * cos_of_degrees latitude) / 2)%Q) in *.
  set (k := ((1272 # 10) / 111000 / 2)%Q) in *.
  split; [split; lra|]. split; [rewrite Hk; split; lra|].
  split; [rewrite Hk; split; lra|].
  rewrite Hw. split; discriminate.
Qed.

Lemma acre_box_contains_point_witness :
  exists min_lon min_lat max_lon max_lat,
    @Naip.calculate_acre_bbox Replies.parabola 45 (-105)
    = Ok (min_lon, min_lat, max_lon, max_lat)
    /\ (min_lon <= -105 <= max_lon)%Q.
Proof.
  assert (Hlat : (-90 <= 45 <= 90)%Q) by (split; discriminate).
  assert (Hlon : (-180 <= -105 <= 180)%Q) by (split; discriminate).
  assert (Hcos : (0 < @cos_of_degrees Replies.parabola 45)%Q)
    by (vm_compute; reflexivity).
  destruct (@acre_box_contains_point Replies.parabola 45 (-105) Hlat Hlon Hcos)
    as (a & b & c & d & Hrun & Hin & _).
  exists a, b, c, d. split; [exact Hrun|exact Hin].
Defined.

(** ** The image fetcher: the loop over the sizes *)

Lemma export_step_cases (attempt count : nat) (r : Http.Response) :
  match Naip.export_step attempt count r with
  | Naip.Return => Http.acceptable r = true
  | Naip.Continue _ => Http.acceptable r = false /\ Nat.ltb attempt (count - 1) = true
  | Naip.RaiseNow _ => Http.acceptable r = false
  end.
Proof.
  unfold Naip.export_step, Http.acceptable.
  destruct (Http.raises r);
    [destruct (Nat.ltb attempt (count - 1)); auto|].
  destruct (Http.file_size r <? 1000); cbn [negb orb andb].
  - destruct (Http.body r) as [|message|text]; cbn [andb].
    + destruct (str_startswith "image/" (Http.content_type r)); cbn [negb andb];
        [|reflexivity].
      destruct (Nat.ltb attempt (count - 1)); cbn [andb]; auto.
    + destruct (str_contains "size limit" (str_lower (Http.error_message message)));
        destruct (Nat.ltb attempt (count - 1)); cbn [andb]; auto;
        match goal with
        | |- context [if ?c then _ else _] => destruct c; auto
        end.
    + destruct (Nat.ltb attempt (count - 1)); cbn [andb]; auto;
        match goal with
        | |- context [if ?c then _ else _] => destruct c; auto
        end.
  - rewrite andb_false_r. reflexivity.
Qed.

Lemma export_from (service : nat -> string -> Http.Response) (count : nat) :
  forall (sizes : list string) (k : nat) (last_error : option string),
    sizes <> [] -> count = (k + List.length sizes)%nat ->
    exists n size,
      nth_error sizes n = Some size
      /\ Naip.requested (Naip.export_loop service count k sizes last_error)
         = firstn (S n) sizes
      /\ (forall i s, (i < n)%nat -> nth_error sizes i = Some s ->
                      Http.acceptable (service (k + i)%nat s) = false)
      /\ (if Http.acceptable (service (k + n)%nat size)
          then Naip.outcome (Naip.export_loop service count k sizes last_error)
               = Naip.Saved size
          else exists message,
              Naip.outcome (Naip.export_loop service count k sizes last_error)
              = Naip.ExportFailed message
              /\ Naip.export_step (k + n) count (service (k + n)%nat size)
                 = Naip.RaiseNow message).
Proof.
  induction sizes as [|size rest IH]; intros k last_error Hne Hcount; [congruence|].
  cbn [Naip.export_loop].
  pose proof (export_step_cases k count (service k size)) as Hstep.
  destruct (Naip.export_step k count (service k size)) as [|e|m] eqn:Hk.
  - exists 0%nat, size. rewrite Nat.add_0_r, Hstep. cbn.
    repeat split; try reflexivity. intros i s Hi. lia.
  - destruct Hstep as [Hacc Hmore]. apply Nat.ltb_lt in Hmore.
    destruct rest as [|size' rest']; [cbn [List.length] in Hcount; lia|].
    destruct (IH (S k) (Some e) ltac:(discriminate)
                 ltac:(cbn [List.length] in *; lia))
      as (n & s & Hnth & Hreq & Hbefore & Hend).
    cbn [Naip.outcome Naip.requested].
    exists (S n), s. replace (k + S n)%nat with (S k + n)%nat by lia.
    split; [exact Hnth|]. split; [rewrite Hreq; reflexivity|].
    split; [|exact Hend].
    intros i s0 Hi Hs0. destruct i as [|i].
    + rewrite Nat.add_0_r. cbn in Hs0. inversion Hs0; subst. exact Hacc.
    + replace (k + S i)%nat with (S k + i)%nat by lia.
      apply Hbefore; [lia|exact Hs0].
  - exists 0%nat, size. rewrite Nat.add_0_r, Hstep. cbn.
    repeat split; try reflexivity; [intros i s Hi; lia|].
    exists m. split; [reflexivity|exact Hk].
Qed.

Lemma unique_sizes_of_nonempty (s : string) : Http.unique_sizes_of s <> [].
Proof. rewrite unique_sizes_of_filter. discriminate. Qed.

(** X24.  [export_image] requests at most four sizes, none of them twice,
    the first being the size asked for, and it stops at the first reply it
    takes for an image: that size is saved and recorded.  Every reply before
    it was refused. *)
Theorem export_saves_first_image (service : nat -> string -> Http.Response)
        (requested_size : string) :
  let sizes := Http.unique_sizes_of requested_size in
  let run := Naip.export_sizes service requested_size in
  NoDup sizes /\ (List.length sizes <= 4)%nat
  /\ hd_error sizes = Some requested_size
  /\ exists n size,
      nth_error sizes n = Some size
      /\ Naip.requested run = firstn (S n) sizes
      /\ (forall i s, (i < n)%nat -> nth_error sizes i = Some s ->
                      Http.acceptable (service i s) = false)
      /\ (if Http.acceptable (service n size)
          then Naip.outcome run = Naip.Saved size
          else exists message, Naip.outcome run = Naip.ExportFailed message).
Proof.
  cbv zeta. destruct (unique_sizes_of_shape requested_size) as (Hnodup & Hlen & _).
  split; [exact Hnodup|]. split; [lia|].
  split; [rewrite unique_sizes_of_filter; reflexivity|].
  unfold Naip.export_sizes.
  destruct (export_from service (List.length (Http.unique_sizes_of requested_size))
              (Http.unique_sizes_of requested_size) 0 None
              (unique_sizes_of_nonempty requested_size) eq_refl)
    as (n & size & Hnth & Hreq & Hbefore & Hend).
  exists n, size. cbn [Nat.add] in *.
  split; [exact Hnth|]. split; [exact Hreq|]. split; [exact Hbefore|].
  destruct (Http.acceptable (service n size)); [exact Hend|].
  destruct Hend as (m & Hm & _). exists m. exact Hm.
Qed.

Lemma str_contains_cons (needle s : string) (c : Ascii.ascii) :
  str_contains needle s = true -> str_contains needle (String c s) = true.
Proof.
  unfold str_contains. cbn [String.index].
  destruct (String.prefix needle (String c s)); [reflexivity|].
  destruct (String.index 0 needle s); [reflexivity|discriminate].
Qed.

Lemma str_contains_suffix (needle p s : string) :
  str_contains needle s = true -> str_contains needle (p ++ s) = true.
Proof.
  intros Hs. induction p as [|c p IH]; [exact Hs|].
  cbn [String.append]. apply str_contains_cons. exact IH.
Qed.

Lemma str_lower_append (a b : string) :
  str_lower (a ++ b) = (str_lower a ++ str_lower b)%string.
Proof.
  induction a as [|c a IH]; [reflexivity|].
  cbn [String.append str_lower]. now rewrite IH.
Qed.

(** X25.  A service error that speaks neither of a size limit nor of a
    small image ends [export_image] at once: the error is raised after the
    first request and no smaller size is tried. *)
Theorem export_stops_on_other_service_error (service : nat -> string -> Http.Response)
        (requested_size : string) (message : option string) :
  let text := ("NAIP service error: " ++ Http.error_message message)%string in
  Http.raises (service 0%nat requested_size) = None ->
  Http.file_size (service 0%nat requested_size) < 1000 ->
  Http.body (service 0%nat requested_size) = Http.JsonObject message ->
  str_contains "size limit" (str_lower text) = false ->
  str_contains "small image" (str_lower text) = false ->
  Naip.export_sizes service requested_size
  = {| Naip.outcome := Naip.ExportFailed text;
       Naip.requested := [requested_size] |}.
Proof.
  cbv zeta. intros Hraises Hsmall Hbody Hlimit Himage.
  unfold Naip.export_sizes. rewrite unique_sizes_of_filter.
  cbn [Naip.export_loop]. unfold Naip.export_step.
  rewrite Hraises, Hbody. apply Z.ltb_lt in Hsmall. rewrite Hsmall.
  assert (Hinner : str_contains "size limit"
                     (str_lower (Http.error_message message)) = false).
  { destruct (str_contains "size limit" (str_lower (Http.error_message message)))
      eqn:E; [|reflexivity].
    rewrite str_lower_append in Hlimit.
    rewrite (str_contains_suffix _ _ _ E) in Hlimit. discriminate Hlimit. }
  rewrite Hinner, Hlimit, Himage. cbn [andb orb].
  rewrite andb_false_r. reflexivity.
Qed.

Lemma export_stops_on_other_service_error_witness :
  Naip.export_sizes (Replies.after_first Replies.bad_request) "800,600"
  = {| Naip.outcome :=
         Naip.ExportFailed "NAIP service error: Invalid or missing input parameters.";
       Naip.requested := [ "800,600"%string ] |}.
Proof.
  assert (Hsmall : Http.file_size (Replies.after_first Replies.bad_request 0%nat
                                     "800,600") < 1000) by (vm_compute; reflexivity).
  exact (export_stops_on_other_service_error
           (Replies.after_first Replies.bad_request) "800,600"
           (Some "Invalid or missing input parameters."%string)
           eq_refl Hsmall eq_refl eq_refl eq_refl).
Defined.

(** X26.  A request that raises never ends [export_image] while a size is
    left: when every refused reply is a request exception, the export either
    saves an image or has requested every size of its list. *)
Theorem export_survives_request_errors (service : nat -> string -> Http.Response)
        (requested_size : string) :
  (forall i s, Http.acceptable (service i s) = false ->
               Http.raises (service i s) <> None) ->
  let run := Naip.export_sizes service requested_size in
  (exists size, Naip.outcome run = Naip.Saved size)
  \/ Naip.requested run = Http.unique_sizes_of requested_size.
Proof.
  intros Hraise. cbv zeta. unfold Naip.export_sizes.
  destruct (export_from service (List.length (Http.unique_sizes_of requested_size))
              (Http.unique_sizes_of requested_size) 0 None
              (unique_sizes_of_nonempty requested_size) eq_refl)
    as (n & size & Hnth & Hreq & _ & Hend).
  cbn [Nat.add] in *.
  destruct (Http.acceptable (service n size)) eqn:Hacc;
    [left; exists size; exact Hend|].
  right. destruct Hend as (m & _ & Hstep).
  specialize (Hraise n size Hacc).
  unfold Naip.export_step in Hstep.
  destruct (Http.raises (service n size)) as [e|]; [|congruence].
  destruct (Nat.ltb n (List.length (Http.unique_sizes_of requested_size) - 1))
    eqn:Hlast; [discriminate Hstep|].
  apply Nat.ltb_ge in Hlast.
  assert (Hn : (n < List.length (Http.unique_sizes_of requested_size))%nat)
    by (apply nth_error_Some; congruence).
  rewrite Hreq. apply firstn_all2. lia.
Qed.

Lemma export_survives_request_errors_witness :
  (exists size,
      Naip.outcome (Naip.export_sizes (Replies.after_first Replies.timed_out) "1024,1024")
      = Naip.Saved size)
  \/ Naip.requested (Naip.export_sizes (Replies.after_first Replies.timed_out) "1024,1024")
     = Http.unique_sizes_of "1024,1024".
Proof.
  apply (export_survives_request_errors (Replies.after_first Replies.timed_out)
           "1024,1024").
  intros i s. destruct i as [|i]; cbn; [discriminate|discriminate].
Defined.
(** ** The image fetcher: the automatic size of the box around an address *)

Lemma py_int_comp (x y : Q) : (x == y)%Q -> py_int x = py_int y.
Proof.
  intros Hxy. unfold py_int, Numpy.qlt.
  assert (Hle : Qle_bool 0 x = Qle_bool 0 y).
  { destruct (Qle_bool 0 x) eqn:Ex; destruct (Qle_bool 0 y) eqn:Ey; try reflexivity.
    - apply Qle_bool_iff in Ex. rewrite Hxy in Ex. apply Qle_bool_iff in Ex. congruence.
    - apply Qle_bool_iff in Ey. rewrite <- Hxy in Ey. apply Qle_bool_iff in Ey.
      congruence. }
  rewrite Hle. destruct (negb (Qle_bool 0 y));
    [apply Qceiling_comp|apply Qfloor_comp]; exact Hxy.
Qed.

(** X27.  With the limits and the pixel size the fetcher starts from, the
    automatic size for the box around an address is 127 by 127 pixels,
    wherever the address lies. *)
Theorem acre_box_automatic_size `{Trigonometry} (latitude longitude : Q)
        (min_lon min_lat max_lon max_lat : Q) :
  (forall x y, (x == y)%Q -> (cos_of_degrees x == cos_of_degrees y)%Q) ->
  Naip.calculate_acre_bbox latitude longitude
  = Ok (min_lon, min_lat, max_lon, max_lat) ->
  Naip.optimal_pixels (Naip.init Naip.InfoFailed) min_lon min_lat max_lon max_lat None
  = Ok (Naip.NumInt 127, Naip.NumInt 127).
Proof.
  intros Hcomp Hbox.
  destruct (Qeq_dec (cos_of_degrees latitude) 0) as [Hzero|Hcos].
  { rewrite (acre_bbox_zero latitude longitude Hzero) in Hbox. discriminate Hbox. }
  rewrite (acre_bbox_value latitude longitude Hcos) in Hbox.
  inversion Hbox; subst; clear Hbox.
  unfold Naip.optimal_pixels, Naip.init, Naip._fetch_service_info.
  cbn [Naip.native_pixel_size Naip.max_image_width Naip.max_image_height
       Naip.num_value].
  rewrite !naip_div_ok by discriminate. cbn [bind].
  match goal with
  | |- context [py_int (?width_m / 1)] =>
      assert (Hw : py_int (width_m / 1) = 127);
      [rewrite (py_int_comp _ (1272 # 10)); [reflexivity|]|rewrite Hw; clear Hw]
  end.
  { match goal with
    | |- context [cos_of_degrees ((?a + ?b) / 2)] =>
        assert (Hmid : (cos_of_degrees ((a + b) / 2) == cos_of_degrees latitude)%Q)
          by (apply Hcomp; field)
    end.
    rewrite Hmid. field. exact Hcos. }
  match goal with
  | |- context [py_int (?height_m / 1)] =>
      assert (Hh : py_int (height_m / 1) = 127);
      [rewrite (py_int_comp _ (1272 # 10)); [reflexivity|field]|rewrite Hh; clear Hh]
  end.
  reflexivity.
Qed.

Lemma acre_box_automatic_size_witness :
  exists min_lon min_lat max_lon max_lat,
    @Naip.calculate_acre_bbox Replies.parabola 45 (-105)
    = Ok (min_lon, min_lat, max_lon, max_lat)
    /\ @Naip.optimal_pixels Replies.parabola (Naip.init Naip.InfoFailed)
         min_lon min_lat max_lon max_lat None
       = Ok (Naip.NumInt 127, Naip.NumInt 127).
Proof.
  assert (Hcomp : forall x y, (x == y)%Q ->
                              (@cos_of_degrees Replies.parabola x
                               == @cos_of_degrees Replies.parabola y)%Q)
    by (intros x y Hxy; cbn; rewrite Hxy; reflexivity).
  destruct (@Naip.calculate_acre_bbox Replies.parabola 45 (-105))
    as [[[[a b] c] d]|e] eqn:Hbox.
  - exists a, b, c, d. split; [reflexivity|].
    exact (@acre_box_automatic_size Replies.parabola 45 (-105) a b c d Hcomp Hbox).
  - exfalso. vm_compute in Hbox. discriminate Hbox.
Defined.

(** ** The script from the command line *)

Lemma count_true_zero (mask : list bool) :
  Numpy.count_true mask = 0%nat -> Forall (fun v => v = false) mask.
Proof.
  unfold Numpy.count_true. induction mask as [|m mask IH]; intros Hzero;
    [constructor|].
  destruct m; cbn in Hzero; [discriminate|]. constructor; [reflexivity|auto].
Qed.

Lemma column_stack_length (xs ys : list Q) (coords : list (Q * Q)) :
  Script.column_stack xs ys = Ok coords -> List.length coords = List.length xs.
Proof.
  unfold Script.column_stack.
  destruct (Nat.eqb (List.length xs) (List.length ys)) eqn:E; [|discriminate].
  apply Nat.eqb_eq in E. intros Hok. inversion Hok; subst.
  rewrite length_combine. lia.
Qed.

Lemma script_transform_length `{Externals} (las : Las.LasData) (target : string)
      (use_custom : bool) (coords : list (Q * Q)) :
  Script.transform_coordinates las target
    (if use_custom then Some Script.define_custom_transform else None) = Ok coords ->
  List.length coords = List.length (Las.points las).
Proof.
  assert (Hxs : List.length (Las.xs las) = List.length (Las.points las))
    by (unfold Las.xs; apply length_map).
  unfold Script.transform_coordinates.
  match goal with
  | |- match ?attempt with Ok _ => _ | Raise _ => _ end = _ -> _ =>
      destruct attempt as [coords0|e] eqn:Hattempt
  end.
  - intros Hok. inversion Hok; subst; clear Hok.
    destruct (negb (String.eqb (Script.identify_point_cloud_crs las) EmptyString));
      [|discriminate].
    destruct (transformer_from_crs (Script.identify_point_cloud_crs las) target)
      as [t|]; [|discriminate].
    bind_inv Hattempt. destruct a as [tx ty].
    apply transformer_transform_length in E. destruct E as (_ & Hx & _).
    apply column_stack_length in Hattempt. lia.
  - clear Hattempt. destruct use_custom.
    + unfold Script.define_custom_transform. intros Hok.
      bind_inv Hok. destruct a as [tx ty].
      bind_inv E. bind_inv E. inversion E; subst; clear E.
      apply column_stack_length in Hok. rewrite length_map in Hok. lia.
    + unfold Script.bounds_to_bounds_scaling. intros Hok.
      repeat bind_inv Hok.
      apply column_stack_length in Hok. rewrite length_map in Hok. lia.
Qed.

Lemma convert_shape `{Externals} (las : Las.LasData) (raster : Raster.Dataset)
      (use_custom : bool) (x_offset y_offset : Q)
      (pixel_x pixel_y : list Z) (valid_points : list bool) (plotted : bool) :
  ScriptMain.convert_point_cloud_to_image_coordinates las raster
    (if use_custom then Some Script.define_custom_transform else None)
    x_offset y_offset = Ok (pixel_x, pixel_y, valid_points, plotted) ->
  List.length pixel_x = List.length (Las.points las)
  /\ List.length pixel_y = List.length (Las.points las)
  /\ List.length valid_points = List.length (Las.points las)
  /\ plotted = Nat.eqb (Numpy.count_true valid_points) 0.
Proof.
  unfold ScriptMain.convert_point_cloud_to_image_coordinates. intros Hok.
  bind_inv Hok. apply script_transform_length in E.
  destruct (rowcol (Raster.transform raster)) as [rc|]; [|discriminate].
  inversion Hok; subst; clear Hok.
  assert (Hshift :
            List.length
              (if negb (Numpy.qeq x_offset 0) || negb (Numpy.qeq y_offset 0)
               then map (fun p => (fst p + x_offset, snd p + y_offset)%Q) a
               else a) = List.length (Las.points las)).
  { destruct (negb (Numpy.qeq x_offset 0) || negb (Numpy.qeq y_offset 0));
      [rewrite length_map|]; exact E. }
  rewrite !length_map, length_combine, !length_map, Hshift.
  repeat split; try reflexivity. lia.
Qed.

(** X28.  The script writes a point cloud only when at least one point falls
    inside the image: with no such point it draws the diagnostic plot, writes
    nothing and returns 1.  Otherwise it returns 0 and the cloud it writes has
    the header and every point of the input, black where the point falls
    outside the image. *)
Theorem main_writes_every_point_or_nothing `{Externals}
        (las_data : Las.LasData) (raster_dataset : Raster.Dataset)
        (use_custom_transform : bool) (x_offset y_offset : Q)
        (code : Z) (saved : option Las.LasData) :
  ScriptMain.main las_data raster_dataset use_custom_transform x_offset y_offset
  = Ok (code, saved) ->
  exists pixel_x pixel_y valid_points plotted,
    ScriptMain.convert_point_cloud_to_image_coordinates las_data raster_dataset
      (if use_custom_transform then Some Script.define_custom_transform else None)
      x_offset y_offset = Ok (pixel_x, pixel_y, valid_points, plotted)
    /\ List.length valid_points = List.length (Las.points las_data)
    /\ ((code = 1 /\ saved = None /\ plotted = true
         /\ Forall (fun v => v = false) valid_points)
        \/ (code = 0 /\ plotted = false
            /\ exists out,
                saved = Some out
                /\ Las.header out = Las.header las_data
                /\ List.length (Las.points out) = List.length (Las.points las_data)
                /\ forall i p,
                    nth_error valid_points i = Some false ->
                    nth_error (Las.points out) i = Some p ->
                    Las.pt_dim p "red" = 0 /\ Las.pt_dim p "green" = 0
                    /\ Las.pt_dim p "blue" = 0)).
Proof.
  unfold ScriptMain.main. intros Hok. bind_inv Hok.
  destruct a as [[[pixel_x pixel_y] valid_points] plotted].
  exists pixel_x, pixel_y, valid_points, plotted. split; [reflexivity|].
  destruct (convert_shape _ _ _ _ _ _ _ _ _ E) as (Hpx & _ & Hvalid & Hplot).
  split; [exact Hvalid|].
  destruct (Nat.eqb (Numpy.count_true valid_points) 0) eqn:Hcount.
  - left. inversion Hok; subst. repeat split.
    apply count_true_zero. apply Nat.eqb_eq. exact Hcount.
  - right. bind_inv Hok. destruct a as [colors printed]. bind_inv Hok.
    inversion Hok; subst; clear Hok.
    split; [reflexivity|]. split; [reflexivity|].
    exists a. split; [reflexivity|].
    destruct (extract_colors_shape _ _ _ _ _ _ E0) as (Hcolors & _ & Hblack).
    unfold Script.save_colorized_point_cloud in E1.
    destruct (negb (Las.hasattr las_data "red" && Las.hasattr las_data "green"
                    && Las.hasattr las_data "blue")); [discriminate|].
    destruct (Nat.eqb (List.length colors) (List.length (Las.points las_data)))
      eqn:Hlen; cbn [negb] in E1; [|discriminate].
    apply Nat.eqb_eq in Hlen. inversion E1; subst; clear E1.
    cbn [Las.header Las.points].
    split; [reflexivity|].
    split; [rewrite length_map, length_combine; lia|].
    intros i p Hfalse Hp.
    rewrite nth_error_map in Hp.
    destruct (nth_error (combine (Las.points las_data) colors) i) as [[q c]|] eqn:Hqc;
      [|discriminate Hp].
    cbn [option_map fst snd] in Hp. inversion Hp; subst p; clear Hp.
    specialize (Hblack i Hfalse).
    assert (Hc : nth_error colors i = Some c).
    { assert (Hs : nth_error (map snd (combine (Las.points las_data) colors)) i
                   = Some c)
        by (rewrite nth_error_map, Hqc; reflexivity).
      rewrite map_snd_combine in Hs by lia. exact Hs. }
    rewrite Hblack in Hc. inversion Hc; subst.
    cbn. repeat split; reflexivity.
Qed.

Lemma main_writes_every_point_or_nothing_witness :
  exists out,
    @ScriptMain.main Scenario.externals Scenario.timed_cloud Scenario.white8 false 0 0
    = Ok (0, Some out)
    /\ List.length (Las.points out) = 2%nat.
Proof.
  destruct (@ScriptMain.main Scenario.externals Scenario.timed_cloud Scenario.white8
              false 0 0) as [[code saved]|e] eqn:Hrun.
  - destruct (@main_writes_every_point_or_nothing Scenario.externals _ _ _ _ _ _ _ Hrun)
      as (px & py & valid & plotted & _ & _ & [(Hcode & _)|(Hcode & _ & out & Hsaved & _ & Hn & _)]).
    + exfalso. subst code. vm_compute in Hrun. discriminate Hrun.
    + exists out. subst code saved. split; [reflexivity|exact Hn].
  - exfalso. vm_compute in Hrun. discriminate Hrun.
Defined.
(** ** Loading the point cloud *)

(** X29.  [load_point_cloud] returns a point cloud exactly when the file
    can be read and holds at least one point: a file without points ends in
    the RuntimeError of the loader, since the bounds of no points cannot be
    taken. *)
Theorem loaded_cloud_is_not_empty (file : Acquisition.LasFile) (las : Las.LasData) :
  Acquisition.load_point_cloud file = inl las
  <-> file = Acquisition.Readable las /\ Las.points las <> [].
Proof.
  unfold Acquisition.load_point_cloud. split.
  - destruct file as [| |las0]; try discriminate.
    unfold Las.xs, Las.ys, Las.zs.
    destruct (Las.points las0) as [|p rest] eqn:Hpoints; [discriminate|].
    cbn [map Numpy.np_min Numpy.np_max bind].
    intros Hok. inversion Hok; subst. split; [reflexivity|].
    rewrite Hpoints. discriminate.
  - intros [-> Hne]. unfold Las.xs, Las.ys, Las.zs.
    destruct (Las.points las) as [|p rest]; [congruence|]. reflexivity.
Qed.
(** ** The properties above on the scenarios *)

Lemma custom_transform_stays_near_target_box_witness :
  exists new_x new_y,
    Script.define_custom_transform [306526293 # 100]%Q [178050857 # 100]%Q
    = Ok (new_x, new_y)
    /\ List.length new_x = 1%nat.
Proof.
  destruct (custom_transform_stays_near_target_box
              [306526293 # 100]%Q [178050857 # 100]%Q)
    as (new_x & new_y & Hrun & Hx & _).
  exists new_x, new_y. split; [exact Hrun|].
  symmetry. exact (Forall2_length Hx).
Defined.

Lemma crs_rules_exclude_each_other_witness :
  Spec.first_match Spec.rules_on_minima
    {| Spec.x_min := 476000; Spec.x_max := 478000;
       Spec.y_min := 4424000; Spec.y_max := 4427000 |}
  = Archive.guess_crs_from_ranges 476000 478000 4424000 4427000.
Proof.
  exact (proj2 (proj2 (proj2 (crs_rules_exclude_each_other
                                {| Spec.x_min := 476000; Spec.x_max := 478000;
                                   Spec.y_min := 4424000; Spec.y_max := 4427000 |})))
               Spec.rules_on_minima (Permutation_refl _)).
Defined.

Lemma corrected_sizes_are_bounded_witness :
  NoDup (Acquisition.unique_sizes
           (@Acquisition.corrected_request Replies.parabola Replies.boulder))
  /\ Acquisition.unique_sizes
       (@Acquisition.corrected_request Replies.parabola Replies.boulder)
     = [ "446,278"; "2048,2048"; "1024,1024"; "512,512" ]%string.
Proof.
  split; [|reflexivity].
  exact (proj2 (proj2 (proj2 (proj2 (@corrected_sizes_are_bounded Replies.parabola
                                       Replies.boulder))))).
Defined.

Lemma corrected_download_takes_first_image_witness :
  exists n size,
    nth_error (Acquisition.unique_sizes
                 (@Acquisition.corrected_request Replies.parabola Replies.boulder)) n
    = Some size
    /\ snd (@Acquisition.download_corrected_orthophoto Replies.parabola Replies.limited
              Replies.boulder)
       = firstn (S n) (Acquisition.unique_sizes
                         (@Acquisition.corrected_request Replies.parabola Replies.boulder)).
Proof.
  destruct (@corrected_download_takes_first_image Replies.parabola Replies.limited
              Replies.boulder) as (n & size & Hnth & Hreq & _).
  exists n, size. split; [exact Hnth|exact Hreq].
Defined.

Lemma retries_are_bounded_witness :
  (1 <= Acquisition.calls (Acquisition.download_with_retries Replies.flaky) <= 3)%nat
  /\ Acquisition.slept (Acquisition.download_with_retries Replies.flaky) = [5; 10].
Proof.
  split; [|reflexivity].
  exact (proj1 (retries_are_bounded Replies.flaky)).
Defined.

Lemma first_download_is_returned_witness :
  Acquisition.fetch_outcome Replies.flaky = inl "data/tile.laz"%string.
Proof.
  apply (proj2 (first_download_is_returned Replies.flaky "data/tile.laz")).
  exists 2%nat. split; [lia|]. split; [reflexivity|].
  intros j p Hj. destruct j as [|[|j]]; [discriminate|discriminate|lia].
Defined.

Lemma export_saves_first_image_witness :
  exists n size,
    nth_error (Http.unique_sizes_of "4000,4000") n = Some size
    /\ Naip.requested (Naip.export_sizes Replies.limited "4000,4000")
       = firstn (S n) (Http.unique_sizes_of "4000,4000").
Proof.
  destruct (export_saves_first_image Replies.limited "4000,4000")
    as (_ & _ & _ & n & size & Hnth & Hreq & _).
  exists n, size. split; [exact Hnth|exact Hreq].
Defined.

Lemma loaded_cloud_is_not_empty_witness :
  Acquisition.load_point_cloud (Acquisition.Readable Scenario.inside_cloud)
  = inl Scenario.inside_cloud.
Proof.
  apply (proj2 (loaded_cloud_is_not_empty (Acquisition.Readable Scenario.inside_cloud)
                  Scenario.inside_cloud)).
  split; [reflexivity|]. vm_compute. discriminate.
Defined.
